(** * Historical match, macro-correlation and trade-decision engine

    A shallow embedding of the engine's Python code
    ([historical_matcher.py], [trade_picker.py] and the pattern
    aggregator of [llm_event_query.py]) together with the properties
    the specification states about it.

    Conventions of the embedding.
    - Python floats are modelled by rationals ([Q]); equality of
      numbers is [Qeq] ([==]).  Arithmetic is exact, except where the
      rounding of doubles decides what the code returns: the shares
      that are rounded to whole percentages and the sums of the
      correlation coefficient are computed with [Binary64], which
      rounds every result to the nearest double.
    - A Python dictionary with a fixed set of keys is a record whose
      fields are options: [None] is an absent key, which is what
      [d.get(k)] observes.
    - A dynamically typed entry is a [Py.value]; code that may raise
      runs in the [Py.result] monad, and a [try]/[except] is a
      [match] on the outcome.
    - Network collaborators (price series, current price, option
      expiries, the template store) are [Section] variables. *)

From Stdlib Require Import List String Ascii Bool ZArith QArith Qabs Qround Qpower.
From Stdlib Require Import Lia Lqa Permutation Sorted.
Import ListNotations.

Set Implicit Arguments.
Open Scope string_scope.
Open Scope Q_scope.

(** ** Python runtime fragments *)

Module Py.

(** Values that the engine stores under the numeric keys of a match. *)
Inductive value : Type :=
| VNone
| VNum (q : Q)
| VStr (s : string).

Inductive exn : Type :=
| TypeError (msg : string)
| AttributeError (msg : string)
| ValueError (msg : string)
| IndexError (msg : string)
| UnboundLocalError (msg : string)
| KeyError (msg : string).

Inductive result (A : Type) : Type :=
| Ok (a : A)
| Raise (e : exn).

Arguments Ok {A} a.
Arguments Raise {A} e.

Definition bind {A B} (m : result A) (k : A -> result B) : result B :=
  match m with
  | Ok a => k a
  | Raise e => Raise e
  end.

Definition is_ok {A} (m : result A) : bool :=
  match m with Ok _ => true | Raise _ => false end.

Fixpoint mapM {A B} (f : A -> result B) (l : list A) : result (list B) :=
  match l with
  | [] => Ok []
  | x :: xs =>
      bind (f x) (fun y => bind (mapM f xs) (fun ys => Ok (y :: ys)))
  end.

(** Comparisons of numbers as booleans. *)
Definition Qltb (x y : Q) : bool := negb (Qle_bool y x).
Definition Qgtb (x y : Q) : bool := Qltb y x.
Definition Qgeb (x y : Q) : bool := Qle_bool y x.

(** [max(a, b)] and [min(a, b)] keep the first argument unless the
    second is strictly better. *)
Definition max (a b : Q) : Q := if Qltb a b then b else a.
Definition min (a b : Q) : Q := if Qltb b a then b else a.

(** [isinstance(v, (int, float))]. *)
Definition is_number (v : value) : bool :=
  match v with VNum _ => true | _ => false end.

(** [abs(v)]: defined on numbers only. *)
Definition abs (v : value) : result Q :=
  match v with
  | VNum q => Ok (Qabs q)
  | VStr _ => Raise (TypeError "bad operand type for abs(): 'str'")
  | VNone => Raise (TypeError "bad operand type for abs(): 'NoneType'")
  end.

(** A number is expected (arithmetic or ordering against a float). *)
Definition number (v : value) : result Q :=
  match v with
  | VNum q => Ok q
  | VStr _ => Raise (TypeError "unsupported operand type(s): 'str'")
  | VNone => Raise (TypeError "unsupported operand type(s): 'NoneType'")
  end.

(** [sum(l)] for a list of numbers. *)
Definition sum (l : list Q) : Q := fold_left Qplus l 0.

(** [round(x)]: to the nearest integer, ties to the even one. *)
Definition round (x : Q) : Z :=
  let f := Qfloor x in
  let d := x - inject_Z f in
  if Qltb d (1 # 2) then f
  else if Qltb (1 # 2) d then (f + 1)%Z
  else if Z.even f then f else (f + 1)%Z.

(** [round(x, 2)]. *)
Definition round2 (x : Q) : Q := inject_Z (round (x * 100)) / 100.

(** [s.lower()] on ASCII letters. *)
Definition lower_ascii (c : ascii) : ascii :=
  let n := nat_of_ascii c in
  if (65 <=? n)%nat && (n <=? 90)%nat then ascii_of_nat (n + 32) else c.

Fixpoint lower (s : string) : string :=
  match s with
  | EmptyString => EmptyString
  | String c s' => String (lower_ascii c) (lower s')
  end.

(** [l[:n]] for any integer [n]: a negative [n] counts from the end. *)
Definition slice_to {A} (l : list A) (n : Z) : list A :=
  if (0 <=? n)%Z then firstn (Z.to_nat n) l
  else firstn (List.length l - Z.to_nat (- n)) l.

(** A call [f(a)] of a function declared [def f(a, b)]: the second
    positional argument has no default, so leaving it out raises. *)
Definition call2 {A B C} (fname pname : string) (f : A -> B -> C)
  (a : A) (b : option B) : result C :=
  match b with
  | Some b => Ok (f a b)
  | None =>
      Raise (TypeError (String.append fname
               (String.append "() missing 1 required positional argument: " pname)))
  end.

Definition message (e : exn) : string :=
  match e with
  | TypeError m | AttributeError m | ValueError m | IndexError m
  | UnboundLocalError m | KeyError m => m
  end.

(** [round(x, 1)]. *)
Definition round1 (x : Q) : Q := inject_Z (round (x * 10)) / 10.

(** Truth value of an optional string and of an optional number. *)
Definition truthy_string (s : option string) : bool :=
  match s with
  | Some s => negb (String.eqb s EmptyString)
  | None => false
  end.

Definition truthy_number (q : option Q) : bool :=
  match q with
  | Some q => negb (Qeq_bool q 0)
  | None => false
  end.

End Py.

(** ** Double-precision arithmetic *)

Module Binary64.

(** The exponent of a positive rational: the integer [k] with
    [2^k <= a < 2^(k+1)]. *)
Definition ilog2 (a : Q) : Z :=
  let k := (Z.log2 (Qnum a) - Z.log2 (Zpos (Qden a)))%Z in
  if Qle_bool (2 ^ k) a then k else (k - 1)%Z.

(** The double nearest to a positive rational: a significand of 53
    bits (fewer below [2^-1022]), ties to the even significand.
    Overflow to infinity is outside the model. *)
Definition to_double (a : Q) : Q :=
  let e := Z.max (ilog2 a - 52) (-1074) in
  inject_Z (Py.round (a / 2 ^ e)) * 2 ^ e.

(** The rounding of a real result to a double. *)
Definition fl (x : Q) : Q :=
  match x ?= 0 with
  | Eq => 0
  | Gt => to_double x
  | Lt => - to_double (- x)
  end.

(** The four operations on doubles. *)
Definition add (x y : Q) : Q := fl (x + y).
Definition sub (x y : Q) : Q := fl (x - y).
Definition mul (x y : Q) : Q := fl (x * y).
Definition div (x y : Q) : Q := fl (x / y).

(** [sum(l)] of a list of doubles, added from left to right (the
    compensated summation of later interpreters is not modelled; it
    gives the same doubles on the samples of this file). *)
Definition sum (l : list Q) : Q := fold_left add l 0.

End Binary64.

Notation "x <- m ;; k" := (Py.bind m (fun x => k))
  (at level 61, m at next level, right associativity).

(** ** Dictionaries exchanged between the components *)

(** The classified headline produced by the classification provider.
    The keys [event_type], [sentiment], [sector] and [direction] are
    absent or hold a string, [event_tags] and [macro_snapshot] are
    absent or dictionaries whose flags are booleans and whose yields
    are absent or numbers; a JSON [null] under one of these keys is
    outside this record. *)
Record headline : Type := mkHeadline {
  h_event_type : option string;
  h_sentiment : option string;
  h_sector : option string;
  h_is_cpi_week : bool;
  h_surprise_positive : bool;
  h_Treasury2Y : option Q;
  h_Treasury10Y : option Q;
  h_direction : option string
}.

(** A historical event template of the template store.
    [t_affected_ticker] is [Some Py.VNone] for a JSON [null]. *)
Record template : Type := mkTemplate {
  t_event_summary : option string;
  t_event_date : option string;
  t_affected_ticker : option Py.value;
  t_event_type : option string;
  t_sentiment : option string;
  t_sector : option string
}.

Record price_data : Type := mkPriceData {
  start_price : Q;
  end_price : Q;
  lowest_price : Q;
  highest_price : Q;
  trading_days : nat
}.

(** The macro snapshot attached to a historical event. *)
Record macro_data : Type := mkMacro {
  CPI_YoY : option Q;
  FedFundsRate : option Q;
  Unemployment : option Q;
  TenYearYield : option Q;
  TwoYearYield : option Q
}.

(** The sentiment-comparison record attached to a historical event. *)
Record sentiment_analysis : Type := mkSentiment {
  classified_label : option string;
  historical_label : option string;
  agreement : option Q
}.

(** A match: the dictionary produced by the Match Scorer, possibly
    enriched by later stages with the optional keys. *)
Record event : Type := mkEvent {
  event_summary : option string;
  match_score : option Q;
  affected_ticker : option Py.value;
  price_change_pct : option Py.value;
  drop_pct : option Py.value;
  max_drawdown_pct : option Py.value;
  event_date : option string;
  date_range : option string;
  e_price_data : option price_data;
  sector : option string;
  days_to_recovery : option Q;
  e_macro_data : option macro_data;
  e_sentiment_analysis : option sentiment_analysis
}.

(** [d.get(k, default)]. *)
Definition get {A} (field : option A) (default : A) : A :=
  match field with Some v => v | None => default end.

(** [a == b] on two optional strings, [None] being Python's [None]. *)
Definition opt_string_eqb (a b : option string) : bool :=
  match a, b with
  | Some x, Some y => String.eqb x y
  | None, None => true
  | _, _ => false
  end.

(** Stable sort of a list in descending order of [ltb]-keys, as
    [sorted(l, key=k, reverse=True)] and [l.sort(key=k, reverse=True)]
    do: elements whose keys are equal keep their input order. *)
Section StableSort.
Variables (A K : Type) (key : A -> K) (ltb : K -> K -> bool).

Fixpoint insert_desc (x : A) (l : list A) : list A :=
  match l with
  | [] => [x]
  | y :: l' =>
      if ltb (key x) (key y) then y :: insert_desc x l' else x :: l
  end.

Fixpoint sort_desc (l : list A) : list A :=
  match l with
  | [] => []
  | x :: l' => insert_desc x (sort_desc l')
  end.
End StableSort.

(** ** historical_matcher.py *)

Module HistoricalMatcher.

Definition DEFAULT_TOP_N : Z := 3.
Definition DEFAULT_ANALYSIS_DAYS : nat := 7.
Definition DEFAULT_MARKET_TICKER : string := "SPY".

(** One row of the daily price frame returned by the market-data
    provider; the frame is the list of its rows in date order. *)
Record bar : Type := mkBar {
  bar_date : string;
  Open : Q;
  High : Q;
  Low : Q;
  Close : Q
}.

Definition frame := list bar.

(** The running-peak walk of [calculate_drop_percentage]: one
    iteration of the [for close in closes[1:]] loop on the state
    [(peak, max_drawdown)]. *)
Definition drawdown_step (st : Q * Q) (close : Q) : Q * Q :=
  let '(peak, max_drawdown) := st in
  let peak := Py.max peak close in
  let current_drawdown := (close / peak - 1) * 100 in
  (peak, Py.min max_drawdown current_drawdown).

Definition drawdown_walk (closes : list Q) : Q :=
  match closes with
  | [] => 0
  | c0 :: rest => snd (fold_left drawdown_step rest (c0, 0))
  end.

(** [calculate_drop_percentage(df)]: overall change and maximum
    drawdown; fewer than two rows give [(0.0, 0.0)]. *)
Definition calculate_drop_percentage (df : frame) : Q * Q :=
  if (List.length df <? 2)%nat then (0, 0)
  else
    let closes := map Close df in
    let first_close := hd 0 closes in
    let last_close := last closes 0 in
    let overall_change_pct := (last_close / first_close - 1) * 100 in
    (overall_change_pct, drawdown_walk closes).

(** [calculate_match_score(headline, template)]. *)
Definition calculate_match_score (h : headline) (t : template) : Q :=
  let score := 0 in
  let score :=
    if opt_string_eqb (h_event_type h) (t_event_type t)
    then score + (5 # 10) else score in
  let score :=
    if opt_string_eqb (h_sentiment h) (t_sentiment t)
    then score + (3 # 10) else score in
  let score :=
    if opt_string_eqb (h_sector h) (t_sector t)
    then score + (2 # 10) else score in
  score.

(** What [analyze_market_impact] returns. *)
Record impact : Type := mkImpact {
  i_price_change_pct : Py.value;
  i_max_drawdown_pct : Py.value;
  i_date_range : string;
  i_price_data : option price_data
}.

Definition impact_unavailable : impact :=
  mkImpact (Py.VStr "N/A") (Py.VStr "N/A") "N/A" None.

Section Collaborators.

(** [load_historical_events()]: the content of the template store. *)
Variable historical_events : list template.

(** [fetch_market_data(ticker, start, end)]: the provider's daily
    rows, an empty frame when nothing is available. *)
Variable fetch_market_data : string -> string -> string -> frame.

(** [datetime.strptime(s, "%Y-%m-%d")] as a day number ([None] for a
    [ValueError]) and [strftime("%Y-%m-%d")] back. *)
Variable strptime : string -> option Z.
Variable strftime : Z -> string.

(** [fetch_market_data] first calls [standardize_ticker], whose
    [ticker.upper()] needs a string. *)
Definition fetch_market_data_py (ticker : Py.value) (start_date end_date : string)
  : Py.result frame :=
  match ticker with
  | Py.VStr t => Py.Ok (fetch_market_data t start_date end_date)
  | _ => Py.Raise (Py.AttributeError "object has no attribute 'upper'")
  end.

Definition min_list (l : list Q) (d : Q) : Q :=
  match l with [] => d | x :: l' => fold_left Py.min l' x end.

Definition max_list (l : list Q) (d : Q) : Q :=
  match l with [] => d | x :: l' => fold_left Py.max l' x end.

(** [analyze_market_impact(event)]. *)
Definition analyze_market_impact (t : template) : Py.result impact :=
  let ticker := get (t_affected_ticker t) (Py.VStr DEFAULT_MARKET_TICKER) in
  let event_date := get (t_event_date t) EmptyString in
  if String.eqb event_date EmptyString then Py.Ok impact_unavailable
  else
    match strptime event_date with
    | None => Py.Ok impact_unavailable
    | Some event_datetime =>
        let end_date := strftime (event_datetime + 14) in
        df <- fetch_market_data_py ticker event_date end_date ;;
        match df with
        | [] => Py.Ok impact_unavailable
        | first :: _ =>
            let actual_start_date := bar_date first in
            let actual_end_date := bar_date (last df first) in
            let date_range := String.append actual_start_date (String.append " to " actual_end_date) in
            let pd :=
              mkPriceData (Close first) (Close (last df first))
                          (min_list (map Low df) 0) (max_list (map High df) 0)
                          (List.length df) in
            let df :=
              if (DEFAULT_ANALYSIS_DAYS <? List.length df)%nat
              then firstn DEFAULT_ANALYSIS_DAYS df else df in
            let '(price_change_pct, max_drawdown_pct) :=
              calculate_drop_percentage df in
            Py.Ok (mkImpact (Py.VNum price_change_pct) (Py.VNum max_drawdown_pct)
                            date_range (Some pd))
        end
    end.

(** The scored, filtered, sorted and truncated templates
    ([top_events] in [match_similar_events]). *)
Definition scored_events (h : headline) : list (Q * template) :=
  filter (fun p => Py.Qgtb (fst p) 0)
         (map (fun e => (calculate_match_score h e, e)) historical_events).

Definition top_events (h : headline) (top_n : Z) : list (Q * template) :=
  Py.slice_to (sort_desc (@fst Q template) Py.Qltb (scored_events h)) top_n.

(** The body of the [for score, event in top_events] loop: the
    [try] branch on success, the [except] branch otherwise. *)
Definition build_result (p : Q * template) : event :=
  let '(score, e) := p in
  match analyze_market_impact e with
  | Py.Ok impact_data =>
      mkEvent (Some (get (t_event_summary e) EmptyString))
              (Some (Py.round2 score))
              (Some (get (t_affected_ticker e) (Py.VStr DEFAULT_MARKET_TICKER)))
              (Some (i_price_change_pct impact_data))
              None
              (Some (i_max_drawdown_pct impact_data))
              (Some (get (t_event_date e) EmptyString))
              (Some (i_date_range impact_data))
              (i_price_data impact_data)
              None None None None
  | Py.Raise _ =>
      mkEvent (Some (get (t_event_summary e) EmptyString))
              (Some (Py.round2 score))
              (Some (get (t_affected_ticker e) (Py.VStr DEFAULT_MARKET_TICKER)))
              (Some (Py.VStr "N/A (processing error)"))
              None
              (Some (Py.VStr "N/A (processing error)"))
              (Some (get (t_event_date e) EmptyString))
              (Some "N/A")
              None
              None None None None
  end.

(** [match_similar_events(classified_headline, top_n)]. *)
Definition match_similar_events (h : headline) (top_n : Z) : list event :=
  match historical_events with
  | [] => []
  | _ => map build_result (top_events h top_n)
  end.

End Collaborators.

End HistoricalMatcher.

(** ** trade_picker.py *)

Module TradePicker.

Record trade_idea : Type := mkTradeIdea {
  ticker : option Py.value;
  trade_type : string;
  direction : string;
  option_type : option string;
  strike : option Q;
  expiry : option string;
  rationale : string
}.

(** [get_price_change], the local helper of [generate_trade_idea]. *)
Definition get_price_change (e : event) : Py.result Q :=
  match price_change_pct e with
  | Some v => Py.abs v
  | None =>
      match drop_pct e with
      | Some v => Py.abs v
      | None => Py.Ok 0
      end
  end.

(** Python's ordering of the key tuples [(price change, match score)]. *)
Definition key_ltb (a b : Q * Q) : bool :=
  Py.Qltb (fst a) (fst b) || (Qeq_bool (fst a) (fst b) && Py.Qltb (snd a) (snd b)).

Definition sort_key (e : event) : Py.result ((Q * Q) * event) :=
  k <- get_price_change e ;;
  Py.Ok ((k, get (match_score e) 0), e).

(** [sorted(historical_matches, key=..., reverse=True)[0]]: every key
    is computed before the list is ordered. *)
Definition select_top_match (historical_matches : list event) : Py.result event :=
  keyed <- Py.mapM sort_key historical_matches ;;
  match sort_desc (@fst (Q * Q) event) key_ltb keyed with
  | [] => Py.Raise (Py.IndexError "list index out of range")
  | top :: _ => Py.Ok (snd top)
  end.

(** [select_strike_price(current_price, option_type, price_change_pct)]. *)
Definition select_strike_price (current_price : Q) (option_type : string)
  (price_change_pct : Q) : Q :=
  let otm_pct := Py.min (Qabs price_change_pct * (3 # 10)) 5 in
  let target :=
    if String.eqb option_type "PUT"
    then current_price * (1 - otm_pct / 100)
    else current_price * (1 + otm_pct / 100) in
  if Py.Qltb current_price 100
  then inject_Z (Py.round (target * 2)) / 2
  else inject_Z (Py.round target).

Section Market.

(** [fetch_current_price(ticker)]: [0.0] when no price is found. *)
Variable fetch_current_price : Py.value -> Q.

(** The expiry dates of [fetch_option_data(ticker)]. *)
Variable fetch_option_expiries : Py.value -> list string.

(** The clock and the calendar: today's day number, the weekday of
    a day (Monday is 0), and the conversions of dates and numbers
    from and to text. *)
Variable today : Z.
Variable weekday : Z -> Z.
Variable strptime : string -> option Z.
Variable strftime : Z -> string.
Variable format_2f : Q -> string.
Variable str : Py.value -> string.

(** [get_next_friday(from_date)]. *)
Definition get_next_friday (from_date : Z) : Z :=
  let days_ahead := (4 - weekday from_date)%Z in
  let days_ahead := if (days_ahead <=? 0)%Z then (days_ahead + 7)%Z else days_ahead in
  (from_date + days_ahead)%Z.

Definition days_to_expiry (expiry : string) : Py.result (string * Z) :=
  match strptime expiry with
  | Some d => Py.Ok (expiry, (d - today)%Z)
  | None => Py.Raise (Py.ValueError "time data does not match format '%Y-%m-%d'")
  end.

(** [select_expiry_date(expiry_dates, min_days, max_days)];
    [valid_expiries.sort(key=...)] is the stable ascending sort. *)
Definition select_expiry_date (expiry_dates : list string) (min_days max_days : Z)
  : Py.result string :=
  match expiry_dates with
  | [] => Py.Ok (strftime (get_next_friday today))
  | first :: _ =>
      dated <- Py.mapM days_to_expiry expiry_dates ;;
      let valid_expiries :=
        filter (fun p => (min_days <=? snd p)%Z && (snd p <=? max_days)%Z) dated in
      match sort_desc (@snd string Z) (fun a b => (b <? a)%Z) valid_expiries with
      | best :: _ => Py.Ok (fst best)
      | [] => Py.Ok first
      end
  end.

Definition concat_all (parts : list string) : string :=
  fold_right String.append EmptyString parts.

(** The decision state threaded through the branches of
    [generate_trade_idea]; [rationale_addition] is a local that is
    only bound on some paths. *)
Record decision : Type := mkDecision {
  d_trade_type : string;
  d_direction : string;
  d_rationale_addition : option string
}.

Definition risk_factors (is_cpi_week inverted_curve surprise_positive : bool)
  : list string :=
  (if is_cpi_week then ["CPI week"] else []) ++
  (if inverted_curve then ["inverted yield curve"] else []) ++
  (if surprise_positive then ["positive surprise in bearish context"] else []).

Fixpoint join (sep : string) (l : list string) : string :=
  match l with
  | [] => EmptyString
  | [x] => x
  | x :: l' => String.append x (String.append sep (join sep l'))
  end.

(** The decision procedure of [generate_trade_idea]: the option
    type and the trade type, direction and rationale clause, from
    the headline, the magnitude of the top match's drawdown and its
    price change. *)
Definition decide (h : headline) (max_drawdown_pct price_change : Q)
  : string * decision :=
  let sentiment := Py.lower (get (h_sentiment h) EmptyString) in
  let is_cpi_week := h_is_cpi_week h in
  let surprise_positive := h_surprise_positive h in
  let inverted_curve :=
    Py.truthy_number (h_Treasury2Y h) && Py.truthy_number (h_Treasury10Y h) &&
    Py.Qgtb (get (h_Treasury2Y h) 0) (get (h_Treasury10Y h) 0) in
  let llm_direction := h_direction h in
  let llm := get llm_direction EmptyString in
  let st := mkDecision "option" "BUY" None in
  let st :=
    if Py.truthy_string llm_direction &&
       (String.eqb llm "BUY" || String.eqb llm "SELL")
    then
      if String.eqb llm "SELL"
      then mkDecision (d_trade_type st) llm
             (Some "LLM explicitly recommends SELL direction based on the news event.")
      else mkDecision (d_trade_type st) llm
             (Some "LLM explicitly recommends BUY direction based on the news event.")
    else st in
  let option_type :=
    if Py.Qltb price_change 0 && Py.Qgtb (Qabs price_change) 3
    then "PUT" else "CALL" in
  let st :=
    if String.eqb sentiment "bullish" && Py.Qltb max_drawdown_pct 2
    then
      if negb (Py.truthy_string llm_direction) || negb (String.eqb llm "SELL")
      then mkDecision "equity" "BUY"
             (Some "Using equity (BUY) due to bullish sentiment with low expected drawdown.")
      else mkDecision "equity" (d_direction st) (d_rationale_addition st)
    else if String.eqb sentiment "bearish" &&
            (is_cpi_week || inverted_curve || surprise_positive)
    then
      if negb (Py.truthy_string llm_direction) || negb (String.eqb llm "BUY")
      then mkDecision "equity" "SELL"
             (Some (concat_all
                ["Using equity (SELL) due to bearish sentiment with risk factors: ";
                 join ", " (risk_factors is_cpi_week inverted_curve surprise_positive);
                 "."]))
      else mkDecision "equity" (d_direction st) (d_rationale_addition st)
    else
      if negb (Py.truthy_string llm_direction) ||
         String.eqb (d_trade_type st) "option"
      then
        if String.eqb option_type "PUT"
        then mkDecision (d_trade_type st) (d_direction st)
               (Some "Using PUT option due to expected significant downside move.")
        else mkDecision (d_trade_type st) (d_direction st)
               (Some "Using CALL option due to expected upside potential.")
      else st in
  (option_type, st).

(** [generate_trade_idea(classified_headline, historical_matches)].
    The price that [fetch_current_price] answers is a finite number
    (a NaN is outside [Q]). *)
Definition generate_trade_idea (h : headline) (historical_matches : list event)
  : Py.result trade_idea :=
  match historical_matches with
  | [] =>
      Py.Ok (mkTradeIdea None "option" "BUY" None None None
               "No historical matches found to base trade on.")
  | _ =>
      top_match <- select_top_match historical_matches ;;
      let ticker := get (affected_ticker top_match) (Py.VStr "SPY") in
      let price_change_value :=
        match price_change_pct top_match with
        | Some v => v
        | None => get (drop_pct top_match) (Py.VNum 0)
        end in
      max_drawdown_pct <- Py.abs (get (max_drawdown_pct top_match) (Py.VNum 5)) ;;
      price_change <- Py.number price_change_value ;;
      let '(option_type, st) := decide h max_drawdown_pct price_change in
      let trade_type := d_trade_type st in
      let direction := d_direction st in
      let reported_option_type :=
        if String.eqb trade_type "option" then Some option_type else None in
      let current_price := fetch_current_price ticker in
      if Qle_bool current_price 0
      then
        Py.Ok (mkTradeIdea (Some ticker) trade_type direction reported_option_type
                 None None
                 (concat_all ["Could not fetch current price for "; str ticker; "."]))
      else
        sel <-
          (if String.eqb trade_type "option"
           then
             selected_expiry <-
               select_expiry_date (fetch_option_expiries ticker) 7 30 ;;
             Py.Ok (Some (select_strike_price current_price option_type price_change),
                    Some selected_expiry)
           else Py.Ok (None, None)) ;;
        let direction_word := if Py.Qltb price_change 0 then "drop" else "gain" in
        let prediction :=
          if String.eqb option_type "PUT" then "downside risk" else "upside potential" in
        let display_pct := Qabs price_change in
        match d_rationale_addition st with
        | None =>
            Py.Raise (Py.UnboundLocalError
              "local variable 'rationale_addition' referenced before assignment")
        | Some rationale_addition =>
            let rationale :=
              concat_all
                ["Event similar to "; get (event_summary top_match) EmptyString;
                 " on "; get (event_date top_match) EmptyString;
                 ", which caused a "; format_2f display_pct; "% "; direction_word;
                 " in "; str ticker; ". ";
                 "Match score: "; format_2f (get (match_score top_match) 0); ". ";
                 "Current event classified as ";
                 get (h_event_type h) "Unknown event type"; ", ";
                 get (h_sentiment h) "Unknown sentiment"; ", affecting ";
                 get (h_sector h) "Unknown sector"; ". ";
                 "Suggests "; prediction; ". "; rationale_addition] in
            Py.Ok (mkTradeIdea (Some ticker) trade_type direction reported_option_type
                     (fst sel) (snd sel) rationale)
        end
  end.

End Market.

End TradePicker.

(** ** llm_event_query.py: correlation engine and pattern aggregator *)

Module LlmEventQuery.

(** One entry of [macro_data_points]. *)
Record macro_point : Type := mkPoint {
  mp_price_change : Py.value;
  mp_date : string;
  mp_cpi : option Q;
  mp_fed_rate : option Q;
  mp_unemployment : option Q;
  mp_ten_year : option Q;
  mp_two_year : option Q;
  mp_yield_curve : option Q
}.

Inductive factor : Type := cpi | fed_rate | unemployment | yield_curve.

Definition all_factors : list factor := [cpi; fed_rate; unemployment; yield_curve].

(** [p[factor]]. *)
Definition factor_value (f : factor) (p : macro_point) : option Q :=
  match f with
  | cpi => mp_cpi p
  | fed_rate => mp_fed_rate p
  | unemployment => mp_unemployment p
  | yield_curve => mp_yield_curve p
  end.

(** The value stored for one factor; the key ['direction'] exists only
    in entries written by the loop. *)
Record entry : Type := mkEntry {
  correlation : Q;
  strength : string;
  sample_size : nat;
  c_direction : option string
}.

Record correlations : Type := mkCorrelations {
  of_cpi : entry;
  of_fed_rate : entry;
  of_unemployment : entry;
  of_yield_curve : entry
}.

Definition lookup (c : correlations) (f : factor) : entry :=
  match f with
  | cpi => of_cpi c
  | fed_rate => of_fed_rate c
  | unemployment => of_unemployment c
  | yield_curve => of_yield_curve c
  end.

Definition update (c : correlations) (f : factor) (e : entry) : correlations :=
  match f with
  | cpi => mkCorrelations e (of_fed_rate c) (of_unemployment c) (of_yield_curve c)
  | fed_rate => mkCorrelations (of_cpi c) e (of_unemployment c) (of_yield_curve c)
  | unemployment => mkCorrelations (of_cpi c) (of_fed_rate c) e (of_yield_curve c)
  | yield_curve => mkCorrelations (of_cpi c) (of_fed_rate c) (of_unemployment c) e
  end.

Definition initial_entry : entry := mkEntry 0 "None" 0 None.

Definition initial_correlations : correlations :=
  mkCorrelations initial_entry initial_entry initial_entry initial_entry.

(** [valid_points]: the pairs whose outcome and factor value are both
    not [None]. *)
Definition valid_points (f : factor) (pts : list macro_point) : list (Py.value * Q) :=
  flat_map
    (fun p =>
       match mp_price_change p, factor_value f p with
       | Py.VNone, _ => []
       | _, None => []
       | x, Some y => [(x, y)]
       end) pts.

Definition classify (abs_corr : Q) : string :=
  if Py.Qgeb abs_corr (7 # 10) then "Strong"
  else if Py.Qgeb abs_corr (5 # 10) then "Moderate"
  else if Py.Qgeb abs_corr (3 # 10) then "Weak"
  else "Negligible".

Definition nat_Q (n : nat) : Q := inject_Z (Z.of_nat n).

Section Engine.

(** [x ** 0.5] of a double that is not negative, as the
    floating-point library computes it. *)
Variable pow_half : Q -> Q.

(** The correlation coefficient computed from the two columns of
    doubles.  Every sum, product and difference is rounded
    ([sum_x ** 2] as the product of [sum_x] with itself), so the
    radicand can come out negative; [x ** 0.5] is then a complex
    number, and so is the coefficient: [None]. *)
Definition pearson (x_values y_values : list Q) : option Q :=
  let n := nat_Q (List.length x_values) in
  let sum_x := Binary64.sum x_values in
  let sum_y := Binary64.sum y_values in
  let sum_xy :=
    Binary64.sum (map (fun xy => Binary64.mul (fst xy) (snd xy))
                      (combine x_values y_values)) in
  let sum_x2 := Binary64.sum (map (fun x => Binary64.mul x x) x_values) in
  let sum_y2 := Binary64.sum (map (fun y => Binary64.mul y y) y_values) in
  let numerator :=
    Binary64.sub (Binary64.mul n sum_xy) (Binary64.mul sum_x sum_y) in
  let radicand :=
    Binary64.mul
      (Binary64.sub (Binary64.mul n sum_x2) (Binary64.mul sum_x sum_x))
      (Binary64.sub (Binary64.mul n sum_y2) (Binary64.mul sum_y sum_y)) in
  if Py.Qltb radicand 0 then None
  else
    let denominator := pow_half radicand in
    Some (if negb (Qeq_bool denominator 0)
          then Binary64.div numerator denominator else 0).

(** The body of the [for factor in ...] loop: [None] when the guard
    [len(valid_points) >= 3] fails; the sums raise on an outcome
    that is not a number, and [round(correlation, 2)] raises on a
    complex coefficient. *)
Definition factor_entry (f : factor) (pts : list macro_point)
  : Py.result (option entry) :=
  let valid := valid_points f pts in
  if (3 <=? List.length valid)%nat then
    x_values <- Py.mapM Py.number (map fst valid) ;;
    let y_values := map snd valid in
    match pearson x_values y_values with
    | None =>
        Py.Raise (Py.TypeError "type complex doesn't define __round__ method")
    | Some correlation =>
        let abs_corr := Qabs correlation in
        Py.Ok (Some (mkEntry (Py.round2 correlation) (classify abs_corr)
                             (List.length valid)
                             (Some (if Py.Qgtb correlation 0
                                    then "Positive" else "Negative"))))
    end
  else Py.Ok None.

(** The loop inside [try]: an exception abandons the remaining
    factors and keeps what was stored so far. *)
Fixpoint run_factors (fs : list factor) (pts : list macro_point)
  (c : correlations) : correlations :=
  match fs with
  | [] => c
  | f :: fs' =>
      match factor_entry f pts with
      | Py.Ok (Some e) => run_factors fs' pts (update c f e)
      | Py.Ok None => run_factors fs' pts c
      | Py.Raise _ => c
      end
  end.

(** [calculate_macro_correlations(macro_data_points)]. *)
Definition calculate_macro_correlations (pts : list macro_point) : correlations :=
  run_factors all_factors pts initial_correlations.

End Engine.

Definition factor_name (f : factor) : string :=
  match f with
  | cpi => "inflation (CPI)"
  | fed_rate => "Federal Funds Rate"
  | unemployment => "unemployment rate"
  | yield_curve => "yield curve spread (10Y-2Y)"
  end.

Definition significant (e : entry) : bool :=
  String.eqb (strength e) "Moderate" || String.eqb (strength e) "Strong".

(** A comparison [p.get(k, 0) > t] or [<]: the key is always there, so
    a [None] value reaches the comparison and raises. *)
Definition compare_factor (v : option Q) : Py.result Q :=
  match v with
  | Some q => Py.Ok q
  | None =>
      Py.Raise (Py.TypeError
        "'>' not supported between instances of 'NoneType' and 'float'")
  end.

Fixpoint filterM {A} (f : A -> Py.result bool) (l : list A) : Py.result (list A) :=
  match l with
  | [] => Py.Ok []
  | x :: l' =>
      b <- f x ;;
      r <- filterM f l' ;;
      Py.Ok (if b then x :: r else r)
  end.

Definition concat_all (parts : list string) : string :=
  fold_right String.append EmptyString parts.

Section Insights.

(** [str(x)] and the [.1f], [.0f] formats of a float. *)
Variable repr_float : Q -> string.
Variable format_1f : Q -> string.
Variable format_0f : Q -> string.

(** The sentence of one significant correlation; [data['direction']]
    raises when the entry has no such key. *)
Definition factor_insight (c : correlations) (f : factor) : Py.result (list string) :=
  let data := lookup c f in
  if significant data then
    let direction := if Py.Qgtb (correlation data) 0 then "higher" else "lower" in
    match c_direction data with
    | None => Py.Raise (Py.KeyError "'direction'")
    | Some stored_direction =>
        Py.Ok [concat_all
                 [strength data; " "; stored_direction; " correlation (";
                  repr_float (correlation data); ") between "; factor_name f;
                  " and market performance: "; factor_name f;
                  " tends to correlate with "; direction;
                  " returns during similar events."]]
    end
  else Py.Ok [].

(** The [for factor, data in correlations.items()] loop: the insights
    found so far, and the exception that ended the loop, if any. *)
Fixpoint factor_insights (c : correlations) (fs : list factor) (insights : list string)
  : list string * option Py.exn :=
  match fs with
  | [] => (insights, None)
  | f :: fs' =>
      match factor_insight c f with
      | Py.Raise e => (insights, Some e)
      | Py.Ok found => factor_insights c fs' (insights ++ found)%list
      end
  end.

(** Mean outcome of a regime bucket. *)
Definition bucket_mean (bucket : list macro_point) : Py.result Q :=
  xs <- Py.mapM Py.number (map mp_price_change bucket) ;;
  Py.Ok (Py.sum xs / nat_Q (List.length bucket)).

(** One regime comparison: the two buckets, and the names of the
    regimes used in the sentence. *)
Definition regime_insight (first second : list macro_point)
  (first_name second_name : string) : Py.result (list string) :=
  if (2 <=? List.length first)%nat && (2 <=? List.length second)%nat then
    avg_first <- bucket_mean first ;;
    avg_second <- bucket_mean second ;;
    if Py.Qgtb (Qabs (avg_first - avg_second)) 3 then
      let better_regime :=
        if Py.Qgtb avg_first avg_second then first_name else second_name in
      Py.Ok [concat_all
               ["Similar events performed better during "; better_regime;
                " environments (";
                repr_float (Py.round1 (Py.max avg_first avg_second)); "% vs ";
                repr_float (Py.round1 (Py.min avg_first avg_second));
                "% average returns)."]]
    else Py.Ok []
  else Py.Ok [].

Definition above (t : Q) (v : macro_point -> option Q) (p : macro_point)
  : Py.result bool :=
  q <- compare_factor (v p) ;; Py.Ok (Py.Qgtb q t).

Definition not_above (t : Q) (v : macro_point -> option Q) (p : macro_point)
  : Py.result bool :=
  q <- compare_factor (v p) ;; Py.Ok (Qle_bool q t).

Definition below (t : Q) (v : macro_point -> option Q) (p : macro_point)
  : Py.result bool :=
  q <- compare_factor (v p) ;; Py.Ok (Py.Qltb q t).

Definition not_below (t : Q) (v : macro_point -> option Q) (p : macro_point)
  : Py.result bool :=
  q <- compare_factor (v p) ;; Py.Ok (Py.Qgeb q t).

(** The part of [generate_macro_insights] under
    [if len(macro_data_points) >= 3]; the insights found so far are
    threaded through, and an exception reports them as they were
    when it was raised. *)
Definition regime_insights (pts : list macro_point) (insights : list string)
  : list string * option Py.exn :=
  match
    (high_inflation <- filterM (above 3 mp_cpi) pts ;;
     low_inflation <- filterM (not_above 3 mp_cpi) pts ;;
     high_rates <- filterM (above 3 mp_fed_rate) pts ;;
     low_rates <- filterM (not_above 3 mp_fed_rate) pts ;;
     Py.Ok (high_inflation, low_inflation, high_rates, low_rates))
  with
  | Py.Raise e => (insights, Some e)
  | Py.Ok (high_inflation, low_inflation, high_rates, low_rates) =>
      match regime_insight high_inflation low_inflation
              "high inflation" "low inflation" with
      | Py.Raise e => (insights, Some e)
      | Py.Ok i1 =>
          let insights := (insights ++ i1)%list in
          match regime_insight high_rates low_rates
                  "high interest rate" "low interest rate" with
          | Py.Raise e => (insights, Some e)
          | Py.Ok i2 =>
              let insights := (insights ++ i2)%list in
              match
                (inverted <- filterM (below 0 mp_yield_curve) pts ;;
                 normal <- filterM (not_below 0 mp_yield_curve) pts ;;
                 regime_insight inverted normal
                   "inverted yield curve" "normal yield curve")
              with
              | Py.Raise e => (insights, Some e)
              | Py.Ok i3 => ((insights ++ i3)%list, None)
              end
          end
      end
  end.

(** [generate_macro_insights(correlations, macro_data_points)]. *)
Definition generate_macro_insights (c : correlations) (pts : list macro_point)
  : list string :=
  if negb (existsb (fun f => significant (lookup c f)) all_factors) then
    ["No significant correlations found between macro factors and market performance."]
  else
    match factor_insights c all_factors [] with
    | (insights, Some e) =>
        (insights ++
         [String.append "Error generating macro insights: " (Py.message e)])%list
    | (insights, None) =>
        if (3 <=? List.length pts)%nat then
          match regime_insights pts insights with
          | (insights, None) => insights
          | (insights, Some e) =>
              (insights ++
               [String.append "Error generating macro insights: " (Py.message e)])%list
          end
        else insights
    end.

End Insights.

(** One entry of [sentiment_alignments]. *)
Record alignment : Type := mkAlignment {
  al_event_date : string;
  al_ticker : Py.value;
  al_classified : string;
  al_historical : string;
  al_alignment : Q;
  al_price_change : Py.value
}.

(** The locals that the [for event in similar_events] loop updates. *)
Record accumulators : Type := mkAcc {
  price_changes : list Q;
  drawdowns : list Q;
  bullish_count : nat;
  bearish_count : nat;
  sectors : list (string * nat);
  tickers : list (Py.value * nat);
  sum_days_to_recovery : Q;
  has_recovery_data : nat;
  macro_data_points : list macro_point;
  events_with_macro : nat;
  sentiment_alignments : list alignment;
  events_with_sentiment : nat;
  aligned : nat;
  divergent : nat
}.

Definition initial_accumulators : accumulators :=
  mkAcc [] [] 0 0 [] [] 0 0 [] 0 [] 0 0 0.

Definition value_eqb (a b : Py.value) : bool :=
  match a, b with
  | Py.VNone, Py.VNone => true
  | Py.VNum x, Py.VNum y => Qeq_bool x y
  | Py.VStr x, Py.VStr y => String.eqb x y
  | _, _ => false
  end.

(** [d[k] += 1] or [d[k] = 1] on a dictionary kept in insertion order. *)
Fixpoint count_key {K} (eqb : K -> K -> bool) (k : K) (d : list (K * nat))
  : list (K * nat) :=
  match d with
  | [] => [(k, 1%nat)]
  | (k', n) :: d' =>
      if eqb k k' then (k', S n) :: d' else (k', n) :: count_key eqb k d'
  end.

(** [max(d.items(), key=lambda x: x[1])[0]]: the first key with the
    largest count. *)
Definition dominant {K} (d : list (K * nat)) (unknown : K) : K :=
  match d with
  | [] => unknown
  | x :: d' =>
      fst (fold_left (fun best y => if (snd best <? snd y)%nat then y else best) d' x)
  end.

Definition has_key_macro (m : macro_data) : bool :=
  match CPI_YoY m, FedFundsRate m, Unemployment m, TenYearYield m with
  | None, None, None, None => false
  | _, _, _, _ => true
  end.

Definition macro_point_of (e : event) (price_change : Py.value) (m : macro_data)
  : macro_point :=
  mkPoint price_change (get (event_date e) "Unknown")
          (CPI_YoY m) (FedFundsRate m) (Unemployment m)
          (TenYearYield m) (TwoYearYield m)
          (match TenYearYield m, TwoYearYield m with
           | Some t, Some w => Some (t - w)
           | _, _ => None
           end).

(** One iteration of the loop of [analyze_similar_events]. *)
Definition step (a : accumulators) (e : event) : accumulators :=
  let price_change := get (price_change_pct e) Py.VNone in
  let drawdown := get (max_drawdown_pct e) Py.VNone in
  let recovery := negb (Qeq_bool (get (days_to_recovery e) 0) 0) in
  let macro :=
    match e_macro_data e, price_change with
    | Some m, Py.VNum _ | Some m, Py.VStr _ =>
        if has_key_macro m then Some (macro_point_of e price_change m) else None
    | _, _ => None
    end in
  let sentiment := e_sentiment_analysis e in
  let agreement_of (sd : sentiment_analysis) := get (agreement sd) 0 in
  mkAcc
    (match price_change with
     | Py.VNum q => (price_changes a ++ [q])%list
     | _ => price_changes a
     end)
    (match drawdown with
     | Py.VNum q => (drawdowns a ++ [q])%list
     | _ => drawdowns a
     end)
    (match price_change with
     | Py.VNum q => if Py.Qgtb q 0 then S (bullish_count a) else bullish_count a
     | _ => bullish_count a
     end)
    (match price_change with
     | Py.VNum q => if Py.Qgtb q 0 then bearish_count a else S (bearish_count a)
     | _ => bearish_count a
     end)
    (count_key String.eqb (get (sector e) "Unknown") (sectors a))
    (count_key value_eqb (get (affected_ticker e) (Py.VStr "Unknown")) (tickers a))
    (if recovery then sum_days_to_recovery a + get (days_to_recovery e) 0
     else sum_days_to_recovery a)
    (if recovery then S (has_recovery_data a) else has_recovery_data a)
    (match macro with
     | Some p => (macro_data_points a ++ [p])%list
     | None => macro_data_points a
     end)
    (match macro with
     | Some _ => S (events_with_macro a)
     | None => events_with_macro a
     end)
    (match sentiment with
     | Some sd =>
         (sentiment_alignments a ++
          [mkAlignment (get (event_date e) "Unknown")
                       (get (affected_ticker e) (Py.VStr "Unknown"))
                       (get (classified_label sd) "Neutral")
                       (get (historical_label sd) "Neutral")
                       (agreement_of sd) price_change])%list
     | None => sentiment_alignments a
     end)
    (match sentiment with
     | Some _ => S (events_with_sentiment a)
     | None => events_with_sentiment a
     end)
    (match sentiment with
     | Some sd =>
         if Py.Qgeb (agreement_of sd) (7 # 10) then S (aligned a) else aligned a
     | None => aligned a
     end)
    (match sentiment with
     | Some sd =>
         if Py.Qgeb (agreement_of sd) (7 # 10) then divergent a else S (divergent a)
     | None => divergent a
     end).

Record sentiment_performance : Type := mkPerformance {
  aligned_sentiment_avg_price_change : Q;
  diverged_sentiment_avg_price_change : Q;
  aligned_count : nat;
  diverged_count : nat
}.

(** The dictionary returned on success; the keys that are only set on
    some paths are options. *)
Record pattern : Type := mkPattern {
  pattern_summary : string;
  consistency_score : Z;
  avg_price_change : Q;
  avg_max_drawdown : Q;
  bullish_pct : Z;
  bearish_pct : Z;
  dominant_sector : string;
  dominant_ticker : Py.value;
  avg_days_to_recovery : option Z;
  similar_events_count : nat;
  has_macro_analysis : bool;
  r_events_with_macro : option nat;
  macro_correlations : option correlations;
  macro_insights : option (list string);
  has_sentiment_analysis : bool;
  r_events_with_sentiment : option nat;
  sentiment_alignment_pct : option Z;
  sentiment_insights : option (list string);
  r_sentiment_performance : option sentiment_performance
}.

(** [{"success": True, ...}] or [{"success": False, "message": ...}]. *)
Inductive analysis : Type :=
| Success (p : pattern)
| Failure (message : string).

Definition success (r : analysis) : bool :=
  match r with Success _ => true | Failure _ => false end.

(** [sum(l) / len(l) if l else 0]. *)
Definition mean_or_zero (l : list Q) : Q :=
  match l with
  | [] => 0
  | _ => Py.sum l / nat_Q (List.length l)
  end.

(** [(count / total) * 100 if total > 0 else 0]: the quotient of the
    two integers is a double, and so is its product with 100. *)
Definition percentage (count total : nat) : Q :=
  if (0 <? total)%nat
  then Binary64.mul (Binary64.div (nat_Q count) (nat_Q total)) 100
  else 0.

Definition describe_pattern (avg_price_change avg_drawdown : Q) : string :=
  String.append
    (if Py.Qgtb avg_price_change 5 then "Strong bullish trend"
     else if Py.Qgtb avg_price_change 1 then "Moderate bullish trend"
     else if Py.Qgtb avg_price_change (-1) then "Neutral or sideways movement"
     else if Py.Qgtb avg_price_change (-5) then "Moderate bearish trend"
     else "Strong bearish trend")
    (if Py.Qgtb avg_drawdown 10 then " with significant volatility"
     else if Py.Qgtb avg_drawdown 5 then " with moderate volatility"
     else " with low volatility").

Definition numeric_changes (l : list alignment) : list Q :=
  flat_map (fun al => match al_price_change al with
                      | Py.VNum q => [q]
                      | _ => []
                      end) l.

Section Aggregator.

Variable pow_half : Q -> Q.
Variable repr_float : Q -> string.
Variable format_1f : Q -> string.
Variable format_0f : Q -> string.

(** The sentiment block of [analyze_similar_events]. *)
Definition sentiment_block (a : accumulators)
  : Z * list string * option sentiment_performance :=
  let alignment_pct := percentage (aligned a) (events_with_sentiment a) in
  let aligned_performance :=
    numeric_changes
      (filter (fun al => Py.Qgeb (al_alignment al) (7 # 10)) (sentiment_alignments a)) in
  let diverged_performance :=
    numeric_changes
      (filter (fun al => negb (Py.Qgeb (al_alignment al) (7 # 10)))
              (sentiment_alignments a)) in
  let avg_aligned := mean_or_zero aligned_performance in
  let avg_diverged := mean_or_zero diverged_performance in
  let performance_diff := Qabs avg_aligned - Qabs avg_diverged in
  let stronger :=
    if (2 <=? List.length aligned_performance)%nat &&
       (2 <=? List.length diverged_performance)%nat
    then
      if Py.Qgtb performance_diff 2 then
        [concat_all
           ["Events where sentiment analysis aligned with historical sentiment had stronger price movements (";
            format_1f avg_aligned; "% vs "; format_1f avg_diverged; "%)"]]
      else if Py.Qltb performance_diff (-2) then
        [concat_all
           ["Events where sentiment analysis diverged from historical sentiment had stronger price movements (";
            format_1f avg_diverged; "% vs "; format_1f avg_aligned; "%)"]]
      else []
    else [] in
  let consistency :=
    if Py.Qgeb alignment_pct 70 then
      [concat_all
         ["Strong consistency ("; format_0f alignment_pct;
          "%) between price-based classification and historical sentiment data suggests reliable sentiment signals for these events"]]
    else if Qle_bool alignment_pct 30 then
      [concat_all
         ["Low consistency ("; format_0f alignment_pct;
          "%) between price-based classification and historical sentiment data suggests sentiment often diverges from price action for these events"]]
    else [] in
  (Py.round alignment_pct, (stronger ++ consistency)%list,
   match aligned_performance, diverged_performance with
   | _ :: _, _ :: _ =>
       Some (mkPerformance (Py.round2 avg_aligned) (Py.round2 avg_diverged)
                           (List.length aligned_performance)
                           (List.length diverged_performance))
   | _, _ => None
   end).

(** The body of the [try] block of [analyze_similar_events]. *)
Definition analyze_body (similar_events : list event) : Py.result pattern :=
  let total_events := List.length similar_events in
  let a := fold_left step similar_events initial_accumulators in
  let avg_price_change := mean_or_zero (price_changes a) in
  let avg_drawdown := mean_or_zero (drawdowns a) in
  let avg_days_to_recovery :=
    if (0 <? has_recovery_data a)%nat
    then sum_days_to_recovery a / nat_Q (has_recovery_data a)
    else sum_days_to_recovery a in
  let majority := Nat.max (bullish_count a) (bearish_count a) in
  let consistency_score := percentage majority total_events in
  let pattern := describe_pattern avg_price_change avg_drawdown in
  macro <-
    (if (3 <=? events_with_macro a)%nat then
       let macro_correlations :=
         calculate_macro_correlations pow_half (macro_data_points a) in
       macro_insights <-
         Py.call2 "generate_macro_insights" "'macro_data_points'"
           (generate_macro_insights repr_float) macro_correlations None ;;
       Py.Ok (true, Some (events_with_macro a), Some macro_correlations,
              Some macro_insights)
     else Py.Ok (false, None, None, None)) ;;
  let '(has_macro, n_macro, macro_correlations, macro_insights) := macro in
  let sentiment :=
    if (2 <=? events_with_sentiment a)%nat
    then Some (sentiment_block a) else None in
  Py.Ok
    (mkPattern pattern (Py.round consistency_score)
       (Py.round2 avg_price_change) (Py.round2 avg_drawdown)
       (Py.round (percentage (bullish_count a) total_events))
       (Py.round (percentage (bearish_count a) total_events))
       (dominant (sectors a) "Unknown")
       (dominant (tickers a) (Py.VStr "Unknown"))
       (if (0 <? has_recovery_data a)%nat
        then Some (Py.round avg_days_to_recovery) else None)
       total_events
       has_macro n_macro macro_correlations macro_insights
       (match sentiment with Some _ => true | None => false end)
       (match sentiment with
        | Some _ => Some (events_with_sentiment a) | None => None end)
       (match sentiment with Some b => Some (fst (fst b)) | None => None end)
       (match sentiment with Some b => Some (snd (fst b)) | None => None end)
       (match sentiment with Some b => snd b | None => None end)).

(** [analyze_similar_events(similar_events)]. *)
Definition analyze_similar_events (similar_events : list event) : analysis :=
  match similar_events with
  | [] => Failure "No similar events found"
  | _ =>
      match analyze_body similar_events with
      | Py.Ok result => Success result
      | Py.Raise e =>
          Failure (String.append "Error analyzing similar events: " (Py.message e))
      end
  end.

End Aggregator.

End LlmEventQuery.

(** ** historical_matcher.py: ticker symbols *)

Module Tickers.

(** [s.upper()] on ASCII letters. *)
Definition upper_ascii (c : ascii) : ascii :=
  let n := nat_of_ascii c in
  if (97 <=? n)%nat && (n <=? 122)%nat then ascii_of_nat (n - 32) else c.

Fixpoint upper (s : string) : string :=
  match s with
  | EmptyString => EmptyString
  | String c s' => String (upper_ascii c) (upper s')
  end.

(** [sub in s]. *)
Fixpoint contains (sub s : string) : bool :=
  String.prefix sub s ||
  match s with
  | EmptyString => false
  | String _ s' => contains sub s'
  end.

(** [CRYPTO_FORMATS], in the order of the dictionary. *)
Definition CRYPTO_FORMATS : list (string * string) :=
  [ ("BTC", "BTC-USD"); ("ETH", "ETH-USD"); ("XRP", "XRP-USD");
    ("DOGE", "DOGE-USD"); ("USDT", "USDT-USD") ].

Fixpoint lookup_format (ticker : string) (d : list (string * string)) : option string :=
  match d with
  | [] => None
  | (k, v) :: d' => if String.eqb ticker k then Some v else lookup_format ticker d'
  end.

(** The [for crypto in CRYPTO_FORMATS] loop: the first symbol that
    occurs in the ticker. *)
Fixpoint first_symbol_in (ticker : string) (d : list (string * string)) : option string :=
  match d with
  | [] => None
  | (k, _) :: d' =>
      if contains k ticker then Some (String.append k "-USD")
      else first_symbol_in ticker d'
  end.

(** [standardize_ticker(ticker)]. *)
Definition standardize_ticker (ticker : string) : string :=
  let ticker := upper ticker in
  match lookup_format ticker CRYPTO_FORMATS with
  | Some v => v
  | None =>
      match (if contains "USD" ticker
             then first_symbol_in ticker CRYPTO_FORMATS else None) with
      | Some v => v
      | None => ticker
      end
  end.

End Tickers.

(** ** trade_picker.py: a batch of headlines *)

Module TradeBatch.

Import TradePicker.

Section Market.

Variable fetch_current_price : Py.value -> Q.
Variable fetch_option_expiries : Py.value -> list string.
Variable today : Z.
Variable weekday : Z -> Z.
Variable strptime : string -> option Z.
Variable strftime : Z -> string.
Variable format_2f : Q -> string.
Variable str : Py.value -> string.

(** The test that keeps a trade idea: an equity trade, or an option
    trade with a strike. *)
Definition keeps (idea : trade_idea) : bool :=
  String.eqb (trade_type idea) "equity" ||
  (String.eqb (trade_type idea) "option" &&
   match strike idea with Some _ => true | None => false end).

(** [process_headlines_for_trades]: the loop over
    [zip(classified_headlines, historical_matches_by_headline)]; an
    exception of [generate_trade_idea] leaves the function. *)
Fixpoint process_headlines_for_trades (classified_headlines : list headline)
  (historical_matches_by_headline : list (list event)) : Py.result (list trade_idea) :=
  match classified_headlines, historical_matches_by_headline with
  | h :: hs, matches :: mss =>
      trade_idea <-
        generate_trade_idea fetch_current_price fetch_option_expiries today weekday
          strptime strftime format_2f str h matches ;;
      trade_ideas <- process_headlines_for_trades hs mss ;;
      Py.Ok (if keeps trade_idea then trade_idea :: trade_ideas else trade_ideas)
  | _, _ => Py.Ok []
  end.

End Market.

End TradeBatch.

(** ** evaluator.py *)

Module Evaluator.

Import HistoricalMatcher.

Definition DEFAULT_EVALUATION_DAYS : nat := 7.
Definition MIN_MOVE_THRESHOLD : Q := 1.

(** [series.cummax()]: the running maximum. *)
Fixpoint cummax_from (peak : Q) (l : list Q) : list Q :=
  match l with
  | [] => []
  | x :: l' => Py.max peak x :: cummax_from (Py.max peak x) l'
  end.

Definition cummax (l : list Q) : list Q :=
  match l with
  | [] => []
  | x :: l' => x :: cummax_from x l'
  end.

(** [series.min()] and [series.max()] of a non-empty series. *)
Definition series_min (l : list Q) : Q :=
  match l with [] => 0 | x :: l' => fold_left Py.min l' x end.

Definition series_max (l : list Q) : Q :=
  match l with [] => 0 | x :: l' => fold_left Py.max l' x end.

(** [calculate_price_movement(df)]. *)
Definition calculate_price_movement (df : frame) : Q * Q * Q :=
  if (List.length df <? 2)%nat then (0, 0, 0)
  else
    let closes := map Close df in
    let start_price := hd 0 closes in
    let end_price := last closes 0 in
    let price_change_pct := (end_price / start_price - 1) * 100 in
    let highest_price := series_max (map High df) in
    let max_gain_pct := (highest_price / start_price - 1) * 100 in
    let rolling_max := cummax closes in
    let drawdowns :=
      map (fun cp => (fst cp / snd cp - 1) * 100) (combine closes rolling_max) in
    (price_change_pct, max_gain_pct, series_min drawdowns).

(** [determine_direction_correctness(price_change, option_type)]. *)
Definition determine_direction_correctness (price_change : Q) (option_type : string)
  : bool :=
  if String.eqb (Tickers.upper option_type) "CALL" then Py.Qgtb price_change 0
  else if String.eqb (Tickers.upper option_type) "PUT" then Py.Qltb price_change 0
  else false.

(** The [evaluation] dictionary; the last three keys exist only after
    the price data was read. *)
Record evaluation : Type := mkEvaluation {
  actual_move_pct : Q;
  max_gain_pct : Q;
  max_drawdown_pct : Q;
  trade_direction_correct : bool;
  notes : string;
  evaluation_period : option string;
  start_date : option string;
  end_date : option string
}.

(** The two keys read from the [trade_idea] dictionary of a stored
    trade.  [idea_ticker] is [trade_idea.get('ticker')]; in
    [idea_option_type], [None] is a missing key and [Some None] the
    value [None]. *)
Record idea_record : Type := mkIdeaRecord {
  idea_ticker : option Py.value;
  idea_option_type : option (option string)
}.

(** A trade of the trade history, with the keys read here. *)
Record stored_trade : Type := mkStored {
  saved_timestamp : option string;
  stored_idea : option idea_record;
  stored_evaluation : option evaluation
}.

(** Truth value of a ticker. *)
Definition truthy_value (v : option Py.value) : bool :=
  match v with
  | Some (Py.VStr s) => negb (String.eqb s EmptyString)
  | Some (Py.VNum q) => negb (Qeq_bool q 0)
  | Some Py.VNone | None => false
  end.

(** [trade.get('trade_idea', {}).get('option_type', '').upper()]: a
    value [None] under the key reaches [.upper()]. *)
Definition option_type_upper (trade : stored_trade) : Py.result string :=
  match stored_idea trade with
  | None => Py.Ok (Tickers.upper EmptyString)
  | Some i =>
      match idea_option_type i with
      | None => Py.Ok (Tickers.upper EmptyString)
      | Some (Some s) => Py.Ok (Tickers.upper s)
      | Some None =>
          Py.Raise (Py.AttributeError "'NoneType' object has no attribute 'upper'")
      end
  end.

Definition concat_all (parts : list string) : string :=
  fold_right String.append EmptyString parts.

Fixpoint join (sep : string) (l : list string) : string :=
  match l with
  | [] => EmptyString
  | [x] => x
  | x :: l' => String.append x (String.append sep (join sep l'))
  end.

Section Evaluation.

(** The clock, the calendar, the price provider and the conversions
    to text. *)
Variable now_iso : string.
Variable parse_timestamp : string -> Z.
Variable strftime : Z -> string.
Variable fetch_historical_data : Py.value -> string -> string -> frame.
Variable format_2f : Q -> string.
Variable str : Py.value -> string.
Variable str_nat : nat -> string.

(** [generate_evaluation_notes]. *)
Definition generate_evaluation_notes (price_change_pct max_gain_pct max_drawdown_pct : Q)
  (option_type : string) (direction_correct : bool) : string :=
  let direction_note :=
    if direction_correct then
      if Py.Qgtb (Qabs price_change_pct) MIN_MOVE_THRESHOLD then
        concat_all ["[+] "; option_type;
                    " direction was correct with significant movement of ";
                    format_2f price_change_pct; "%"]
      else
        concat_all ["[+] "; option_type;
                    " direction was technically correct but movement was minimal (";
                    format_2f price_change_pct; "%)"]
    else
      concat_all ["[-] "; option_type; " direction was incorrect. Price moved ";
                  format_2f price_change_pct; "% in opposite direction"] in
  let upside :=
    if Py.Qgtb max_gain_pct 2 then
      [concat_all ["[UP] Significant upside: Price reached +"; format_2f max_gain_pct;
                   "% above start price"]]
    else [] in
  let downside :=
    if Py.Qltb max_drawdown_pct (-2) then
      [concat_all ["[DOWN] Significant downside: Price dropped ";
                   format_2f max_drawdown_pct; "% from peak"]]
    else [] in
  join " | " ([direction_note] ++ upside ++ downside)%list.

Definition unevaluated (note : string) : evaluation :=
  mkEvaluation 0 0 0 false note None None None.

(** [evaluate_trade(trade, evaluation_days)] for a timestamp that is a
    string and a number of days that is not negative.  The dictionary
    is filled key by key, so an exception raised by
    [df.index[-1]] on a frame cut to no row replaces the notes only. *)
Definition evaluate_trade (trade : stored_trade) (evaluation_days : nat) : evaluation :=
  let timestamp :=
    if Py.truthy_string (saved_timestamp trade)
    then get (saved_timestamp trade) EmptyString else now_iso in
  let trade_date := parse_timestamp timestamp in
  let ticker :=
    match stored_idea trade with
    | Some i => idea_ticker i
    | None => None
    end in
  match option_type_upper trade with
  | Py.Raise e =>
      unevaluated (String.append "Error evaluating trade: " (Py.message e))
  | Py.Ok option_type =>
      if negb (truthy_value ticker) then
        unevaluated "Could not evaluate trade - missing ticker symbol"
      else if negb (String.eqb option_type "CALL" || String.eqb option_type "PUT") then
        unevaluated
          (String.append "Could not evaluate trade - invalid option type: " option_type)
      else
        let tk := get ticker Py.VNone in
        let start := strftime trade_date in
        let finish := strftime (trade_date + 2 * Z.of_nat evaluation_days)%Z in
        let df := fetch_historical_data tk start finish in
        match df with
        | [] =>
            unevaluated
              (String.append "Could not evaluate trade - no data available for " (str tk))
        | _ :: _ =>
            let df :=
              if (evaluation_days <? List.length df)%nat
              then firstn evaluation_days df else df in
            let '(price_change_pct, max_gain_pct, max_drawdown_pct) :=
              calculate_price_movement df in
            let direction_correct :=
              determine_direction_correctness price_change_pct option_type in
            let period := String.append (str_nat (List.length df)) " trading days" in
            match df with
            | [] =>
                mkEvaluation (Py.round2 price_change_pct) (Py.round2 max_gain_pct)
                  (Py.round2 max_drawdown_pct) direction_correct
                  (String.append "Error evaluating trade: "
                     "index -1 is out of bounds for axis 0 with size 0")
                  (Some period) (Some start) None
            | first :: _ =>
                mkEvaluation (Py.round2 price_change_pct) (Py.round2 max_gain_pct)
                  (Py.round2 max_drawdown_pct) direction_correct
                  (generate_evaluation_notes price_change_pct max_gain_pct
                     max_drawdown_pct option_type direction_correct)
                  (Some period) (Some start) (Some (bar_date (last df first)))
            end
        end
  end.

(** [evaluate_trade_history(trades, evaluation_days)]. *)
Definition evaluate_trade_history (trades : list stored_trade) (evaluation_days : nat)
  : list stored_trade :=
  map (fun trade =>
         mkStored (saved_timestamp trade) (stored_idea trade)
                  (Some (evaluate_trade trade evaluation_days)))
      trades.

End Evaluation.

Record success_metrics : Type := mkMetrics {
  total_trades : nat;
  successful_trades : nat;
  success_rate : Q;
  average_move : Q;
  call_trades : option nat;
  call_successful : option nat;
  call_success_rate : Q;
  put_trades : option nat;
  put_successful : option nat;
  put_success_rate : Q
}.

(** [trade.get("evaluation", {}).get("trade_direction_correct", False)]. *)
Definition was_correct (t : stored_trade) : bool :=
  match stored_evaluation t with
  | Some e => trade_direction_correct e
  | None => false
  end.

Definition move_of (t : stored_trade) : Q :=
  match stored_evaluation t with
  | Some e => actual_move_pct e
  | None => 0
  end.

(** [trade.get("trade_idea", {}).get("option_type", "").upper() == name]. *)
Definition has_type (name : string) (t : stored_trade) : Py.result bool :=
  u <- option_type_upper t ;; Py.Ok (String.eqb u name).

Definition count {A} (f : A -> bool) (l : list A) : nat := List.length (filter f l).

Definition ratio (part whole : nat) : Q :=
  if (0 <? whole)%nat
  then inject_Z (Z.of_nat part) / inject_Z (Z.of_nat whole) else 0.

(** [calculate_success_rate(evaluated_trades)]. *)
Definition calculate_success_rate (evaluated_trades : list stored_trade)
  : Py.result success_metrics :=
  let total := List.length evaluated_trades in
  match evaluated_trades with
  | [] => Py.Ok (mkMetrics 0 0 0 0 None None 0 None None 0)
  | _ =>
      let successful := count was_correct evaluated_trades in
      let average := Py.sum (map move_of evaluated_trades)
                     / inject_Z (Z.of_nat total) in
      calls <- LlmEventQuery.filterM (has_type "CALL") evaluated_trades ;;
      puts <- LlmEventQuery.filterM (has_type "PUT") evaluated_trades ;;
      let call_success := count was_correct calls in
      let put_success := count was_correct puts in
      Py.Ok (mkMetrics total successful
               (Py.round2 (ratio successful total * 100))
               (Py.round2 average)
               (Some (List.length calls)) (Some call_success)
               (Py.round2 (ratio call_success (List.length calls) * 100))
               (Some (List.length puts)) (Some put_success)
               (Py.round2 (ratio put_success (List.length puts) * 100)))
  end.

End Evaluator.

(** ** Notions used in the statements *)

(** The score carried by a match ([match.get('match_score', 0)]). *)
Definition score_of (e : event) : Q := get (match_score e) 0.

(** [l1] is an initial segment of [l2]. *)
Definition prefix {A} (l1 l2 : list A) : Prop := exists l3, l2 = (l1 ++ l3)%list.

(** At least one of the three categorical comparisons of
    [calculate_match_score] succeeds. *)
(** A data point that counts as a valid pair for a factor: neither
    its outcome nor its value of the factor is [None]. *)
Definition both_present (f : LlmEventQuery.factor) (p : LlmEventQuery.macro_point)
  : bool :=
  match LlmEventQuery.mp_price_change p, LlmEventQuery.factor_value f p with
  | Py.VNone, _ | _, None => false
  | _, Some _ => true
  end.

(** A key that one of the two dictionaries holds and the other lacks. *)
Definition absent_from_one_side (a b : option string) : Prop :=
  (a = None /\ b <> None) \/ (a <> None /\ b = None).

Definition some_field_agrees (h : headline) (t : template) : bool :=
  opt_string_eqb (h_event_type h) (t_event_type t) ||
  opt_string_eqb (h_sentiment h) (t_sentiment t) ||
  opt_string_eqb (h_sector h) (t_sector t).


(** The absolute price change of a match as the trade picker's
    comment describes it: [|price_change_pct|], else [|drop_pct|],
    else 0 when the match has neither key; [None] when the value
    found is not a number. *)
Definition absolute_price_change (e : event) : option Q :=
  match price_change_pct e with
  | Some (Py.VNum q) => Some (Qabs q)
  | Some _ => None
  | None =>
      match drop_pct e with
      | Some (Py.VNum q) => Some (Qabs q)
      | Some _ => None
      | None => Some 0
      end
  end.

(** A match counted as bullish (a numeric price change above 0) or as
    bearish (any other numeric price change, 0 included) by the
    Pattern Aggregator. *)
Definition is_bullish (e : event) : bool :=
  match price_change_pct e with
  | Some (Py.VNum q) => Py.Qgtb q 0
  | _ => false
  end.

Definition is_bearish (e : event) : bool :=
  match price_change_pct e with
  | Some (Py.VNum q) => negb (Py.Qgtb q 0)
  | _ => false
  end.

(** The sign of a match's price change, when it is a number. *)
Definition sign_of (e : event) : option comparison :=
  match price_change_pct e with
  | Some (Py.VNum q) => Some (q ?= 0)
  | _ => None
  end.

Definition share_sign (events : list event) : Prop :=
  exists c, Forall (fun e => sign_of e = Some c) events.

(** A match that carries a macro snapshot usable by the correlation
    analysis: a price change that is not [None] and at least one of
    the four key indicators. *)
Definition carries_macro_snapshot (e : event) : bool :=
  match e_macro_data e, price_change_pct e with
  | Some m, Some (Py.VNum _) | Some m, Some (Py.VStr _) => LlmEventQuery.has_key_macro m
  | _, _ => false
  end.

(** The two rules of the trade decision that switch to an equity
    trade: a bullish headline over a top match of low drawdown, and a
    bearish headline in a CPI week, under an inverted yield curve or
    with a positive surprise. *)
Definition bullish_rule (h : headline) (max_drawdown_pct : Q) : bool :=
  String.eqb (Py.lower (get (h_sentiment h) EmptyString)) "bullish" &&
  Py.Qltb max_drawdown_pct 2.

Definition yield_curve_inverted (h : headline) : bool :=
  Py.truthy_number (h_Treasury2Y h) && Py.truthy_number (h_Treasury10Y h) &&
  Py.Qgtb (get (h_Treasury2Y h) 0) (get (h_Treasury10Y h) 0).

Definition bearish_rule (h : headline) : bool :=
  String.eqb (Py.lower (get (h_sentiment h) EmptyString)) "bearish" &&
  (h_is_cpi_week h || yield_curve_inverted h || h_surprise_positive h).

(** A match whose price change (or, without one, whose [drop_pct]) and
    whose maximum drawdown are numbers or absent. *)
Definition numeric_match (e : event) : bool :=
  match price_change_pct e with
  | Some (Py.VNum _) => true
  | None => match drop_pct e with
            | Some (Py.VNum _) | None => true
            | _ => false
            end
  | _ => false
  end &&
  match max_drawdown_pct e with
  | Some (Py.VNum _) | None => true
  | _ => false
  end.

(** A ticker written in ASCII, the characters on which [upper] is
    Python's [str.upper]. *)
Fixpoint ascii_only (s : string) : bool :=
  match s with
  | EmptyString => true
  | String c s' => (nat_of_ascii c <? 128)%nat && ascii_only s'
  end.

(** A call that leaves by an exception. *)
Definition raises {A} (m : Py.result A) : Prop := exists e, m = Py.Raise e.

(** The trade-history record of a trade idea, with the keys that the
    evaluator reads: its [trade_idea] is the dictionary returned by
    [generate_trade_idea]. *)
Definition recorded (timestamp : option string) (idea : TradePicker.trade_idea)
  : Evaluator.stored_trade :=
  Evaluator.mkStored timestamp
    (Some (Evaluator.mkIdeaRecord (TradePicker.ticker idea)
             (Some (TradePicker.option_type idea))))
    None.

(** A stored trade whose option type is the value [None]. *)
Definition null_option_type (t : Evaluator.stored_trade) : Prop :=
  exists i, Evaluator.stored_idea t = Some i /\ Evaluator.idea_option_type i = Some None.

(** The option type of a stored trade reads [name]. *)
Definition reads (name : string) (t : Evaluator.stored_trade) : bool :=
  match Evaluator.option_type_upper t with
  | Py.Ok u => String.eqb u name
  | Py.Raise _ => false
  end.

(** [r] is [x] rounded to the nearest integer, ties to the even one. *)
Definition nearest (x : Q) (r : Z) : Prop :=
  (x - inject_Z r < 1 # 2 /\ inject_Z r - x < 1 # 2) \/
  ((x - inject_Z r == 1 # 2 \/ inject_Z r - x == 1 # 2) /\ Z.even r = true).



(** A match that carries a sentiment analysis. *)
Definition has_sentiment (e : event) : bool :=
  match e_sentiment_analysis e with Some _ => true | None => false end.

(** The number of matches of a sector ([event.get('sector', 'Unknown')]). *)
Definition matches_in_sector (s : string) (events : list event) : nat :=
  List.length (filter (fun e => String.eqb (get (sector e) "Unknown") s) events).

(** The count stored under a key of a dictionary kept as a list. *)
Fixpoint stored_count (s : string) (d : list (string * nat)) : nat :=
  match d with
  | [] => 0
  | (k, n) :: d' => if String.eqb s k then n else stored_count s d'
  end.

(** ** Sample inputs *)

Module Samples.

Import HistoricalMatcher.

(** Scenario A of the specification. *)
Definition scenario_A : frame :=
  [ mkBar "2024-01-02" 100 100 100 100;
    mkBar "2024-01-03" 95 95 95 95;
    mkBar "2024-01-04" 90 90 90 90;
    mkBar "2024-01-05" 110 110 110 110 ].

(** A provider answer of a single row. *)
Definition lone_bar : bar := mkBar "2024-03-01" 50 52 49 51.

Definition lone_template : template :=
  mkTemplate (Some "Single session") (Some "2024-03-01") (Some (Py.VStr "XYZ"))
             (Some "Earnings") (Some "Bullish") (Some "Technology").

Definition parse_stub (s : string) : option Z := Some 0%Z.
Definition print_stub (d : Z) : string := "2024-03-15".

(** A headline and a template that carry no categorical field. *)
Definition bare_headline : headline :=
  mkHeadline None None None false false None None None.

Definition bare_template : template :=
  mkTemplate (Some "Untagged event") (Some "2024-03-01") (Some (Py.VStr "XYZ"))
             None None None.

(** A template of the store that lacks its sector. *)
Definition sectorless_template : template :=
  mkTemplate (Some "Fed pause") (Some "2023-09-20") (Some (Py.VStr "SPY"))
             (Some "Monetary Policy") (Some "Bullish") None.

Definition no_data (ticker start_date end_date : string) : frame := [].

(** A small template store and a headline for it. *)
Definition fed_headline : headline :=
  mkHeadline (Some "Monetary Policy") (Some "Bullish") (Some "Financials")
             false true None None None.

Definition store_template (summary event_type sentiment sector_name : string) : template :=
  mkTemplate (Some summary) (Some "2023-09-20") (Some (Py.VStr "SPY"))
             (Some event_type) (Some sentiment) (Some sector_name).

Definition sample_store : list template :=
  [ store_template "Oil shock" "Geopolitical" "Bearish" "Energy";
    store_template "Bank stress" "Credit" "Bullish" "Financials";
    store_template "Fed pause" "Monetary Policy" "Bullish" "Financials";
    store_template "Chip rally" "Earnings" "Bullish" "Technology";
    store_template "Emergency cut" "Monetary Policy" "Bearish" "Energy" ].

(** Matches as the later stages receive them. *)
Definition plain_match (summary : string) (score change drawdown : Q) : event :=
  mkEvent (Some summary) (Some score) (Some (Py.VStr "SPY"))
          (Some (Py.VNum change)) None (Some (Py.VNum drawdown))
          (Some "2023-09-20") (Some "2023-09-20 to 2023-09-28") None
          None None None None.

(** A match whose impact computation failed in the Match Scorer. *)
Definition unavailable_match : event :=
  mkEvent (Some "Fed pause") (Some (8 # 10)) (Some (Py.VStr "SPY"))
          (Some (Py.VStr "N/A (processing error)")) None
          (Some (Py.VStr "N/A (processing error)"))
          (Some "2023-09-20") (Some "N/A") None None None None None.

Definition close_match : event := plain_match "Fed pause" (9 # 10) 1 (-1).
Definition violent_match : event := plain_match "Emergency cut" (2 # 10) (-8) (-12).
Definition calm_match : event := plain_match "Fed pause" (8 # 10) 4 (-1).
Definition cpi_match : event := plain_match "Hot CPI print" (8 # 10) (-4) (-6).

(** A bullish headline that carries an external SELL recommendation,
    and a bearish CPI-week headline that carries an external BUY. *)
Definition bullish_with_sell : headline :=
  mkHeadline (Some "Monetary Policy") (Some "Bullish") (Some "Financials")
             false false None None (Some "SELL").

Definition bearish_with_buy : headline :=
  mkHeadline (Some "Inflation") (Some "Bearish") (Some "Financials")
             true false None None (Some "BUY").

(** Macro data points: outcome, CPI, Fed funds rate. *)
Definition data_point (outcome : Py.value) (cpi_value fed : option Q)
  : LlmEventQuery.macro_point :=
  LlmEventQuery.mkPoint outcome "2023-09-20" cpi_value fed None None None None.

Definition sample_points : list LlmEventQuery.macro_point :=
  [ data_point (Py.VNum 0) (Some 0) (Some 5);
    data_point (Py.VNum 13) (Some 1) None;
    data_point Py.VNone (Some 9) (Some 1);
    data_point (Py.VNum 2) (Some 2) (Some 4) ].

(** The sample with one more point, whose outcome is the marker that
    the Match Scorer writes when an impact cannot be computed. *)
Definition points_with_marker : list LlmEventQuery.macro_point :=
  data_point (Py.VStr "N/A (processing error)") (Some 4) (Some 2) :: sample_points.

(** Three outcomes under one and the same rate, the double 5.33. *)
Definition constant_rate_points : list LlmEventQuery.macro_point :=
  [ data_point (Py.VNum 1) None (Some (Binary64.fl (533 # 100)));
    data_point (Py.VNum 2) None (Some (Binary64.fl (533 # 100)));
    data_point (Py.VNum 3) None (Some (Binary64.fl (533 # 100))) ].

(** A square root that is exact on the squares of integers. *)
Definition root_of_squares (x : Q) : Q :=
  inject_Z (Z.sqrt (Qnum x)) / inject_Z (Z.sqrt (Zpos (Qden x))).

(** Matches enriched with a macro snapshot. *)
Definition macro_match (change cpi_value : Q) : event :=
  mkEvent (Some "Fed pause") (Some (8 # 10)) (Some (Py.VStr "SPY"))
          (Some (Py.VNum change)) None (Some (Py.VNum (-1)))
          (Some "2023-09-20") (Some "2023-09-20 to 2023-09-28") None
          (Some "Financials") None
          (Some (mkMacro (Some cpi_value) None None None None)) None.

Definition three_macro_matches : list event :=
  [macro_match 1 3; macro_match 2 4; macro_match 3 5].

(** Price changes only. *)
Definition changes (l : list Q) : list event :=
  map (fun q => plain_match "Fed pause" (8 # 10) q (-1)) l.

Definition fmt_stub (q : Q) : string := "0.0".

(** A template whose ticker is a JSON [null]. *)
Definition null_ticker_template : template :=
  mkTemplate (Some "Fed pause") (Some "2023-09-20") (Some Py.VNone)
             (Some "Monetary Policy") (Some "Bullish") (Some "Financials").

(** Templates that agree with [fed_headline] on one and on two fields. *)
Definition sector_only_template : template :=
  store_template "Bank stress" "Credit" "Bearish" "Financials".

Definition type_and_sector_template : template :=
  store_template "Emergency cut" "Monetary Policy" "Bearish" "Financials".

(** Nine sessions: flat for seven, then a jump. *)
Definition flat_bar (day : string) (price : Q) : bar := mkBar day price price price price.

Definition nine_sessions : frame :=
  [ flat_bar "2024-03-01" 50; flat_bar "2024-03-04" 50; flat_bar "2024-03-05" 50;
    flat_bar "2024-03-06" 50; flat_bar "2024-03-07" 50; flat_bar "2024-03-08" 50;
    flat_bar "2024-03-11" 50; flat_bar "2024-03-12" 80; flat_bar "2024-03-13" 90 ].

(** A calendar whose day 0 is a Monday, and a parser for three dates
    of it. *)
Definition weekday_mod (d : Z) : Z := (d mod 7)%Z.

Definition parse_day (s : string) : option Z :=
  if String.eqb s "2024-03-08" then Some 4%Z
  else if String.eqb s "2024-03-15" then Some 11%Z
  else if String.eqb s "2024-03-22" then Some 18%Z
  else if String.eqb s "2024-06-21" then Some 109%Z
  else None.

(** Market collaborators: a quoted price, no price, an option chain. *)
Definition quoted_price (tk : Py.value) : Q := 150.
Definition no_price (tk : Py.value) : Q := 0.
Definition option_chain (tk : Py.value) : list string := ["2024-03-15"; "2024-03-22"].
Definition str_stub (v : Py.value) : string :=
  match v with Py.VStr s => s | _ => "None" end.

(** A headline that fires no rule, and a match for it. *)
Definition neutral_headline : headline :=
  mkHeadline (Some "Earnings") (Some "Neutral") (Some "Technology")
             false false None None None.

(** Collaborators of the evaluator: a clock, a calendar and a price
    feed that answers with a rising week. *)
Definition clock_stub : string := "2024-03-01T09:30:00".
Definition parse_timestamp_stub (s : string) : Z := 0%Z.
Definition str_nat_stub (n : nat) : string := "4".

Definition rising_week : frame :=
  [ flat_bar "2024-03-01" 50; flat_bar "2024-03-04" 52; flat_bar "2024-03-05" 51;
    flat_bar "2024-03-06" 55 ].

Definition rising_feed (tk : Py.value) (start finish : string) : frame := rising_week.

Definition call_on_spy : Evaluator.stored_trade :=
  Evaluator.mkStored (Some "2024-03-01T09:30:00")
    (Some (Evaluator.mkIdeaRecord (Some (Py.VStr "SPY")) (Some (Some "call")))) None.

Definition put_on_spy : Evaluator.stored_trade :=
  Evaluator.mkStored (Some "2024-03-01T09:30:00")
    (Some (Evaluator.mkIdeaRecord (Some (Py.VStr "SPY")) (Some (Some "PUT")))) None.

Definition equity_on_spy : Evaluator.stored_trade :=
  Evaluator.mkStored (Some "2024-03-01T09:30:00")
    (Some (Evaluator.mkIdeaRecord (Some (Py.VStr "SPY")) (Some None))) None.

(** Matches of two sectors, two of them with a sentiment analysis. *)
Definition sector_match (sector_name : string) (change : Q)
  (sentiment : option sentiment_analysis) : event :=
  mkEvent (Some "Fed pause") (Some (8 # 10)) (Some (Py.VStr "SPY"))
          (Some (Py.VNum change)) None (Some (Py.VNum (-1)))
          (Some "2023-09-20") (Some "2023-09-20 to 2023-09-28") None
          (Some sector_name) None None sentiment.

Definition sample_matches : list event :=
  [ sector_match "Financials" 3
      (Some (mkSentiment (Some "Bullish") (Some "Bullish") (Some (9 # 10))));
    sector_match "Energy" (-2) None;
    sector_match "Financials" 1
      (Some (mkSentiment (Some "Bullish") (Some "Bearish") (Some (2 # 10)))) ].

(** Correlations with one strong factor, and three points of which
    one has no CPI value. *)
Definition strong_cpi : LlmEventQuery.correlations :=
  LlmEventQuery.mkCorrelations
    (LlmEventQuery.mkEntry (9 # 10) "Strong" 3 (Some "Positive"))
    LlmEventQuery.initial_entry LlmEventQuery.initial_entry LlmEventQuery.initial_entry.

(** A strong entry that lacks the ['direction'] key. *)
Definition strong_cpi_without_direction : LlmEventQuery.correlations :=
  LlmEventQuery.mkCorrelations
    (LlmEventQuery.mkEntry (9 # 10) "Strong" 3 None)
    LlmEventQuery.initial_entry LlmEventQuery.initial_entry LlmEventQuery.initial_entry.

Definition points_without_cpi : list LlmEventQuery.macro_point :=
  [ data_point (Py.VNum 1) (Some 2) (Some 5);
    data_point (Py.VNum 2) None (Some 4);
    data_point (Py.VNum 3) (Some 4) (Some 3) ].

End Samples.

(** * Properties *)

Import Samples.

(** ** Facts about the runtime fragments *)

Lemma Qltb_lt (x y : Q) : Py.Qltb x y = true <-> x < y.
Proof.
  unfold Py.Qltb. rewrite negb_true_iff.
  split; intro H.
  - apply Qnot_le_lt. intro Hle. apply Qle_bool_iff in Hle. congruence.
  - destruct (Qle_bool y x) eqn:E; [|reflexivity].
    apply Qle_bool_iff in E. exfalso. apply (Qlt_not_le _ _ H E).
Qed.

Lemma Qltb_ge (x y : Q) : Py.Qltb x y = false <-> y <= x.
Proof.
  unfold Py.Qltb. rewrite negb_false_iff. apply Qle_bool_iff.
Qed.

Lemma py_max_spec (a b : Q) : a <= Py.max a b /\ b <= Py.max a b.
Proof.
  unfold Py.max. destruct (Py.Qltb a b) eqn:E.
  - apply Qltb_lt in E. split; lra.
  - apply Qltb_ge in E. split; lra.
Qed.

Lemma py_max_case (a b : Q) :
  (a < b /\ Py.max a b = b) \/ (b <= a /\ Py.max a b = a).
Proof.
  unfold Py.max. destruct (Py.Qltb a b) eqn:E.
  - left. split; [now apply Qltb_lt | reflexivity].
  - right. split; [now apply Qltb_ge | reflexivity].
Qed.

Lemma py_min_case (a b : Q) :
  (b < a /\ Py.min a b = b) \/ (a <= b /\ Py.min a b = a).
Proof.
  unfold Py.min. destruct (Py.Qltb b a) eqn:E.
  - left. split; [now apply Qltb_lt | reflexivity].
  - right. split; [now apply Qltb_ge | reflexivity].
Qed.


(** ** Drawdown of a closing-price series *)

Import HistoricalMatcher.

(** The drawdown of one close against a positive peak that dominates it. *)
Lemma current_drawdown_sign (close peak : Q) :
  0 < peak -> close <= peak ->
  (close / peak - 1) * 100 <= 0 /\
  ((close / peak - 1) * 100 == 0 <-> close == peak).
Proof.
  intros Hp Hc.
  assert (Hdiv : close / peak <= 1).
  { apply Qle_shift_div_r; [exact Hp | lra]. }
  split; [lra|].
  split; intro H.
  - assert (H1 : close / peak == 1) by lra.
    assert (H2 : close == (close / peak) * peak).
    { field. intro Hz. rewrite Hz in Hp. now apply Qlt_irrefl in Hp. }
    rewrite H2, H1. ring.
  - assert (H1 : close / peak == 1).
    { rewrite H. field. intro Hz. rewrite Hz in Hp. now apply Qlt_irrefl in Hp. }
    rewrite H1. ring.
Qed.

Lemma HdRel_Qle_compat (a b : Q) (l : list Q) :
  a == b -> HdRel Qle a l -> HdRel Qle b l.
Proof.
  intros Hab H. destruct H as [|c l' Hc]; constructor.
  rewrite <- Hab. exact Hc.
Qed.

(** Invariant of the walk: the running minimum stays non-positive, and
    it stays at zero exactly when every close reaches the running peak. *)
Lemma drawdown_fold_sign (rest : list Q) : forall peak md,
  0 < peak -> Forall (fun c => 0 < c) rest -> md <= 0 ->
  let md' := snd (fold_left drawdown_step rest (peak, md)) in
  md' <= 0 /\ (md' == 0 <-> md == 0 /\ Sorted Qle (peak :: rest)).
Proof.
  induction rest as [|c r IH]; intros peak md Hp Hall Hmd; cbn zeta.
  - simpl. split; [exact Hmd|].
    split; [intro H; split; [exact H | repeat constructor] | tauto].
  - inversion Hall as [|? ? Hc Hr]; subst.
    simpl fold_left. unfold drawdown_step at 2.
    pose proof (py_max_spec peak c) as [Hpk Hcp].
    pose proof (py_max_case peak c) as Hcase.
    remember (Py.max peak c) as p' eqn:Ep'. clear Ep'.
    assert (Hp' : 0 < p') by lra.
    destruct (current_drawdown_sign Hp' Hcp) as [Hcd Hcd0].
    remember ((c / p' - 1) * 100) as cd eqn:Ecd. clear Ecd.
    assert (Hmin : Py.min md cd <= 0).
    { destruct (py_min_case md cd) as [[_ ->]|[_ ->]]; assumption. }
    destruct (IH p' (Py.min md cd) Hp' Hr Hmin) as [IH1 IH2].
    split; [exact IH1|].
    rewrite IH2. clear IH1 IH2 IH.
    assert (Hmin0 : Py.min md cd == 0 <-> md == 0 /\ cd == 0).
    { destruct (py_min_case md cd) as [[Hlt ->]|[Hle ->]]; split; intros; lra. }
    rewrite Hmin0, Hcd0.
    destruct Hcase as [[Hlt Hmax]|[Hle Hmax]]; subst p'.
    + split.
      * intros [[Hm _] Hs]. split; [exact Hm|].
        constructor; [exact Hs | constructor; lra].
      * intros [Hm Hs]. inversion Hs; subst. repeat split; try assumption.
    + split.
      * intros [[Hm Heq] Hs]. split; [exact Hm|].
        inversion Hs; subst.
        constructor.
        -- constructor; [assumption|].
           apply HdRel_Qle_compat with (a := peak); [now symmetry | assumption].
        -- constructor. lra.
      * intros [Hm Hs]. inversion Hs as [|? ? Hs' Hhd]; subst.
        inversion Hhd; subst.
        assert (Heq : c == peak) by lra.
        repeat split; try assumption.
        inversion Hs'; subst.
        constructor; [assumption|].
        apply HdRel_Qle_compat with (a := c); assumption.
Qed.

(** C7. For a closing-price series of at least two positive prices the
    maximum drawdown computed by [calculate_drop_percentage] is never
    positive, and it is zero exactly when the closes never decrease
    from one row to the next. *)
Theorem drawdown_nonpositive_zero_iff_nondecreasing (df : frame) :
  (2 <= List.length df)%nat ->
  Forall (fun b => 0 < Close b) df ->
  let max_drawdown_pct := snd (calculate_drop_percentage df) in
  max_drawdown_pct <= 0 /\
  (max_drawdown_pct == 0 <-> Sorted Qle (map Close df)).
Proof.
  intros Hlen Hpos. cbn zeta.
  unfold calculate_drop_percentage.
  destruct (Nat.ltb_spec (List.length df) 2) as [Hlt|_]; [lia|].
  cbn [snd].
  destruct df as [|b0 df']; [simpl in Hlen; lia|].
  inversion Hpos as [|? ? Hb0 Hrest]; subst.
  simpl map. unfold drawdown_walk.
  assert (Hrest' : Forall (fun c => 0 < c) (map Close df')).
  { apply Forall_map. exact Hrest. }
  destruct (@drawdown_fold_sign (map Close df') (Close b0) 0 Hb0 Hrest')
    as [H1 H2]; [lra|].
  split; [exact H1|].
  rewrite H2. split; [tauto | intro; split; [reflexivity | assumption]].
Qed.

Lemma drawdown_nonpositive_zero_iff_nondecreasing_witness :
  snd (calculate_drop_percentage scenario_A) <= 0 /\
  (snd (calculate_drop_percentage scenario_A) == 0 <->
   Sorted Qle (map Close scenario_A)).
Proof.
  apply (@drawdown_nonpositive_zero_iff_nondecreasing scenario_A).
  - simpl. lia.
  - repeat constructor.
Defined.

(** Scenario A of the specification: closes 100, 95, 90, 110. *)
Example scenario_A_values :
  fst (calculate_drop_percentage scenario_A) == 10 /\
  snd (calculate_drop_percentage scenario_A) == -10.
Proof. split; vm_compute; reflexivity. Qed.

(** ** Market impact of short series *)

Section ShortSeries.

Variable fetch_market_data : string -> string -> string -> frame.
Variable strptime : string -> option Z.
Variable strftime : Z -> string.

Local Abbreviation impact_of :=
  (analyze_market_impact fetch_market_data strptime strftime).

(** C4 (as the code has it). A template without an event date (or
    with an empty one) and a template whose date does not parse get
    the ["N/A"] markers; so does, for a string ticker and a
    well-formed date, an empty fetched series; a series of exactly
    one row gets the numbers [0.0] and [0.0], with the row's date as
    date range and [trading_days = 1] in the price data. *)
Theorem impact_of_short_series (t : template) :
  (get (t_event_date t) EmptyString = EmptyString ->
   impact_of t = Py.Ok impact_unavailable) /\
  (forall d, t_event_date t = Some d -> strptime d = None ->
     impact_of t = Py.Ok impact_unavailable) /\
  (forall tk d day,
     get (t_affected_ticker t) (Py.VStr DEFAULT_MARKET_TICKER) = Py.VStr tk ->
     t_event_date t = Some d -> d <> EmptyString -> strptime d = Some day ->
     let df := fetch_market_data tk d (strftime (day + 14)) in
     (df = [] -> impact_of t = Py.Ok impact_unavailable) /\
     (forall b, df = [b] ->
        impact_of t =
        Py.Ok (mkImpact (Py.VNum 0) (Py.VNum 0)
                 (String.append (bar_date b) (String.append " to " (bar_date b)))
                 (Some (mkPriceData (Close b) (Close b) (Low b) (High b) 1))))) /\
  impact_unavailable = mkImpact (Py.VStr "N/A") (Py.VStr "N/A") "N/A" None.
Proof.
  unfold analyze_market_impact.
  split; [|split; [|split; [|reflexivity]]].
  - intros ->. reflexivity.
  - intros d Hd Hbad. rewrite Hd. cbn [get].
    destruct (String.eqb d EmptyString); [reflexivity|].
    rewrite Hbad. reflexivity.
  - intros tk d day Htk Hd Hne Hday.
    rewrite Htk, Hd. cbn [get].
    destruct (String.eqb_spec d EmptyString) as [E|_]; [contradiction|].
    rewrite Hday. cbn [fetch_market_data_py Py.bind].
    split.
    + intros ->. reflexivity.
    + intros b ->. reflexivity.
Qed.

End ShortSeries.

Lemma impact_of_short_series_witness :
  analyze_market_impact (fun _ _ _ => [lone_bar]) parse_stub print_stub lone_template =
  Py.Ok (mkImpact (Py.VNum 0) (Py.VNum 0) "2024-03-01 to 2024-03-01"
           (Some (mkPriceData 51 51 49 52 1))) /\
  analyze_market_impact (fun _ _ _ => [lone_bar]) parse_day print_stub lone_template =
  Py.Ok impact_unavailable.
Proof.
  split.
  - destruct (@impact_of_short_series (fun _ _ _ => [lone_bar]) parse_stub print_stub
                lone_template) as (_ & _ & H & _).
    assert (Hne : "2024-03-01" <> EmptyString) by discriminate.
    destruct (H "XYZ" "2024-03-01" 0%Z eq_refl eq_refl Hne eq_refl) as [_ H1].
    apply (H1 lone_bar). reflexivity.
  - destruct (@impact_of_short_series (fun _ _ _ => [lone_bar]) parse_day print_stub
                lone_template) as (_ & H & _).
    apply (H "2024-03-01"); reflexivity.
Defined.

(** C4 (as stated) fails: a series of exactly one row is reported with
    the ordinary numbers [0.0] and [0.0], not with an unavailable
    marker. *)
Lemma one_row_series_reported_as_zero_move :
  exists imp,
    analyze_market_impact (fun _ _ _ => [lone_bar]) parse_stub print_stub lone_template
    = Py.Ok imp /\
    i_price_change_pct imp = Py.VNum 0 /\
    i_max_drawdown_pct imp = Py.VNum 0 /\
    Py.is_number (i_price_change_pct imp) = true /\
    imp <> impact_unavailable.
Proof.
  eexists. split; [reflexivity|].
  repeat split; discriminate.
Qed.

(** ** Facts about the stable descending sort *)

Section SortFacts.

Variables (A K : Type) (key : A -> K) (ltb : K -> K -> bool).

Local Abbreviation insert := (insert_desc key ltb).
Local Abbreviation sort := (sort_desc key ltb).

Lemma insert_desc_perm (x : A) (l : list A) : Permutation (insert x l) (x :: l).
Proof.
  induction l as [|y l IH]; simpl; [reflexivity|].
  destruct (ltb (key x) (key y)); [|reflexivity].
  rewrite IH. apply perm_swap.
Qed.

Lemma sort_desc_perm (l : list A) : Permutation (sort l) l.
Proof.
  induction l as [|x l IH]; simpl; [reflexivity|].
  rewrite insert_desc_perm. now constructor.
Qed.

Lemma sort_desc_length (l : list A) : List.length (sort l) = List.length l.
Proof. apply Permutation_length, sort_desc_perm. Qed.

Lemma sort_desc_In (l : list A) (x : A) : In x (sort l) <-> In x l.
Proof.
  split; apply Permutation_in; [|symmetry]; apply sort_desc_perm.
Qed.

(** Stability: a class of elements that is closed under "larger key
    than one of its members is outside" keeps its input order. *)
Lemma insert_desc_filter (P : A -> bool) (x : A) (l : list A) :
  (forall y, P x = true -> ltb (key x) (key y) = true -> P y = false) ->
  filter P (insert x l) = filter P (x :: l).
Proof.
  intro HP. induction l as [|y l IH]; [reflexivity|].
  simpl. destruct (ltb (key x) (key y)) eqn:E; [|reflexivity].
  simpl. simpl in IH. rewrite IH.
  destruct (P x) eqn:Px; [|reflexivity].
  now rewrite (HP y eq_refl E).
Qed.

Lemma sort_desc_filter (P : A -> bool) (l : list A) :
  (forall x y, P x = true -> ltb (key x) (key y) = true -> P y = false) ->
  filter P (sort l) = filter P l.
Proof.
  intro HP. induction l as [|x l IH]; [reflexivity|].
  simpl.
  rewrite insert_desc_filter by (intro y; apply HP).
  simpl. now rewrite IH.
Qed.

Hypothesis ltb_asym : forall a b, ltb a b = true -> ltb b a = false.
Hypothesis ltb_negtrans :
  forall a b c, ltb a b = false -> ltb b c = false -> ltb a c = false.

Local Abbreviation ge := (fun a b : A => ltb (key a) (key b) = false).

Lemma insert_desc_sorted (x : A) (l : list A) :
  StronglySorted ge l -> StronglySorted ge (insert x l).
Proof.
  induction 1 as [|y l Hs IH Hy]; simpl.
  - repeat constructor.
  - destruct (ltb (key x) (key y)) eqn:E.
    + constructor; [exact IH|].
      apply Forall_forall. intros z Hz.
      apply (Permutation_in _ (insert_desc_perm x l)) in Hz.
      destruct Hz as [<-|Hz].
      * apply ltb_asym, E.
      * rewrite Forall_forall in Hy. now apply Hy.
    + constructor; [now constructor|].
      constructor; [exact E|].
      apply Forall_forall. intros z Hz.
      rewrite Forall_forall in Hy.
      apply ltb_negtrans with (b := key y); [exact E | now apply Hy].
Qed.

Lemma sort_desc_sorted (l : list A) : StronglySorted ge (sort l).
Proof.
  induction l as [|x l IH]; simpl; [constructor|].
  now apply insert_desc_sorted.
Qed.

(** The first element of the result dominates every input element. *)
Lemma sort_desc_head (l : list A) (top : A) (rest : list A) :
  sort l = top :: rest ->
  In top l /\ forall e, In e l -> ltb (key top) (key e) = false.
Proof.
  intro Hs. split.
  - apply sort_desc_In. rewrite Hs. now left.
  - intros e He. apply sort_desc_In in He.
    pose proof (sort_desc_sorted l) as Hsorted. rewrite Hs in *.
    inversion Hsorted as [|? ? _ Hall]; subst.
    destruct He as [<-|He].
    + destruct (ltb (key top) (key top)) eqn:E; [|reflexivity].
      now rewrite (ltb_asym E) in E.
    + rewrite Forall_forall in Hall. now apply Hall.
Qed.

End SortFacts.

Lemma Qltb_asym (a b : Q) : Py.Qltb a b = true -> Py.Qltb b a = false.
Proof. rewrite Qltb_lt, Qltb_ge. lra. Qed.

Lemma Qltb_negtrans (a b c : Q) :
  Py.Qltb a b = false -> Py.Qltb b c = false -> Py.Qltb a c = false.
Proof. rewrite !Qltb_ge. lra. Qed.

Lemma StronglySorted_firstn {A} (R : A -> A -> Prop) (n : nat) (l : list A) :
  StronglySorted R l -> StronglySorted R (firstn n l).
Proof.
  revert l. induction n as [|n IH]; intros l Hs; [constructor|].
  destruct l as [|x l]; [constructor|].
  inversion Hs as [|? ? Hs' Hall]; subst. simpl. constructor.
  - now apply IH.
  - apply Forall_forall. intros y Hy. rewrite Forall_forall in Hall.
    apply Hall. rewrite <- (firstn_skipn n l). apply in_or_app. now left.
Qed.

Lemma StronglySorted_map {A B} (f : A -> B) (R : B -> B -> Prop) (l : list A) :
  StronglySorted (fun a b => R (f a) (f b)) l -> StronglySorted R (map f l).
Proof.
  induction 1 as [|x l Hs IH Hall]; simpl; constructor; [exact IH|].
  apply Forall_map. exact Hall.
Qed.

(** ** Match scoring *)

Lemma match_score_cases (h : headline) (t : template) :
  let s := calculate_match_score h t in
  0 <= s /\ (s == 0 <-> some_field_agrees h t = false) /\
  (0 < s <-> some_field_agrees h t = true) /\
  Py.round2 s == s.
Proof.
  unfold calculate_match_score, some_field_agrees.
  destruct (opt_string_eqb (h_event_type h) (t_event_type t));
    destruct (opt_string_eqb (h_sentiment h) (t_sentiment t));
    destruct (opt_string_eqb (h_sector h) (t_sector t));
    cbn -[Qle Qlt Qeq Py.round2]; repeat split;
    try discriminate; try reflexivity; try (intros _; reflexivity);
    try (vm_compute; congruence); try (intro H; vm_compute in H; congruence).
Qed.

Section Scoring.

Variable historical_events : list template.

Lemma scored_events_In (h : headline) (s : Q) (t : template) :
  In (s, t) (scored_events historical_events h) <->
  In t historical_events /\ s = calculate_match_score h t /\ 0 < s.
Proof.
  unfold scored_events. rewrite filter_In, in_map_iff. cbn [fst].
  unfold Py.Qgtb. rewrite Qltb_lt. split.
  - intros [[t' [E Ht']] Hs]. inversion E; subst. auto.
  - intros [Ht [-> Hs]]. split; [|exact Hs]. now exists t.
Qed.

(** How absent fields are scored.  No template is skipped for a
    missing field: an absent field reads as [None] on either side, so
    a field absent from both sides counts as matching and adds its
    weight, a field absent from one side only adds nothing, and a
    template of the store is kept exactly when at least one of the
    three comparisons succeeds. *)
Theorem absent_fields_compare_as_None (h : headline) (t : template) :
  In t historical_events ->
  let s := calculate_match_score h t in
  (In (s, t) (scored_events historical_events h) <-> some_field_agrees h t = true) /\
  (h_event_type h = None -> t_event_type t = None -> 5 # 10 <= s) /\
  (h_sentiment h = None -> t_sentiment t = None -> 3 # 10 <= s) /\
  (h_sector h = None -> t_sector t = None -> 2 # 10 <= s) /\
  (absent_from_one_side (h_event_type h) (t_event_type t) -> s <= 5 # 10) /\
  (absent_from_one_side (h_sentiment h) (t_sentiment t) -> s <= 7 # 10) /\
  (absent_from_one_side (h_sector h) (t_sector t) -> s <= 8 # 10).
Proof.
  intros Hin s.
  destruct (match_score_cases h t) as (H0 & _ & Hpos & _). fold s in H0, Hpos.
  split.
  - rewrite scored_events_In, <- Hpos. tauto.
  - subst s. unfold calculate_match_score, absent_from_one_side.
    repeat split.
    1-3: intros -> ->; cbn [opt_string_eqb];
      destruct (opt_string_eqb _ _); try destruct (opt_string_eqb _ _);
      vm_compute; congruence.
    + intros [[-> Hn]|[Hn ->]];
        destruct (t_event_type t), (h_event_type h); try congruence;
        cbn [opt_string_eqb];
        destruct (opt_string_eqb _ _); destruct (opt_string_eqb _ _);
        vm_compute; congruence.
    + intros [[-> Hn]|[Hn ->]];
        destruct (t_sentiment t), (h_sentiment h); try congruence;
        cbn [opt_string_eqb];
        destruct (opt_string_eqb _ _); destruct (opt_string_eqb _ _);
        vm_compute; congruence.
    + intros [[-> Hn]|[Hn ->]];
        destruct (t_sector t), (h_sector h); try congruence;
        cbn [opt_string_eqb];
        destruct (opt_string_eqb _ _); destruct (opt_string_eqb _ _);
        vm_compute; congruence.
Qed.

End Scoring.

Lemma absent_fields_compare_as_None_witness :
  In (calculate_match_score bare_headline bare_template, bare_template)
     (scored_events [bare_template] bare_headline) /\
  5 # 10 <= calculate_match_score bare_headline bare_template /\
  calculate_match_score fed_headline sectorless_template <= 8 # 10.
Proof.
  destruct (@absent_fields_compare_as_None [bare_template] bare_headline bare_template
              (or_introl eq_refl)) as (Hkept & Htype & _).
  destruct (@absent_fields_compare_as_None [sectorless_template] fed_headline
              sectorless_template (or_introl eq_refl)) as (_ & _ & _ & _ & _ & _ & Hsec).
  split; [apply Hkept; reflexivity|].
  split; [apply Htype; reflexivity|].
  apply Hsec. right. split; [discriminate | reflexivity].
Defined.

(** C5 (what the code does). [match_similar_events] has no check of
    the three categorical fields.  A template that lacks its sector
    is scored on the two fields it has, [0.8] here, and is returned
    as a match; a headline and a template that both lack every
    categorical field score [1.0], each absent field adding its
    weight, and the template is returned as a match. *)
Theorem untagged_template_is_matched :
  calculate_match_score fed_headline sectorless_template == 8 # 10 /\
  List.length
    (match_similar_events [sectorless_template] no_data parse_stub print_stub
       fed_headline 3) = 1%nat /\
  calculate_match_score bare_headline bare_template == 1 /\
  List.length
    (match_similar_events [bare_template] no_data parse_stub print_stub bare_headline 3)
  = 1%nat.
Proof. repeat split; vm_compute; reflexivity. Qed.

(** ** Ranking of the matches *)

Lemma filter_firstn_prefix {A} (P : A -> bool) (n : nat) (l : list A) :
  prefix (filter P (firstn n l)) (filter P l).
Proof.
  exists (filter P (skipn n l)).
  rewrite <- filter_app, firstn_skipn. reflexivity.
Qed.

Lemma filter_none {A} (P : A -> bool) (l : list A) :
  (forall x, In x l -> P x = false) -> filter P l = [].
Proof.
  induction l as [|x l IH]; intro H; [reflexivity|].
  simpl. rewrite (H x (or_introl eq_refl)). apply IH.
  intros y Hy. apply H. now right.
Qed.

Lemma slice_to_nonneg {A} (l : list A) (n : Z) :
  (0 <= n)%Z -> Py.slice_to l n = firstn (Z.to_nat n) l.
Proof.
  intro H. unfold Py.slice_to.
  destruct (Z.leb_spec 0 n); [reflexivity | lia].
Qed.

Section Ranking.

Variable historical_events : list template.
Variable fetch_market_data : string -> string -> string -> frame.
Variable strptime : string -> option Z.
Variable strftime : Z -> string.

Local Abbreviation matches :=
  (match_similar_events historical_events fetch_market_data strptime strftime).
Local Abbreviation result_of :=
  (build_result fetch_market_data strptime strftime).
Local Abbreviation ranked := (top_events historical_events).
Local Abbreviation sorted_events h :=
  (sort_desc (@fst Q template) Py.Qltb (scored_events historical_events h)).

Lemma match_similar_events_map (h : headline) (top_n : Z) :
  matches h top_n = map result_of (ranked h top_n).
Proof.
  unfold match_similar_events, top_events, scored_events.
  destruct historical_events as [|t l]; [|reflexivity].
  simpl. unfold Py.slice_to. simpl.
  destruct (0 <=? top_n)%Z; rewrite ?firstn_nil; reflexivity.
Qed.

Lemma build_result_score (p : Q * template) :
  score_of (result_of p) = Py.round2 (fst p) /\
  event_summary (result_of p) = Some (get (t_event_summary (snd p)) EmptyString).
Proof.
  destruct p as [s t]. unfold build_result.
  destruct (analyze_market_impact _ _ _ t); split; reflexivity.
Qed.

Lemma ranked_In (h : headline) (top_n : Z) (p : Q * template) :
  (0 <= top_n)%Z ->
  In p (ranked h top_n) ->
  In (snd p) historical_events /\ fst p = calculate_match_score h (snd p) /\ 0 < fst p.
Proof.
  intros Hn Hp. unfold top_events in Hp. rewrite slice_to_nonneg in Hp by exact Hn.
  assert (Hs : In p (sorted_events h)).
  { rewrite <- (firstn_skipn (Z.to_nat top_n) (sorted_events h)).
    apply in_or_app. now left. }
  apply sort_desc_In in Hs. destruct p as [s t].
  now apply scored_events_In in Hs.
Qed.

(** C9. For a fixed template store and a non-negative [top_n] the
    Match Scorer is a function of its input; its output has at most
    [top_n] entries, none of which scores 0; the scores never
    increase along the output; and templates of equal score appear
    in the order of the template store. *)
Theorem match_scorer_ranking (h : headline) (top_n : Z) :
  (0 <= top_n)%Z ->
  let results := matches h top_n in
  (forall h' top_n', h' = h -> top_n' = top_n -> matches h' top_n' = results) /\
  (List.length results <= Z.to_nat top_n)%nat /\
  Forall (fun r => 0 < score_of r) results /\
  StronglySorted (fun a b => score_of b <= score_of a) results /\
  Forall2 (fun r p =>
             score_of r == calculate_match_score h (snd p) /\
             event_summary r = Some (get (t_event_summary (snd p)) EmptyString) /\
             In (snd p) historical_events)
          results (ranked h top_n) /\
  (forall s, prefix (map snd (filter (fun p => Qeq_bool (fst p) s) (ranked h top_n)))
                    (filter (fun t => Qeq_bool (calculate_match_score h t) s)
                            historical_events)).
Proof.
  intros Hn results. subst results. rewrite match_similar_events_map.
  assert (Hrk : forall p, In p (ranked h top_n) ->
            score_of (result_of p) == fst p /\ 0 < fst p /\
            fst p = calculate_match_score h (snd p) /\ In (snd p) historical_events).
  { intros p Hp. destruct (@ranked_In h top_n p Hn Hp) as (Hin & Hsc & Hpos).
    destruct (build_result_score p) as [-> _].
    repeat split; try assumption.
    rewrite Hsc. apply match_score_cases. }
  split; [intros; subst; apply match_similar_events_map|].
  split.
  { rewrite length_map. unfold top_events. rewrite slice_to_nonneg by exact Hn.
    apply firstn_le_length. }
  split.
  { apply Forall_map, Forall_forall. intros p Hp.
    destruct (Hrk p Hp) as (-> & Hpos & _). exact Hpos. }
  split.
  { apply StronglySorted_map.
    assert (Hs : StronglySorted (fun a b : Q * template => fst b <= fst a)
                   (ranked h top_n)).
    { unfold top_events. rewrite slice_to_nonneg by exact Hn.
      apply StronglySorted_firstn.
      pose proof (@sort_desc_sorted _ _ (@fst Q template) Py.Qltb
                    Qltb_asym Qltb_negtrans (scored_events historical_events h)) as S.
      clear -S. induction S as [|x l Hs IH Hall]; constructor; [exact IH|].
      eapply Forall_impl; [|exact Hall]. intros a Ha. now apply Qltb_ge in Ha. }
    clear -Hs Hrk. induction Hs as [|x l Hs IH Hall]; constructor.
    - apply IH. intros p Hp. apply Hrk. now right.
    - rewrite Forall_forall in *. intros y Hy.
      destruct (Hrk x (or_introl eq_refl)) as (-> & _).
      destruct (Hrk y (or_intror Hy)) as (-> & _). now apply Hall. }
  split.
  { assert (Haux : forall l, (forall p, In p l -> In p (ranked h top_n)) ->
              Forall2 (fun r p =>
                         score_of r == calculate_match_score h (snd p) /\
                         event_summary r =
                           Some (get (t_event_summary (snd p)) EmptyString) /\
                         In (snd p) historical_events)
                      (map result_of l) l).
    { induction l as [|p l IH]; intro Hsub; simpl; constructor.
      - destruct (Hrk p (Hsub p (or_introl eq_refl))) as (Hsc & _ & Heq & Hin).
        destruct (build_result_score p) as [_ Hsum].
        repeat split; try assumption. now rewrite <- Heq.
      - apply IH. intros q Hq. apply Hsub. now right. }
    apply Haux. auto. }
  intro s.
  destruct (Qlt_le_dec 0 s) as [Hpos|Hle].
  - unfold top_events. rewrite slice_to_nonneg by exact Hn.
    destruct (filter_firstn_prefix (fun p : Q * template => Qeq_bool (fst p) s)
                (Z.to_nat top_n) (sorted_events h)) as [rest Hrest].
    exists (map snd rest).
    rewrite <- map_app, <- Hrest.
    rewrite sort_desc_filter.
    2:{ intros x y Hx Hlt. cbn beta in *. apply Qeq_bool_iff in Hx.
        apply Qltb_lt in Hlt. apply not_true_is_false. intro Hy.
        apply Qeq_bool_iff in Hy. lra. }
    unfold scored_events. clear Hrest Hrk.
    induction historical_events as [|t l IH]; [reflexivity|].
    simpl. unfold Py.Qgtb at 1. cbn [fst].
    destruct (Qeq_bool (calculate_match_score h t) s) eqn:E.
    + assert (Hgt : Py.Qltb 0 (calculate_match_score h t) = true).
      { apply Qltb_lt. apply Qeq_bool_iff in E. lra. }
      rewrite Hgt. simpl. rewrite E. simpl. now f_equal.
    + destruct (Py.Qltb 0 (calculate_match_score h t)); simpl;
        [rewrite E|]; exact IH.
  - assert (Hnone : filter (fun p : Q * template => Qeq_bool (fst p) s) (ranked h top_n)
                    = []).
    { apply filter_none. intros p Hp.
      destruct (Hrk p Hp) as (_ & Hgt & _).
      apply not_true_is_false. intro E.
      apply Qeq_bool_iff in E. lra. }
    rewrite Hnone. simpl. eexists. reflexivity.
Qed.

End Ranking.

Lemma match_scorer_ranking_witness :
  (List.length
     (match_similar_events sample_store no_data parse_stub print_stub fed_headline 2)
   <= 2)%nat /\
  StronglySorted (fun a b => score_of b <= score_of a)
    (match_similar_events sample_store no_data parse_stub print_stub fed_headline 2).
Proof.
  destruct (@match_scorer_ranking sample_store no_data parse_stub print_stub
              fed_headline 2%Z ltac:(lia)) as (_ & Hlen & _ & Hsorted & _).
  split; assumption.
Defined.

(** On the sample store the best templates come out first, the tie at
    0.5 between the second and the fifth template being resolved in
    store order. *)
Example sample_ranking :
  map event_summary
    (match_similar_events sample_store no_data parse_stub print_stub fed_headline 3)
  = [Some "Fed pause"; Some "Bank stress"; Some "Emergency cut"] /\
  map event_summary
    (match_similar_events sample_store no_data parse_stub print_stub fed_headline 2)
  = [Some "Fed pause"; Some "Bank stress"].
Proof. split; vm_compute; reflexivity. Qed.

(** A negative [top_n] is a Python slice from the end and drops that
    many matches from the tail instead. *)
Remark negative_top_n_drops_the_tail :
  map event_summary
    (match_similar_events sample_store no_data parse_stub print_stub fed_headline (-1))
  = [Some "Fed pause"; Some "Bank stress"; Some "Emergency cut"].
Proof. vm_compute. reflexivity. Qed.

(** ** Selection of the top match *)

Import TradePicker.

Lemma key_ltb_spec (a b : Q * Q) :
  key_ltb a b = true <->
  fst a < fst b \/ (fst a == fst b /\ snd a < snd b).
Proof.
  unfold key_ltb.
  rewrite orb_true_iff, andb_true_iff, !Qltb_lt, Qeq_bool_iff. tauto.
Qed.

Lemma key_ltb_false (a b : Q * Q) :
  key_ltb a b = false <->
  fst b <= fst a /\ (fst a == fst b -> snd b <= snd a).
Proof.
  rewrite <- not_true_iff_false, key_ltb_spec. split.
  - intro H. split.
    + destruct (Qlt_le_dec (fst a) (fst b)); [exfalso; auto | assumption].
    + intro E. destruct (Qlt_le_dec (snd a) (snd b)); [exfalso; auto | assumption].
  - intros [H1 H2] [H|[E H]]; [lra|]. specialize (H2 E). lra.
Qed.

Lemma key_ltb_asym (a b : Q * Q) : key_ltb a b = true -> key_ltb b a = false.
Proof.
  rewrite key_ltb_spec, key_ltb_false.
  intros [H|[E H]]; split; try lra; intro E'; lra.
Qed.

Lemma key_ltb_negtrans (a b c : Q * Q) :
  key_ltb a b = false -> key_ltb b c = false -> key_ltb a c = false.
Proof.
  rewrite !key_ltb_false. intros [H1 H2] [H3 H4]. split; [lra|].
  intro E. assert (E1 : fst a == fst b) by lra. assert (E2 : fst b == fst c) by lra.
  specialize (H2 E1). specialize (H4 E2). lra.
Qed.

Lemma mapM_ok {A B} (f : A -> Py.result B) (l : list A) :
  Forall (fun x => Py.is_ok (f x) = true) l ->
  exists l', Py.mapM f l = Py.Ok l' /\ Forall2 (fun x y => f x = Py.Ok y) l l'.
Proof.
  induction 1 as [|x l Hx Hl [l' [E F]]].
  - exists []. split; [reflexivity | constructor].
  - simpl. destruct (f x) as [y|] eqn:Ey; [|discriminate].
    exists (y :: l'). simpl. rewrite E. split; [reflexivity|].
    constructor; assumption.
Qed.

Lemma mapM_raise {A B} (f : A -> Py.result B) (l : list A) (x : A) (e : Py.exn) :
  In x l -> f x = Py.Raise e ->
  exists e', Py.mapM f l = Py.Raise e'.
Proof.
  induction l as [|y l IH]; intros Hin Hx; [contradiction|].
  simpl. destruct Hin as [->|Hin].
  - rewrite Hx. now exists e.
  - destruct (f y); [|eexists; reflexivity].
    destruct (IH Hin Hx) as [e' ->]. now exists e'.
Qed.

Lemma sort_key_ok (e : event) (p : (Q * Q) * event) :
  sort_key e = Py.Ok p ->
  snd p = e /\ get_price_change e = Py.Ok (fst (fst p)) /\ snd (fst p) = score_of e.
Proof.
  unfold sort_key. destruct (get_price_change e) as [k|]; simpl; [|discriminate].
  intro H. inversion H; subst. auto.
Qed.

Lemma select_top_match_maximal (ms : list event) :
  ms <> [] ->
  Forall (fun e => Py.is_ok (get_price_change e) = true) ms ->
  exists top k,
    select_top_match ms = Py.Ok top /\ In top ms /\
    get_price_change top = Py.Ok k /\
    (forall e ke, In e ms -> get_price_change e = Py.Ok ke ->
       ke <= k /\ (ke == k -> score_of e <= score_of top)) /\
    (forall fetch_current_price fetch_option_expiries today weekday strptime strftime
            format_2f str h idea,
       generate_trade_idea fetch_current_price fetch_option_expiries today weekday
         strptime strftime format_2f str h ms = Py.Ok idea ->
       ticker idea = Some (get (affected_ticker top) (Py.VStr "SPY"))).
Proof.
  intros Hne Hnum.
  assert (Hkeys : Forall (fun e => Py.is_ok (sort_key e) = true) ms).
  { eapply Forall_impl; [|exact Hnum]. intros e He. cbn beta in He.
    unfold sort_key. destruct (get_price_change e); [reflexivity | discriminate]. }
  destruct (mapM_ok sort_key Hkeys) as [keyed [Emap F2]].
  assert (Hsel : exists top rest,
             sort_desc (@fst (Q * Q) event) key_ltb keyed = top :: rest).
  { destruct (sort_desc (@fst (Q * Q) event) key_ltb keyed) as [|top rest] eqn:Es.
    - exfalso. apply (f_equal (@List.length _)) in Es.
      rewrite sort_desc_length in Es. apply Forall2_length in F2.
      destruct ms; [contradiction | simpl in *; lia].
    - eauto. }
  destruct Hsel as (top & rest & Es).
  destruct (@sort_desc_head _ _ (@fst (Q * Q) event) key_ltb
              key_ltb_asym key_ltb_negtrans keyed top rest Es) as [Hin Hmax].
  assert (Hback : forall p, In p keyed -> exists e, In e ms /\ sort_key e = Py.Ok p).
  { clear -F2. induction F2 as [|e p ms keyed Hp F2 IH]; intros q Hq; [contradiction|].
    destruct Hq as [<-|Hq].
    - exists e. split; [now left | assumption].
    - destruct (IH q Hq) as [e' [H1 H2]]. exists e'. split; [now right | assumption]. }
  assert (Hforth : forall e, In e ms -> exists p, In p keyed /\ sort_key e = Py.Ok p).
  { clear -F2. induction F2 as [|e p ms keyed Hp F2 IH]; intros q Hq; [contradiction|].
    destruct Hq as [<-|Hq].
    - exists p. split; [now left | assumption].
    - destruct (IH q Hq) as [p' [H1 H2]]. exists p'. split; [now right | assumption]. }
  destruct (Hback top Hin) as [etop [Hetop Ktop]].
  destruct (sort_key_ok _ Ktop) as (Hsnd & Hk & Hs).
  assert (Eselect : select_top_match ms = Py.Ok (snd top)).
  { unfold select_top_match. rewrite Emap. cbn [Py.bind]. now rewrite Es. }
  exists (snd top), (fst (fst top)).
  split; [exact Eselect|].
  split; [rewrite Hsnd; exact Hetop|].
  split; [rewrite Hsnd; exact Hk|].
  split.
  - intros e ke He Hke.
    destruct (Hforth e He) as [p [Hp Kp]].
    destruct (sort_key_ok _ Kp) as (Hpsnd & Hpk & Hps).
    rewrite Hke in Hpk. inversion Hpk as [Hke'].
    specialize (Hmax p Hp). apply key_ltb_false in Hmax.
    rewrite Hsnd, <- Hs, <- Hps.
    destruct Hmax as [H1 H2]. split; [exact H1|].
    intro E. apply H2. now symmetry.
  - intros fcp foe today weekday strp strf f2 str h idea.
    unfold generate_trade_idea.
    destruct ms as [|m ms']; [contradiction|].
    rewrite Eselect. cbn [Py.bind].
    destruct (Py.abs _); cbn [Py.bind]; [|discriminate].
    destruct (Py.number _); cbn [Py.bind]; [|discriminate].
    destruct (decide h a a0) as [ot st].
    destruct (Qle_bool _ 0).
    + intro H. inversion H. reflexivity.
    + destruct (String.eqb (d_trade_type st) "option").
      * destruct (select_expiry_date _ _ _ _ _ _ _); cbn [Py.bind]; [|discriminate].
        destruct (d_rationale_addition st); [|discriminate].
        intro H. inversion H. reflexivity.
      * cbn [Py.bind]. destruct (d_rationale_addition st); [|discriminate].
        intro H. inversion H. reflexivity.
Qed.

Lemma get_price_change_absolute (e : event) (k : Q) :
  get_price_change e = Py.Ok k <-> absolute_price_change e = Some k.
Proof.
  unfold get_price_change, absolute_price_change.
  destruct (price_change_pct e) as [[|q|s]|]; [| | |destruct (drop_pct e) as [[|q|s]|]];
    cbn [Py.abs]; split; intro H; try discriminate H;
    injection H as <-; reflexivity.
Qed.

Lemma get_price_change_is_ok (e : event) :
  absolute_price_change e <> None -> Py.is_ok (get_price_change e) = true.
Proof.
  destruct (absolute_price_change e) as [k|] eqn:E; [intros _ | now intros []].
  apply get_price_change_absolute in E. now rewrite E.
Qed.

(** The selection rule of the trade picker.  On a non-empty list
    whose price changes ([price_change_pct], else [drop_pct]) are
    numbers or absent, the match that [generate_trade_idea] works
    from is one of the given matches whose absolute price change is
    the largest, the match score only deciding among matches of equal
    absolute price change; the ticker of every trade idea is the
    ticker of that match. *)
Theorem top_match_maximises_price_change (ms : list event) :
  ms <> [] ->
  Forall (fun e => absolute_price_change e <> None) ms ->
  exists top k,
    select_top_match ms = Py.Ok top /\ In top ms /\
    absolute_price_change top = Some k /\
    (forall e ke, In e ms -> absolute_price_change e = Some ke ->
       ke <= k /\ (ke == k -> score_of e <= score_of top)) /\
    (forall fetch_current_price fetch_option_expiries today weekday strptime strftime
            format_2f str h idea,
       generate_trade_idea fetch_current_price fetch_option_expiries today weekday
         strptime strftime format_2f str h ms = Py.Ok idea ->
       ticker idea = Some (get (affected_ticker top) (Py.VStr "SPY"))).
Proof.
  intros Hne Hnum.
  assert (Hok : Forall (fun e => Py.is_ok (get_price_change e) = true) ms).
  { eapply Forall_impl; [|exact Hnum]. intros e. apply get_price_change_is_ok. }
  destruct (select_top_match_maximal Hne Hok) as (top & k & H1 & H2 & H3 & H4 & H5).
  exists top, k.
  split; [exact H1|]. split; [exact H2|].
  split; [now apply get_price_change_absolute|].
  split; [|exact H5].
  intros e ke He Hke. apply (H4 e ke He). now apply get_price_change_absolute.
Qed.

Lemma top_match_maximises_price_change_witness :
  exists top k,
    select_top_match [close_match; violent_match] = Py.Ok top /\
    In top [close_match; violent_match] /\
    absolute_price_change top = Some k /\
    (forall e ke, In e [close_match; violent_match] ->
       absolute_price_change e = Some ke ->
       ke <= k /\ (ke == k -> score_of e <= score_of top)).
Proof.
  destruct (@top_match_maximises_price_change [close_match; violent_match])
    as (top & k & H1 & H2 & H3 & H4 & _).
  - discriminate.
  - repeat constructor; discriminate.
  - exists top, k. auto.
Defined.

(** The match of score 0.2 that moved 8% is preferred to the match of
    score 0.9 that moved 1%. *)
Example top_match_is_not_the_best_scoring :
  select_top_match [close_match; violent_match] = Py.Ok violent_match /\
  score_of violent_match < score_of close_match.
Proof. split; vm_compute; reflexivity. Qed.

(** ** The trade decision *)

Section Decision.

Variable fetch_current_price : Py.value -> Q.
Variable fetch_option_expiries : Py.value -> list string.
Variable today : Z.
Variable weekday : Z -> Z.
Variable strptime : string -> option Z.
Variable strftime : Z -> string.
Variable format_2f : Q -> string.
Variable str : Py.value -> string.

Local Abbreviation trade_idea_for :=
  (generate_trade_idea fetch_current_price fetch_option_expiries today weekday
     strptime strftime format_2f str).

(** An equity decision needs neither strike nor expiry, so it is
    returned whatever the market collaborators answer. *)
Lemma equity_decision_is_returned (h : headline) (ms : list event) (top : event)
  (dd pc : Q) (ot ra : string) (st : decision) :
  ms <> [] ->
  select_top_match ms = Py.Ok top ->
  Py.abs (get (max_drawdown_pct top) (Py.VNum 5)) = Py.Ok dd ->
  Py.number (match price_change_pct top with
             | Some v => v
             | None => get (drop_pct top) (Py.VNum 0)
             end) = Py.Ok pc ->
  decide h dd pc = (ot, st) ->
  d_trade_type st = "equity" ->
  d_rationale_addition st = Some ra ->
  exists idea,
    trade_idea_for h ms = Py.Ok idea /\
    trade_type idea = "equity" /\ direction idea = d_direction st /\
    option_type idea = None.
Proof.
  intros Hne Htop Hdd Hpc Hdec Htype Hra.
  unfold generate_trade_idea.
  destruct ms as [|m ms']; [contradiction|].
  rewrite Htop. cbn [Py.bind]. rewrite Hdd. cbn [Py.bind].
  rewrite Hpc. cbn [Py.bind]. rewrite Hdec, Htype, Hra.
  change (String.eqb "equity" "option") with false. cbn [Py.bind].
  destruct (Qle_bool _ 0); eexists; (split; [reflexivity|]); auto.
Qed.

(** C3 (what the code does). A bullish headline over a top match of
    low drawdown that carries an external SELL is answered by an
    equity SELL, and a bearish CPI-week headline that carries an
    external BUY by an equity BUY: the external recommendation wins
    over the rule. *)
Theorem external_recommendation_overrides_rule :
  (exists idea,
     trade_idea_for bullish_with_sell [calm_match] = Py.Ok idea /\
     trade_type idea = "equity" /\ direction idea = "SELL") /\
  (exists idea,
     trade_idea_for bearish_with_buy [cpi_match] = Py.Ok idea /\
     trade_type idea = "equity" /\ direction idea = "BUY").
Proof.
  split.
  - destruct (@equity_decision_is_returned bullish_with_sell [calm_match] calm_match
                1 4 "CALL"
                "LLM explicitly recommends SELL direction based on the news event."
                (mkDecision "equity" "SELL"
                   (Some "LLM explicitly recommends SELL direction based on the news event.")))
      as (idea & H1 & H2 & H3 & _); try reflexivity; try discriminate.
    exists idea. auto.
  - destruct (@equity_decision_is_returned bearish_with_buy [cpi_match] cpi_match
                6 (-4) "PUT"
                "LLM explicitly recommends BUY direction based on the news event."
                (mkDecision "equity" "BUY"
                   (Some "LLM explicitly recommends BUY direction based on the news event.")))
      as (idea & H1 & H2 & H3 & _); try reflexivity; try discriminate.
    exists idea. auto.
Qed.

(** C2 (what the code does). A single match that carries the Match
    Scorer's marker for a failed impact computation makes
    [generate_trade_idea] raise: [abs] is applied to the marker
    while the sort keys are computed. *)
Theorem unavailable_match_raises (h : headline) :
  trade_idea_for h [unavailable_match] =
  Py.Raise (Py.TypeError "bad operand type for abs(): 'str'").
Proof. reflexivity. Qed.

(** C10 (what the code does). On a list that holds a match whose
    price change is the Match Scorer's marker no top match is
    selected: the key of every match is computed before the list is
    ordered, and [abs] is applied to the marker.  Between a match
    that moved 1% and a match that moved 8%, the marked match makes
    [select_top_match] and with it [generate_trade_idea] raise,
    while without it the 8% move is selected. *)
Theorem marker_match_prevents_selection (h : headline) :
  absolute_price_change unavailable_match = None /\
  select_top_match [close_match; unavailable_match; violent_match]
  = Py.Raise (Py.TypeError "bad operand type for abs(): 'str'") /\
  generate_trade_idea fetch_current_price fetch_option_expiries today weekday
    strptime strftime format_2f str h [close_match; unavailable_match; violent_match]
  = Py.Raise (Py.TypeError "bad operand type for abs(): 'str'") /\
  select_top_match [close_match; violent_match] = Py.Ok violent_match.
Proof. repeat split; reflexivity. Qed.

(** The same for any list that contains a match whose price change
    is a text marker. *)
Lemma text_price_change_raises (h : headline) (ms : list event) (e : event) (s : string) :
  In e ms -> price_change_pct e = Some (Py.VStr s) ->
  exists exn, trade_idea_for h ms = Py.Raise exn.
Proof.
  intros Hin Hs. unfold generate_trade_idea.
  destruct ms as [|m ms']; [contradiction|].
  assert (Hkey : sort_key e =
                 Py.Raise (Py.TypeError "bad operand type for abs(): 'str'")).
  { unfold sort_key, get_price_change. rewrite Hs. reflexivity. }
  destruct (mapM_raise sort_key _ _ Hin Hkey) as [e' He'].
  unfold select_top_match. rewrite He'. now exists e'.
Qed.

(** When the provider has no data, the Match Scorer's own output is
    such a list. *)
Lemma scorer_output_without_data_raises (h : headline) :
  exists exn,
    trade_idea_for h
      (match_similar_events sample_store no_data parse_stub print_stub fed_headline 3)
    = Py.Raise exn.
Proof. eexists. reflexivity. Qed.

(** A template with a [null] ticker takes the [except] branch of the
    Match Scorer and comes out with the processing-error marker, on
    which [generate_trade_idea] raises as well. *)
Lemma null_ticker_is_marked_and_raises (h : headline) :
  map price_change_pct
    (match_similar_events [null_ticker_template] no_data parse_stub print_stub
       fed_headline 3)
  = [Some (Py.VStr "N/A (processing error)")] /\
  trade_idea_for h
    (match_similar_events [null_ticker_template] no_data parse_stub print_stub
       fed_headline 3)
  = Py.Raise (Py.TypeError "bad operand type for abs(): 'str'").
Proof. split; reflexivity. Qed.

End Decision.

(** Scenarios B and C of the specification, on the decision procedure
    without an external recommendation. *)
Example scenario_B :
  snd (decide fed_headline 1 4) =
  mkDecision "equity" "BUY"
    (Some "Using equity (BUY) due to bullish sentiment with low expected drawdown.").
Proof. reflexivity. Qed.

Example scenario_C :
  let h := mkHeadline (Some "Inflation") (Some "Bearish") (Some "Financials")
                      true false None None None in
  d_trade_type (snd (decide h 6 (-4))) = "equity" /\
  d_direction (snd (decide h 6 (-4))) = "SELL".
Proof. split; reflexivity. Qed.

(** ** The correlation engine *)

Import LlmEventQuery.

Lemma lookup_update_other (c : correlations) (f g : factor) (e : entry) :
  f <> g -> lookup (update c f e) g = lookup c g.
Proof. destruct f, g; intro H; try reflexivity; contradiction. Qed.

Lemma lookup_update_same (c : correlations) (f : factor) (e : entry) :
  lookup (update c f e) f = e.
Proof. destruct f; reflexivity. Qed.

Section EngineFacts.

Variable pow_half : Q -> Q.

Lemma factor_entry_enough (f : factor) (pts : list macro_point) (e : entry) :
  factor_entry pow_half f pts = Py.Ok (Some e) ->
  (3 <= List.length (valid_points f pts))%nat.
Proof.
  unfold factor_entry.
  destruct (Nat.leb_spec 3 (List.length (valid_points f pts))); [auto|discriminate].
Qed.

(** The guard holds on every input: a factor with fewer than three
    valid pairs keeps its initial entry, whatever happens to the
    other factors. *)
Lemma run_factors_guard (fs : list factor) (pts : list macro_point) (f : factor) :
  (List.length (valid_points f pts) < 3)%nat ->
  forall c, lookup (run_factors pow_half fs pts c) f = lookup c f.
Proof.
  intro Hlt. induction fs as [|g fs IH]; intro c; [reflexivity|].
  simpl. destruct (factor_entry pow_half g pts) as [[e|]|] eqn:E; try reflexivity.
  - rewrite IH. apply lookup_update_other. intros ->.
    apply factor_entry_enough in E. lia.
  - apply IH.
Qed.

End EngineFacts.

Lemma classify_thresholds (a : Q) :
  (classify a = "Strong" <-> 7 # 10 <= a) /\
  (classify a = "Moderate" <-> 5 # 10 <= a < 7 # 10) /\
  (classify a = "Weak" <-> 3 # 10 <= a < 5 # 10) /\
  (classify a = "Negligible" <-> a < 3 # 10).
Proof.
  unfold classify, Py.Qgeb.
  destruct (Qle_bool (7 # 10) a) eqn:E7; [apply Qle_bool_iff in E7|].
  { repeat split; try discriminate; intros; try lra. }
  assert (H7 : a < 7 # 10).
  { apply Qnot_le_lt. intro H. apply Qle_bool_iff in H. congruence. }
  destruct (Qle_bool (5 # 10) a) eqn:E5; [apply Qle_bool_iff in E5|].
  { repeat split; try discriminate; intros; try lra. }
  assert (H5 : a < 5 # 10).
  { apply Qnot_le_lt. intro H. apply Qle_bool_iff in H. congruence. }
  destruct (Qle_bool (3 # 10) a) eqn:E3; [apply Qle_bool_iff in E3|].
  { repeat split; try discriminate; intros; try lra. }
  assert (H3 : a < 3 # 10).
  { apply Qnot_le_lt. intro H. apply Qle_bool_iff in H. congruence. }
  repeat split; try discriminate; intros; try lra.
Qed.

Lemma valid_points_length (f : factor) (pts : list macro_point) :
  List.length (valid_points f pts) = List.length (filter (both_present f) pts).
Proof.
  unfold valid_points, both_present.
  induction pts as [|p pts IH]; [reflexivity|].
  cbn [flat_map filter]. rewrite length_app, IH.
  destruct (mp_price_change p), (factor_value f p); reflexivity.
Qed.

(** The guard of the correlation engine holds on every input: a
    factor with fewer than three data points in which both the
    outcome and the factor are present keeps its initial entry, of
    strength ["None"], correlation 0 and sample size 0, whatever the
    other factors do. *)
Theorem correlation_guard (pow_half : Q -> Q) (pts : list macro_point) (f : factor) :
  (List.length (filter (both_present f) pts) < 3)%nat ->
  lookup (calculate_macro_correlations pow_half pts) f = mkEntry 0 "None" 0 None /\
  strength (lookup (calculate_macro_correlations pow_half pts) f) = "None".
Proof.
  intro Hlt. rewrite <- valid_points_length in Hlt.
  unfold calculate_macro_correlations.
  rewrite (run_factors_guard pow_half all_factors pts f Hlt).
  destruct f; split; reflexivity.
Qed.

Lemma correlation_guard_witness :
  strength (lookup (calculate_macro_correlations root_of_squares sample_points) fed_rate)
  = "None".
Proof.
  apply (@correlation_guard root_of_squares sample_points fed_rate).
  vm_compute. lia.
Defined.

(** C8 (what the code does). The engine does not report a
    coefficient for every factor with three valid pairs.  A data
    point whose outcome is the text marker of the Match Scorer passes
    the [is not None] filter; with it the inflation factor has four
    valid pairs and the rate factor three, the sums raise, the
    [except] clause swallows the exception, and every factor is
    returned with strength ["None"], correlation 0 and sample
    size 0. *)
Theorem text_outcome_leaves_strength_None (pow_half : Q -> Q) :
  List.length (filter (both_present cpi) points_with_marker) = 4%nat /\
  List.length (filter (both_present fed_rate) points_with_marker) = 3%nat /\
  strength (lookup (calculate_macro_correlations pow_half points_with_marker) cpi)
  = "None" /\
  strength (lookup (calculate_macro_correlations pow_half points_with_marker) fed_rate)
  = "None" /\
  calculate_macro_correlations pow_half points_with_marker
  = mkCorrelations (mkEntry 0 "None" 0 None) (mkEntry 0 "None" 0 None)
                   (mkEntry 0 "None" 0 None) (mkEntry 0 "None" 0 None).
Proof. repeat split; reflexivity. Qed.

(** Without the marker the same points give the inflation factor its
    entry: the ratio 6/42 as a double, reported as 0.14, of
    negligible strength and positive. *)
Example sample_coefficient :
  lookup (calculate_macro_correlations root_of_squares sample_points) cpi
  = mkEntry (Py.round2 (Binary64.div 6 42)) "Negligible" 3 (Some "Positive") /\
  Py.round2 (Binary64.div 6 42) == 14 # 100.
Proof. split; vm_compute; reflexivity. Qed.

(** Numbers alone can leave a factor at ["None"] as well: three
    matches under the same rate of 5.33 give, in doubles,
    [3 * sum_y2 - sum_y ** 2 = -2.8e-14]; the radicand is negative,
    its root complex, and [round] raises on the coefficient. *)
Example constant_factor_leaves_strength_None (pow_half : Q -> Q) :
  List.length (filter (both_present fed_rate) constant_rate_points) = 3%nat /\
  pearson pow_half [1; 2; 3]
    [Binary64.fl (533 # 100); Binary64.fl (533 # 100); Binary64.fl (533 # 100)] = None /\
  strength (lookup (calculate_macro_correlations pow_half constant_rate_points) fed_rate)
  = "None".
Proof. repeat split; vm_compute; reflexivity. Qed.

(** ** The pattern aggregator *)

Lemma step_counts (e : event) (a : accumulators) :
  bullish_count (step a e) = (bullish_count a + if is_bullish e then 1 else 0)%nat /\
  bearish_count (step a e) = (bearish_count a + if is_bearish e then 1 else 0)%nat /\
  events_with_macro (step a e) =
    (events_with_macro a + if carries_macro_snapshot e then 1 else 0)%nat.
Proof.
  unfold step, is_bullish, is_bearish, carries_macro_snapshot.
  cbn [bullish_count bearish_count events_with_macro].
  destruct (price_change_pct e) as [[|q|s]|]; cbn [get];
    try destruct (Py.Qgtb q 0); destruct (e_macro_data e) as [m|];
    try destruct (has_key_macro m); cbn [negb]; repeat split; lia.
Qed.

Lemma fold_counts (events : list event) : forall a,
  let a' := fold_left step events a in
  bullish_count a' = (bullish_count a + List.length (filter is_bullish events))%nat /\
  bearish_count a' = (bearish_count a + List.length (filter is_bearish events))%nat /\
  events_with_macro a' =
    (events_with_macro a + List.length (filter carries_macro_snapshot events))%nat.
Proof.
  induction events as [|e events IH]; intro a; cbn zeta.
  - simpl. repeat split; lia.
  - simpl fold_left. destruct (IH (step a e)) as (H1 & H2 & H3).
    destruct (step_counts e a) as (S1 & S2 & S3).
    rewrite H1, H2, H3, S1, S2, S3. simpl filter.
    destruct (is_bullish e), (is_bearish e), (carries_macro_snapshot e);
      simpl; repeat split; lia.
Qed.

Lemma bullish_bearish_total (events : list event) :
  (List.length (filter is_bullish events) + List.length (filter is_bearish events)
   <= List.length events)%nat.
Proof.
  induction events as [|e events IH]; [simpl; lia|].
  simpl. unfold is_bullish at 1, is_bearish at 1.
  destruct (price_change_pct e) as [[|q|s]|]; try (simpl; lia).
  destruct (Py.Qgtb q 0); simpl; lia.
Qed.

Section AggregatorFacts.

Variable pow_half : Q -> Q.
Variable repr_float : Q -> string.
Variable format_1f : Q -> string.
Variable format_0f : Q -> string.

Local Abbreviation analyze :=
  (analyze_similar_events pow_half repr_float format_1f format_0f).

(** Once three matches carry a macro snapshot the analysis reports
    failure: the call of [generate_macro_insights] lacks its second
    argument, and the [except] clause turns the [TypeError] into the
    failure result. *)
Lemma macro_analysis_fails (events : list event) :
  (3 <= List.length (filter carries_macro_snapshot events))%nat ->
  analyze events =
  Failure (String.append "Error analyzing similar events: "
             "generate_macro_insights() missing 1 required positional argument: 'macro_data_points'").
Proof.
  intro H. unfold analyze_similar_events.
  destruct events as [|e events]; [simpl in H; lia|].
  unfold analyze_body.
  destruct (fold_counts (e :: events) initial_accumulators) as (_ & _ & Hm).
  cbn zeta in Hm. cbn [events_with_macro initial_accumulators] in Hm.
  rewrite Nat.add_0_l in Hm. rewrite Hm.
  destruct (Nat.leb_spec 3 (List.length (filter carries_macro_snapshot (e :: events))))
    as [_|Hlt]; [|lia].
  reflexivity.
Qed.

(** C1 (what the code does). Three matches that carry a macro
    snapshot: the call reports failure and no pattern summary. *)
Theorem three_macro_matches_fail :
  analyze three_macro_matches =
  Failure "Error analyzing similar events: generate_macro_insights() missing 1 required positional argument: 'macro_data_points'" /\
  success (analyze three_macro_matches) = false.
Proof. split; reflexivity. Qed.

End AggregatorFacts.

(** ** Rounding to the nearest integer *)

Lemma round_floor_cases (x : Q) :
  Py.round x = Qfloor x \/ Py.round x = (Qfloor x + 1)%Z.
Proof.
  unfold Py.round.
  destruct (Py.Qltb _ _); [now left|].
  destruct (Py.Qltb _ _); [now right|].
  destruct (Z.even _); [now left | now right].
Qed.

Lemma round_bounds (x : Q) (lo hi : Z) :
  inject_Z lo <= x -> x <= inject_Z hi -> (lo <= Py.round x <= hi)%Z.
Proof.
  intros Hlo Hhi.
  assert (Hf : (lo <= Qfloor x)%Z).
  { rewrite <- (Qfloor_Z lo). now apply Qfloor_resp_le. }
  assert (Hf' : (Qfloor x <= hi)%Z).
  { rewrite <- (Qfloor_Z hi). now apply Qfloor_resp_le. }
  pose proof (Qfloor_le x) as Hle.
  split.
  - destruct (round_floor_cases x) as [-> | ->]; lia.
  - destruct (Z.eq_dec (Qfloor x) hi) as [E|NE].
    + assert (Hx : x - inject_Z (Qfloor x) == 0).
      { rewrite E in *. lra. }
      unfold Py.round.
      assert (Hlt : Py.Qltb (x - inject_Z (Qfloor x)) (1 # 2) = true).
      { apply Qltb_lt. rewrite Hx. reflexivity. }
      rewrite Hlt. lia.
    + destruct (round_floor_cases x) as [-> | ->]; lia.
Qed.

(** A rounded value is within one half of the number it rounds. *)
Lemma round_near (x : Q) : inject_Z (Py.round x) - (1 # 2) <= x.
Proof.
  pose proof (Qfloor_le x) as Hle.
  unfold Py.round.
  destruct (Py.Qltb (x - inject_Z (Qfloor x)) (1 # 2)) eqn:E1; [lra|].
  apply Qltb_ge in E1.
  assert (H1 : inject_Z (Qfloor x + 1) == inject_Z (Qfloor x) + 1).
  { rewrite inject_Z_plus. reflexivity. }
  destruct (Py.Qltb (1 # 2) (x - inject_Z (Qfloor x))); [rewrite H1; lra|].
  destruct (Z.even (Qfloor x)); [lra | rewrite H1; lra].
Qed.

Lemma round_sign (x : Q) :
  (0 <= x -> (0 <= Py.round x)%Z) /\ (x <= 0 -> (Py.round x <= 0)%Z).
Proof.
  split; intro H.
  - apply (@round_bounds x 0%Z (Qfloor x + 1)%Z); [exact H|].
    apply Qlt_le_weak, Qlt_floor.
  - apply (@round_bounds x (Qfloor x) 0%Z); [apply Qfloor_le | exact H].
Qed.

Lemma round_nearest (x : Q) : nearest x (Py.round x).
Proof.
  pose proof (Qfloor_le x) as Hle. pose proof (Qlt_floor x) as Hlt.
  assert (H1 : inject_Z (Qfloor x + 1) == inject_Z (Qfloor x) + 1).
  { rewrite inject_Z_plus. reflexivity. }
  rewrite H1 in Hlt.
  unfold nearest, Py.round.
  destruct (Py.Qltb (x - inject_Z (Qfloor x)) (1 # 2)) eqn:E1.
  { apply Qltb_lt in E1. left. split; lra. }
  apply Qltb_ge in E1.
  destruct (Py.Qltb (1 # 2) (x - inject_Z (Qfloor x))) eqn:E2.
  { apply Qltb_lt in E2. left. rewrite H1. split; lra. }
  apply Qltb_ge in E2.
  destruct (Z.even (Qfloor x)) eqn:Ev.
  - right. split; [left; lra | exact Ev].
  - right. split; [right; rewrite H1; lra|].
    rewrite Z.even_add, Ev. reflexivity.
Qed.

Lemma nearest_le (x y : Q) (r s : Z) :
  nearest x r -> nearest y s -> x <= y -> (r <= s)%Z.
Proof.
  intros Hr Hs Hxy.
  destruct (Z_le_gt_dec r s) as [H|H]; [exact H|exfalso].
  assert (Hq : inject_Z s + 1 <= inject_Z r).
  { change 1 with (inject_Z 1). rewrite <- inject_Z_plus, <- Zle_Qle. lia. }
  destruct Hr as [[Hr1 Hr2]|[Hr Er]]; destruct Hs as [[Hs1 Hs2]|[Hs Es]]; try lra.
  destruct Hr as [Hr|Hr]; destruct Hs as [Hs|Hs]; try lra.
  assert (Hq' : inject_Z r == inject_Z s + 1) by lra.
  change 1 with (inject_Z 1) in Hq'. rewrite <- inject_Z_plus in Hq'.
  assert (Er' : r = (s + 1)%Z) by (unfold Qeq in Hq'; cbn in Hq'; lia).
  rewrite Er', Z.even_add, Es in Er. discriminate.
Qed.

Lemma round_monotone (x y : Q) : x <= y -> (Py.round x <= Py.round y)%Z.
Proof. apply nearest_le; apply round_nearest. Qed.

Lemma nearest_unique (x : Q) (r s : Z) : nearest x r -> nearest x s -> r = s.
Proof.
  intros Hr Hs. apply Z.le_antisymm.
  - apply (nearest_le Hr Hs). apply Qle_refl.
  - apply (nearest_le Hs Hr). apply Qle_refl.
Qed.

Lemma round_integer (z : Z) : Py.round (inject_Z z) = z.
Proof.
  apply (@nearest_unique (inject_Z z)); [apply round_nearest|].
  left. split; lra.
Qed.

Lemma round_compat (x y : Q) : x == y -> Py.round x = Py.round y.
Proof.
  intro E. apply Z.le_antisymm; apply round_monotone; lra.
Qed.

(** ** Rounding to a double *)

Lemma two_pow_pos (e : Z) : 0 < 2 ^ e.
Proof. apply Qpower_0_lt. reflexivity. Qed.

Lemma two_pow_add (a b : Z) : 2 ^ (a + b) == 2 ^ a * 2 ^ b.
Proof. apply Qpower_plus. discriminate. Qed.

Lemma two_pow_le (a b : Z) : (a <= b)%Z -> 2 ^ a <= 2 ^ b.
Proof. intro H. apply Qpower_le_compat_l; [exact H | discriminate]. Qed.

Lemma two_pow_Z (n : Z) : (0 <= n)%Z -> inject_Z (2 ^ n) == 2 ^ n.
Proof. intro H. now rewrite Zpower_Qpower. Qed.

Lemma ilog2_spec (a : Q) :
  0 < a -> 2 ^ Binary64.ilog2 a <= a /\ a < 2 ^ (Binary64.ilog2 a + 1).
Proof.
  intro Ha. destruct a as [n d].
  assert (Hn : (0 < n)%Z).
  { unfold Qlt in Ha. cbn in Ha. lia. }
  unfold Binary64.ilog2. cbn [Qnum Qden].
  pose proof (Z.log2_spec n Hn) as [Hn1 Hn2].
  pose proof (Z.log2_spec (Zpos d) (Pos2Z.is_pos d)) as [Hd1 Hd2].
  pose proof (Z.log2_nonneg n) as Hln. pose proof (Z.log2_nonneg (Zpos d)) as Hld.
  set (ln := Z.log2 n) in *. set (ld := Z.log2 (Zpos d)) in *.
  rewrite Zle_Qle, two_pow_Z in Hn1, Hd1 by assumption.
  rewrite Zlt_Qlt, two_pow_Z in Hn2, Hd2 by lia.
  unfold Z.succ in Hn2, Hd2. rewrite two_pow_add in Hn2, Hd2.
  change (2 ^ 1) with 2 in Hn2, Hd2.
  pose proof (two_pow_pos ln) as Pn. pose proof (two_pow_pos ld) as Pd.
  assert (Ek : 2 ^ (ln - ld) == 2 ^ ln / 2 ^ ld).
  { apply Qpower_minus. discriminate. }
  assert (Ek1 : 2 ^ (ln - ld + 1) == 2 ^ ln / 2 ^ ld * 2).
  { rewrite two_pow_add, Ek. reflexivity. }
  assert (Ek2 : 2 ^ (ln - ld - 1 + 1) == 2 ^ ln / 2 ^ ld).
  { replace (ln - ld - 1 + 1)%Z with (ln - ld)%Z by lia. exact Ek. }
  assert (Ek3 : 2 ^ (ln - ld - 1) == 2 ^ ln / 2 ^ ld / 2).
  { replace (ln - ld - 1)%Z with (ln - ld + -1)%Z by lia.
    rewrite two_pow_add, Ek. reflexivity. }
  assert (Ea : n # d == inject_Z n / inject_Z (Zpos d)) by apply Qmake_Qdiv.
  assert (HD : 0 < inject_Z (Zpos d)) by lra.
  remember (inject_Z n) as N eqn:EN. remember (inject_Z (Zpos d)) as D eqn:ED.
  remember (2 ^ ln) as PN eqn:EPN. remember (2 ^ ld) as PD eqn:EPD.
  clear EN ED EPN EPD.
  assert (Hup : N / D < PN / PD * 2).
  { apply Qlt_shift_div_r; [exact HD|].
    assert (E : PN / PD * 2 * D == 2 * PN * (D / PD)) by (field; lra).
    rewrite E.
    assert (H1 : 1 <= D / PD) by (apply Qle_shift_div_l; lra).
    assert (H2 : 2 * PN * 1 <= 2 * PN * (D / PD)).
    { apply Qmult_le_l; lra. }
    lra. }
  assert (Hlo : PN / PD / 2 < N / D).
  { apply Qlt_shift_div_l; [exact HD|].
    assert (E : PN / PD / 2 * D == PN * (D / PD / 2)) by (field; lra).
    rewrite E.
    assert (H1 : D / PD / 2 < 1).
    { apply Qlt_shift_div_r; [lra|]. apply Qlt_shift_div_r; lra. }
    assert (H2 : PN * (D / PD / 2) < PN * 1).
    { apply Qmult_lt_l; lra. }
    lra. }
  destruct (Qle_bool (2 ^ (ln - ld)) (n # d)) eqn:Eb.
  - apply Qle_bool_iff in Eb. split; [exact Eb|]. rewrite Ek1, Ea. exact Hup.
  - assert (Hlt : n # d < 2 ^ (ln - ld)).
    { apply Qnot_le_lt. intro Hle. apply Qle_bool_iff in Hle. congruence. }
    split; [rewrite Ek3, Ea; lra | rewrite Ek2, <- Ek; exact Hlt].
Qed.

Lemma ilog2_monotone (a b : Q) :
  0 < a -> a <= b -> (Binary64.ilog2 a <= Binary64.ilog2 b)%Z.
Proof.
  intros Ha Hab.
  destruct (ilog2_spec Ha) as [A1 _].
  destruct (@ilog2_spec b) as [_ B2]; [lra|].
  destruct (Z_le_gt_dec (Binary64.ilog2 a) (Binary64.ilog2 b)) as [H|H]; [exact H|].
  exfalso.
  assert (Hp : 2 ^ (Binary64.ilog2 b + 1) <= 2 ^ Binary64.ilog2 a)
    by (apply two_pow_le; lia).
  lra.
Qed.

Lemma scaled_monotone (a b e : Q) : 0 < e -> a <= b -> a / e <= b / e.
Proof.
  intros He Hab. unfold Qdiv. apply Qmult_le_compat_r; [exact Hab|].
  apply Qinv_le_0_compat. lra.
Qed.

Lemma to_double_nonneg (a : Q) : 0 <= a -> 0 <= Binary64.to_double a.
Proof.
  intro Ha. unfold Binary64.to_double.
  set (e := Z.max (Binary64.ilog2 a - 52) (-1074)).
  pose proof (two_pow_pos e) as He.
  assert (Hs : 0 <= a / 2 ^ e).
  { apply Qle_shift_div_l; [exact He | lra]. }
  pose proof (proj1 (round_sign _) Hs) as Hr.
  rewrite Zle_Qle in Hr. change (inject_Z 0) with 0 in Hr.
  apply Qmult_le_0_compat; lra.
Qed.

Lemma to_double_monotone (a b : Q) :
  0 < a -> a <= b -> Binary64.to_double a <= Binary64.to_double b.
Proof.
  intros Ha Hab. assert (Hb : 0 < b) by lra.
  pose proof (ilog2_monotone Ha Hab) as Hlog.
  destruct (ilog2_spec Ha) as [A1 A2]. destruct (ilog2_spec Hb) as [B1 B2].
  unfold Binary64.to_double.
  set (ea := Z.max (Binary64.ilog2 a - 52) (-1074)).
  set (eb := Z.max (Binary64.ilog2 b - 52) (-1074)).
  pose proof (two_pow_pos ea) as Pa. pose proof (two_pow_pos eb) as Pb.
  destruct (Z.eq_dec ea eb) as [E|Hne].
  - rewrite E.
    assert (Hr : (Py.round (a / 2 ^ eb) <= Py.round (b / 2 ^ eb))%Z).
    { apply round_monotone. now apply scaled_monotone. }
    rewrite Zle_Qle in Hr.
    apply Qmult_le_compat_r; lra.
  - assert (Hlt : (ea + 1 <= eb)%Z) by (subst ea eb; lia).
    assert (Eb : eb = (Binary64.ilog2 b - 52)%Z) by (subst ea eb; lia).
    (* the significand of [b] is at least 2^52 *)
    assert (Hsb : 2 ^ 52 <= b / 2 ^ eb).
    { apply Qle_shift_div_l; [exact Pb|].
      rewrite <- two_pow_add. rewrite Eb.
      replace (52 + (Binary64.ilog2 b - 52))%Z with (Binary64.ilog2 b) by lia.
      exact B1. }
    assert (Hrb : (2 ^ 52 <= Py.round (b / 2 ^ eb))%Z).
    { rewrite <- (round_integer (2 ^ 52)). apply round_monotone.
      rewrite two_pow_Z by lia. exact Hsb. }
    (* the significand of [a] is below 2^53 *)
    assert (Hsa : a / 2 ^ ea <= 2 ^ 53).
    { apply Qle_shift_div_r; [exact Pa|].
      rewrite <- two_pow_add.
      assert (Hp : 2 ^ (Binary64.ilog2 a + 1) <= 2 ^ (53 + ea))
        by (apply two_pow_le; subst ea; lia).
      lra. }
    assert (Hra : (Py.round (a / 2 ^ ea) <= 2 ^ 53)%Z).
    { rewrite <- (round_integer (2 ^ 53)). apply round_monotone.
      rewrite two_pow_Z by lia. exact Hsa. }
    rewrite Zle_Qle in Hra, Hrb. rewrite two_pow_Z in Hra, Hrb by lia.
    assert (H1 : inject_Z (Py.round (a / 2 ^ ea)) * 2 ^ ea <= 2 ^ 53 * 2 ^ ea).
    { apply Qmult_le_compat_r; lra. }
    assert (H2 : 2 ^ 52 * 2 ^ eb <= inject_Z (Py.round (b / 2 ^ eb)) * 2 ^ eb).
    { apply Qmult_le_compat_r; lra. }
    assert (H3 : 2 ^ 53 * 2 ^ ea <= 2 ^ 52 * 2 ^ eb).
    { rewrite <- !two_pow_add. apply two_pow_le. lia. }
    lra.
Qed.

Lemma fl_positive (x : Q) : 0 < x -> Binary64.fl x = Binary64.to_double x.
Proof.
  intro H. unfold Binary64.fl.
  apply Qgt_alt in H. now rewrite H.
Qed.

Lemma fl_zero (x : Q) : x == 0 -> Binary64.fl x = 0.
Proof.
  intro H. unfold Binary64.fl. apply Qeq_alt in H. now rewrite H.
Qed.

Lemma fl_nonneg (x : Q) : 0 <= x -> 0 <= Binary64.fl x.
Proof.
  intro H. destruct (Qlt_le_dec 0 x) as [Hp|Hz].
  - rewrite (fl_positive Hp). apply to_double_nonneg. lra.
  - rewrite fl_zero by lra. apply Qle_refl.
Qed.

(** Rounding to a double is monotone. *)
Lemma fl_monotone (x y : Q) : 0 <= x -> x <= y -> Binary64.fl x <= Binary64.fl y.
Proof.
  intros Hx Hxy. destruct (Qlt_le_dec 0 x) as [Hp|Hz].
  - rewrite (fl_positive Hp), (@fl_positive y) by lra.
    now apply to_double_monotone.
  - rewrite (@fl_zero x) by lra. apply fl_nonneg. lra.
Qed.

Lemma fl_compat (x y : Q) : 0 <= x -> x == y -> Binary64.fl x == Binary64.fl y.
Proof.
  intros Hx E. apply Qle_antisym; apply fl_monotone; lra.
Qed.

(** The model agrees with the doubles of the machine on the values
    that decide the examples below: [23 / 40], [23 / 40 * 100] (just
    below 57.5), [0.1 + 0.2], [5.33] and [1 / 3]. *)
Example binary64_samples :
  Binary64.div 23 40 == 2589569785738035 # 4503599627370496 /\
  Binary64.mul (Binary64.div 23 40) 100 == 8092405580431359 # 140737488355328 /\
  Binary64.add (Binary64.fl (1 # 10)) (Binary64.fl (2 # 10))
  == 1351079888211149 # 4503599627370496 /\
  Binary64.fl (533 # 100) == 3000523251735593 # 562949953421312 /\
  Binary64.div 1 3 == 6004799503160661 # 18014398509481984.
Proof. repeat split; vm_compute; reflexivity. Qed.

(** ** Whole percentages *)

Lemma fl_one : Binary64.fl 1 == 1.
Proof. vm_compute. reflexivity. Qed.

Lemma fl_half : Binary64.fl (1 # 2) == 1 # 2.
Proof. vm_compute. reflexivity. Qed.

Lemma fl_fifty : Binary64.fl 50 == 50.
Proof. vm_compute. reflexivity. Qed.

Lemma fl_hundred : Binary64.fl 100 == 100.
Proof. vm_compute. reflexivity. Qed.

Lemma nat_Q_nonneg (n : nat) : 0 <= nat_Q n.
Proof. unfold nat_Q. change 0 with (inject_Z 0). rewrite <- Zle_Qle. lia. Qed.

Lemma nat_Q_pos (n : nat) : (0 < n)%nat -> 0 < nat_Q n.
Proof. intro H. unfold nat_Q. change 0 with (inject_Z 0). rewrite <- Zlt_Qlt. lia. Qed.

Lemma nat_Q_le (m n : nat) : (m <= n)%nat -> nat_Q m <= nat_Q n.
Proof. intro H. unfold nat_Q. rewrite <- Zle_Qle. lia. Qed.

Lemma share_range (m t : nat) :
  (0 < t)%nat -> (m <= t)%nat -> 0 <= nat_Q m / nat_Q t <= 1.
Proof.
  intros Hpos Hle.
  pose proof (nat_Q_pos Hpos) as Ht. pose proof (nat_Q_nonneg m) as Hm.
  pose proof (nat_Q_le Hle) as Hmt.
  split.
  - apply Qle_shift_div_l; [exact Ht | lra].
  - apply Qle_shift_div_r; [exact Ht | lra].
Qed.

(** The share computed in doubles grows with the count. *)
Lemma percentage_monotone (m m' t : nat) :
  (m <= m')%nat -> percentage m t <= percentage m' t.
Proof.
  intro Hle. unfold percentage, Binary64.mul, Binary64.div.
  destruct (Nat.ltb_spec 0 t) as [Hpos|_]; [|apply Qle_refl].
  pose proof (nat_Q_pos Hpos) as Ht. pose proof (nat_Q_nonneg m) as Hm.
  pose proof (nat_Q_le Hle) as Hmm.
  assert (H0 : 0 <= nat_Q m / nat_Q t).
  { apply Qle_shift_div_l; [exact Ht | lra]. }
  assert (H1 : nat_Q m / nat_Q t <= nat_Q m' / nat_Q t).
  { now apply scaled_monotone. }
  pose proof (fl_nonneg H0) as F0. pose proof (fl_monotone H0 H1) as F1.
  apply fl_monotone; lra.
Qed.

Lemma percentage_range (m t : nat) :
  (m <= t)%nat -> 0 <= percentage m t <= 100.
Proof.
  intro Hle. unfold percentage, Binary64.mul, Binary64.div.
  destruct (Nat.ltb_spec 0 t) as [Hpos|_]; [|lra].
  destruct (share_range Hpos Hle) as [H0 H1].
  pose proof (fl_nonneg H0) as F0. pose proof (fl_monotone H0 H1) as F1.
  pose proof fl_one as E1. pose proof fl_hundred as E100.
  split.
  - apply fl_nonneg. lra.
  - apply Qle_trans with (Binary64.fl 100); [apply fl_monotone; lra | lra].
Qed.

Lemma percentage_all (t : nat) : (0 < t)%nat -> percentage t t == 100.
Proof.
  intro Hpos. unfold percentage, Binary64.mul, Binary64.div.
  destruct (Nat.ltb_spec 0 t) as [_|H]; [|lia].
  pose proof (nat_Q_pos Hpos) as Ht.
  assert (E : nat_Q t / nat_Q t == 1) by (field; lra).
  pose proof fl_one as E1. pose proof fl_hundred as E100.
  assert (F : Binary64.fl (nat_Q t / nat_Q t) == Binary64.fl 1).
  { apply fl_compat; lra. }
  assert (G : Binary64.fl (Binary64.fl (nat_Q t / nat_Q t) * 100) == Binary64.fl 100).
  { apply fl_compat; lra. }
  lra.
Qed.

(** At least half of the whole gives at least 50. *)
Lemma percentage_half (m t : nat) :
  (0 < t)%nat -> (t <= 2 * m)%nat -> 50 <= percentage m t.
Proof.
  intros Hpos Hhalf. unfold percentage, Binary64.mul, Binary64.div.
  destruct (Nat.ltb_spec 0 t) as [_|H]; [|lia].
  pose proof (nat_Q_pos Hpos) as Ht.
  assert (Hq : nat_Q t <= 2 * nat_Q m).
  { unfold nat_Q. change 2 with (inject_Z 2).
    rewrite <- inject_Z_mult, <- Zle_Qle. lia. }
  assert (Hd : 1 # 2 <= nat_Q m / nat_Q t).
  { apply Qle_shift_div_l; [exact Ht | lra]. }
  pose proof fl_half as Eh. pose proof fl_fifty as E50.
  assert (F : Binary64.fl (1 # 2) <= Binary64.fl (nat_Q m / nat_Q t)).
  { apply fl_monotone; lra. }
  apply Qle_trans with (Binary64.fl 50); [lra | apply fl_monotone; lra].
Qed.

(** Below 200 matches every share short of the whole rounds below
    100: the largest such shares, [(t - 1) / t], are computed one by
    one. *)
Lemma largest_partial_shares :
  forallb (fun t => (Py.round (percentage (t - 1) t) <? 100)%Z) (seq 1 199) = true.
Proof. vm_compute. reflexivity. Qed.

(** A share that rounds to 100 is the whole, below 200 matches. *)
Lemma percentage_rounds_to_100 (m t : nat) :
  (m <= t)%nat -> (0 < t < 200)%nat ->
  Py.round (percentage m t) = 100%Z -> m = t.
Proof.
  intros Hle [Hpos Hlt] Hr.
  destruct (Nat.eq_dec m t) as [E|Hne]; [exact E|exfalso].
  assert (Hm : (m <= t - 1)%nat) by lia.
  pose proof (round_monotone (@percentage_monotone m (t - 1) t Hm)) as Hmono.
  pose proof largest_partial_shares as Hall.
  rewrite forallb_forall in Hall.
  assert (Hin : In t (seq 1 199)) by (apply in_seq; lia).
  specialize (Hall t Hin). cbn beta in Hall. apply Z.ltb_lt in Hall.
  lia.
Qed.

(** ** The consistency score *)

Lemma filter_length_all {A} (P : A -> bool) (l : list A) :
  List.length (filter P l) = List.length l <-> Forall (fun x => P x = true) l.
Proof.
  induction l as [|x l IH]; simpl.
  - split; [constructor | reflexivity].
  - pose proof (filter_length_le P l) as Hle.
    destruct (P x) eqn:E; simpl.
    + rewrite Forall_cons_iff. split.
      * intro H. split; [exact E | apply IH; lia].
      * intros [_ H]. apply IH in H. lia.
    + split; [lia|]. intro H. inversion H. congruence.
Qed.

Section ConsistencyScore.

Variable pow_half : Q -> Q.
Variable repr_float : Q -> string.
Variable format_1f : Q -> string.
Variable format_0f : Q -> string.

Local Abbreviation analyze :=
  (analyze_similar_events pow_half repr_float format_1f format_0f).
Local Abbreviation body :=
  (analyze_body pow_half repr_float format_1f format_0f).

Lemma analyze_success_body (events : list event) (p : pattern) :
  analyze events = Success p -> body events = Py.Ok p.
Proof.
  unfold analyze_similar_events. destruct events; [discriminate|].
  destruct (body _); [now intros [= ->] | discriminate].
Qed.

Lemma analyze_body_consistency (events : list event) (p : pattern) :
  body events = Py.Ok p ->
  consistency_score p =
  Py.round (percentage (Nat.max (List.length (filter is_bullish events))
                                (List.length (filter is_bearish events)))
                       (List.length events)).
Proof.
  unfold analyze_body.
  destruct (fold_counts events initial_accumulators) as (Hb & Hbe & _).
  cbn zeta in Hb, Hbe. cbn [bullish_count bearish_count initial_accumulators] in Hb, Hbe.
  rewrite Nat.add_0_l in Hb, Hbe.
  destruct (3 <=? _)%nat; cbn [Py.bind Py.call2]; [discriminate|].
  intro H. injection H as <-. cbn [consistency_score]. now rewrite Hb, Hbe.
Qed.

(** The analysis succeeds on every non-empty list with fewer than
    three matches that carry a macro snapshot. *)
Lemma analysis_succeeds (events : list event) :
  events <> [] ->
  (List.length (filter carries_macro_snapshot events) < 3)%nat ->
  exists p, analyze events = Success p.
Proof.
  intros Hne Hlt. unfold analyze_similar_events.
  destruct events as [|e events]; [contradiction|].
  unfold analyze_body.
  destruct (fold_counts (e :: events) initial_accumulators) as (_ & _ & Hm).
  cbn zeta in Hm. cbn [events_with_macro initial_accumulators] in Hm.
  rewrite Nat.add_0_l in Hm. rewrite Hm.
  destruct (Nat.leb_spec 3 (List.length (filter carries_macro_snapshot (e :: events))))
    as [H|_]; [lia|].
  cbn [Py.bind]. eexists. reflexivity.
Qed.

(** C6 (as the code has it). Whenever the analysis succeeds, the
    consistency score is an integer between 0 and 100: the double
    [max(bullish, bearish) / total * 100], with the division and the
    product each rounded to a double, rounded to the nearest integer
    (halves to the even one), where bullish counts the numeric price
    changes above 0, bearish the other numeric ones (0 included) and
    the total every match.  It is 100 when all matches are bullish or
    all are bearish in this sense, and below 200 matches only then. *)
Theorem consistency_score_is_rounded_share (events : list event) (p : pattern) :
  analyze events = Success p ->
  let bullish := List.length (filter is_bullish events) in
  let bearish := List.length (filter is_bearish events) in
  let total := List.length events in
  (0 <= consistency_score p <= 100)%Z /\
  consistency_score p =
    Py.round (Binary64.mul (Binary64.div (nat_Q (Nat.max bullish bearish))
                                         (nat_Q total)) 100) /\
  (Forall (fun e => is_bullish e = true) events \/
   Forall (fun e => is_bearish e = true) events ->
   consistency_score p = 100%Z) /\
  (consistency_score p = 100%Z -> (total < 200)%nat ->
   Forall (fun e => is_bullish e = true) events \/
   Forall (fun e => is_bearish e = true) events).
Proof.
  intros Hs bullish bearish total.
  assert (Hpos : (0 < total)%nat).
  { subst total. destruct events; [discriminate | simpl; lia]. }
  pose proof (analyze_success_body events Hs) as Eb.
  pose proof (analyze_body_consistency events Eb) as Hc.
  fold bullish bearish total in Hc.
  pose proof (bullish_bearish_total events) as Hsum.
  fold bullish bearish total in Hsum.
  assert (Hmax : (Nat.max bullish bearish <= total)%nat) by lia.
  pose proof (percentage_range Hmax) as [Hlo Hhi].
  split.
  { rewrite Hc. apply round_bounds; assumption. }
  split.
  { rewrite Hc. unfold percentage.
    destruct (Nat.ltb_spec 0 total) as [_|H]; [reflexivity | lia]. }
  split.
  - intro Hall.
    assert (E : Nat.max bullish bearish = total).
    { destruct Hall as [H|H]; apply filter_length_all in H;
        fold bullish bearish total in H; lia. }
    rewrite Hc, E.
    pose proof (percentage_all Hpos) as H100.
    destruct (@round_bounds (percentage total total) 100 100) as [H1 H2];
      [rewrite H100; apply Qle_refl | rewrite H100; apply Qle_refl | lia].
  - intros H100 Hlt. rewrite Hc in H100.
    assert (E : Nat.max bullish bearish = total).
    { apply percentage_rounds_to_100; [exact Hmax | lia | exact H100]. }
    destruct (Nat.max_spec bullish bearish) as [[_ Em]|[_ Em]]; rewrite Em in E.
    + right. now apply filter_length_all.
    + left. now apply filter_length_all.
Qed.

End ConsistencyScore.

Lemma consistency_score_is_rounded_share_witness :
  (exists p,
     analyze_similar_events root_of_squares fmt_stub fmt_stub fmt_stub
       (changes [3; 4; 2; -1; 5]) = Success p /\
     (0 <= consistency_score p <= 100)%Z /\
     consistency_score p =
     Py.round (Binary64.mul (Binary64.div (nat_Q 4) (nat_Q 5)) 100) /\
     consistency_score p = 80%Z) /\
  (exists p,
     analyze_similar_events root_of_squares fmt_stub fmt_stub fmt_stub
       (changes (repeat 1 23 ++ repeat (-1) 17)) = Success p /\
     consistency_score p =
     Py.round (Binary64.mul (Binary64.div (nat_Q 23) (nat_Q 40)) 100) /\
     consistency_score p = 57%Z).
Proof.
  split.
  - destruct (@analysis_succeeds root_of_squares fmt_stub fmt_stub fmt_stub
                (changes [3; 4; 2; -1; 5])) as [p Hp].
    + discriminate.
    + vm_compute. lia.
    + exists p. split; [exact Hp|].
      destruct (@consistency_score_is_rounded_share root_of_squares fmt_stub fmt_stub
                  fmt_stub (changes [3; 4; 2; -1; 5]) p Hp) as (H1 & H2 & _).
      split; [exact H1|]. split; [exact H2|].
      rewrite H2. vm_compute. reflexivity.
  - destruct (@analysis_succeeds root_of_squares fmt_stub fmt_stub fmt_stub
                (changes (repeat 1 23 ++ repeat (-1) 17))) as [p Hp].
    + discriminate.
    + vm_compute. lia.
    + exists p. split; [exact Hp|].
      destruct (@consistency_score_is_rounded_share root_of_squares fmt_stub fmt_stub
                  fmt_stub (changes (repeat 1 23 ++ repeat (-1) 17)) p Hp)
        as (_ & H2 & _).
      split; [exact H2|].
      rewrite H2. vm_compute. reflexivity.
Defined.

Lemma sample_score (l : list Q) (p : pattern) :
  analyze_similar_events root_of_squares fmt_stub fmt_stub fmt_stub (changes l)
  = Success p ->
  consistency_score p =
  Py.round (percentage (Nat.max (List.length (filter is_bullish (changes l)))
                                (List.length (filter is_bearish (changes l))))
                       (List.length (changes l))).
Proof.
  intro H. apply analyze_success_body in H.
  now apply analyze_body_consistency in H.
Qed.

(** C6 (as stated) fails.  Two rises and a fall give 67, which is not
    [2/3 * 100]; a zero and a fall give 100 although the two price
    changes do not have the same sign. *)
Lemma consistency_is_rounded_and_zero_is_bearish :
  (exists p, analyze_similar_events root_of_squares fmt_stub fmt_stub fmt_stub
               (changes [1; 1; -1]) = Success p /\
             consistency_score p = 67%Z /\
             ~ inject_Z (consistency_score p) == (2 # 3) * 100) /\
  (exists p, analyze_similar_events root_of_squares fmt_stub fmt_stub fmt_stub
               (changes [0; -1]) = Success p /\
             consistency_score p = 100%Z /\
             ~ share_sign (changes [0; -1])).
Proof.
  split.
  - destruct (@analysis_succeeds root_of_squares fmt_stub fmt_stub fmt_stub
                (changes [1; 1; -1])) as [p Hp];
      [discriminate | vm_compute; lia |].
    exists p. split; [exact Hp|].
    rewrite (sample_score _ Hp).
    split; [vm_compute; reflexivity|].
    intro H. vm_compute in H. discriminate.
  - destruct (@analysis_succeeds root_of_squares fmt_stub fmt_stub fmt_stub
                (changes [0; -1])) as [p Hp];
      [discriminate | vm_compute; lia |].
    exists p. split; [exact Hp|].
    rewrite (sample_score _ Hp).
    split; [vm_compute; reflexivity|].
    intros [c Hc]. inversion Hc as [|? ? H1 Hc']; subst.
    inversion Hc' as [|? ? H2 _]; subst.
    vm_compute in H1, H2. congruence.
Qed.

(** Scenario D of the specification. *)
Example scenario_D :
  exists p,
    analyze_similar_events root_of_squares fmt_stub fmt_stub fmt_stub
      (changes [3; 4; 2; -1; 5]) = Success p /\
    consistency_score p = 80%Z /\
    pattern_summary p = "Moderate bullish trend with low volatility".
Proof.
  eexists. split; [vm_compute; reflexivity|]. split; reflexivity.
Qed.

(** ** Sums of numbers *)




(** ** The sort key of the top-match selection *)

(** The first component of the key: the magnitude of
    [price_change_pct] when the key is present, else that of
    [drop_pct], else 0. *)
Lemma price_change_key_cases (e : event) (q : Q) :
  (price_change_pct e = Some (Py.VNum q) -> get_price_change e = Py.Ok (Qabs q)) /\
  (price_change_pct e = None -> drop_pct e = Some (Py.VNum q) ->
   get_price_change e = Py.Ok (Qabs q)) /\
  (price_change_pct e = None -> drop_pct e = None -> get_price_change e = Py.Ok 0).
Proof.
  unfold get_price_change. repeat split.
  - intros ->. reflexivity.
  - intros -> ->. reflexivity.
  - intros -> ->. reflexivity.
Qed.

(** * Further properties of the code *)

(** ** historical_matcher.py: scores *)

(** Only the seven sums of the three weights can be a match score. *)
Theorem match_score_values (h : headline) (t : template) :
  let s := calculate_match_score h t in
  s == 0 \/ s == 2 # 10 \/ s == 3 # 10 \/ s == 5 # 10 \/ s == 7 # 10 \/
  s == 8 # 10 \/ s == 1.
Proof.
  unfold calculate_match_score.
  destruct (opt_string_eqb (h_event_type h) (t_event_type t));
    destruct (opt_string_eqb (h_sentiment h) (t_sentiment t));
    destruct (opt_string_eqb (h_sector h) (t_sector t)); cbn zeta.
  - do 6 right. reflexivity.
  - do 5 right. left. reflexivity.
  - do 4 right. left. reflexivity.
  - do 3 right. left. reflexivity.
  - do 3 right. left. reflexivity.
  - do 2 right. left. reflexivity.
  - right. left. reflexivity.
  - left. reflexivity.
Qed.

(** A template that agrees with the headline wherever another one
    does never scores less. *)
Theorem match_score_monotone (h : headline) (t1 t2 : template) :
  (opt_string_eqb (h_event_type h) (t_event_type t1) = true ->
   opt_string_eqb (h_event_type h) (t_event_type t2) = true) ->
  (opt_string_eqb (h_sentiment h) (t_sentiment t1) = true ->
   opt_string_eqb (h_sentiment h) (t_sentiment t2) = true) ->
  (opt_string_eqb (h_sector h) (t_sector t1) = true ->
   opt_string_eqb (h_sector h) (t_sector t2) = true) ->
  calculate_match_score h t1 <= calculate_match_score h t2.
Proof.
  unfold calculate_match_score. intros H1 H2 H3.
  destruct (opt_string_eqb (h_event_type h) (t_event_type t1));
    [rewrite (H1 eq_refl)|clear H1];
    (destruct (opt_string_eqb (h_sentiment h) (t_sentiment t1));
     [rewrite (H2 eq_refl)|clear H2]);
    (destruct (opt_string_eqb (h_sector h) (t_sector t1));
     [rewrite (H3 eq_refl)|clear H3]);
    repeat match goal with
           | |- context [if ?b then _ else _] => destruct b
           end;
    cbn zeta; unfold Qle; simpl; lia.
Qed.

Lemma match_score_monotone_witness :
  calculate_match_score fed_headline sector_only_template
  <= calculate_match_score fed_headline type_and_sector_template.
Proof.
  apply match_score_monotone; intro H; vm_compute in H; try discriminate; reflexivity.
Defined.

(** ** historical_matcher.py: price change and drawdown *)

Lemma Qdiv_pos (x y : Q) : 0 < x -> 0 < y -> 0 < x / y.
Proof. intros Hx Hy. apply Qlt_shift_div_l; [exact Hy | lra]. Qed.

(** A larger positive denominator gives a smaller quotient. *)
Lemma Qdiv_antitone (x a b : Q) : 0 < x -> 0 < a -> a <= b -> x / b <= x / a.
Proof.
  intros Hx Ha Hab.
  assert (Hb : 0 < b) by lra.
  apply Qle_shift_div_r; [exact Hb|].
  assert (E : x / a * b == x + x * ((b - a) / a)).
  { field. lra. }
  rewrite E.
  assert (H0 : 0 <= (b - a) / a).
  { apply Qle_shift_div_l; [exact Ha | lra]. }
  assert (H1 : 0 <= x * ((b - a) / a)).
  { apply Qmult_le_0_compat; lra. }
  lra.
Qed.

(** What the walk leaves behind: the peak only grows, the drawdown
    only sinks, it stays above -100 and below the drawdown of the
    last close against the final peak. *)
Lemma drawdown_fold_bounds (rest : list Q) : forall peak md,
  0 < peak -> Forall (fun c => 0 < c) rest ->
  let st := fold_left drawdown_step rest (peak, md) in
  peak <= fst st /\ snd st <= md /\ (-100 < md -> -100 < snd st) /\
  (rest <> [] -> snd st <= (last rest 0 / fst st - 1) * 100).
Proof.
  induction rest as [|c r IH]; intros peak md Hp Hall; cbn zeta.
  - simpl. repeat split; try lra. intro H. contradiction.
  - inversion Hall as [|? ? Hc Hr]; subst.
    simpl fold_left.
    change (drawdown_step (peak, md) c)
      with (Py.max peak c, Py.min md ((c / Py.max peak c - 1) * 100)).
    pose proof (py_max_spec peak c) as [Hpk Hcp].
    remember (Py.max peak c) as p' eqn:Ep'. clear Ep'.
    assert (Hp' : 0 < p') by lra.
    assert (Hcd : -100 < (c / p' - 1) * 100).
    { pose proof (Qdiv_pos Hc Hp'). lra. }
    remember ((c / p' - 1) * 100) as cd eqn:Ecd.
    destruct (IH p' (Py.min md cd) Hp' Hr) as (H1 & H2 & H3 & H4).
    assert (Hmin : Py.min md cd <= md /\ Py.min md cd <= cd /\
                   (-100 < md -> -100 < Py.min md cd)).
    { destruct (py_min_case md cd) as [[Hlt ->]|[Hle ->]]; repeat split; lra. }
    destruct Hmin as (M1 & M2 & M3).
    split; [lra|]. split; [lra|].
    split; [intro Hmd; apply H3; now apply M3|].
    intros _. destruct r as [|c' r'].
    + cbn [fold_left fst snd last]. rewrite <- Ecd. exact M2.
    + change (last (c :: c' :: r') 0) with (last (c' :: r') 0).
      apply H4. discriminate.
Qed.

(** For a series of at least two positive closes the maximum drawdown
    is at least -100 and never above the overall price change. *)
Theorem drawdown_between_minus_100_and_change (df : frame) :
  (2 <= List.length df)%nat ->
  Forall (fun b => 0 < Close b) df ->
  let r := calculate_drop_percentage df in
  -100 <= snd r /\ snd r <= fst r.
Proof.
  intros Hlen Hpos. cbn zeta. unfold calculate_drop_percentage.
  destruct (Nat.ltb_spec (List.length df) 2) as [Hlt|_]; [lia|].
  cbn [fst snd].
  destruct df as [|b0 [|b1 df']]; simpl in Hlen; try lia.
  inversion Hpos as [|? ? Hb0 Hrest]; subst.
  cbn [map hd]. unfold drawdown_walk.
  assert (Hrest' : Forall (fun c => 0 < c) (map Close (b1 :: df'))).
  { apply Forall_map. exact Hrest. }
  destruct (@drawdown_fold_bounds (map Close (b1 :: df')) (Close b0) 0 Hb0 Hrest')
    as (H1 & H2 & H3 & H4).
  split; [apply Qlt_le_weak, H3; lra|].
  assert (Hne : map Close (b1 :: df') <> []) by discriminate.
  specialize (H4 Hne).
  change (last (Close b0 :: map Close (b1 :: df')) 0)
    with (last (map Close (b1 :: df')) 0).
  set (l := last (map Close (b1 :: df')) 0) in *.
  assert (Hl : 0 < l).
  { subst l. rewrite Forall_forall in Hrest'. apply Hrest'.
    apply (@exists_last _ (map Close (b1 :: df'))) in Hne.
    destruct Hne as (l' & a & E). rewrite E, last_last.
    apply in_or_app. right. now left. }
  pose proof (Qdiv_antitone Hl Hb0 H1) as Hq.
  change (last (Close b0 :: Close b1 :: map Close df') 0) with l.
  change (Close b1 :: map Close df') with (map Close (b1 :: df')).
  lra.
Qed.

Lemma drawdown_between_minus_100_and_change_witness :
  -100 <= snd (calculate_drop_percentage scenario_A) /\
  snd (calculate_drop_percentage scenario_A) <= fst (calculate_drop_percentage scenario_A).
Proof.
  apply (@drawdown_between_minus_100_and_change scenario_A).
  - simpl. lia.
  - repeat constructor.
Defined.

Lemma last_map_nonempty {A B} (f : A -> B) (l : list A) (d : B) (d' : A) :
  l <> [] -> last (map f l) d = f (last l d').
Proof.
  induction l as [|x l IH]; intro Hne; [contradiction|].
  destruct l as [|y l]; [reflexivity|].
  change (last (map f (x :: y :: l)) d) with (last (map f (y :: l)) d).
  change (last (x :: y :: l) d') with (last (y :: l) d').
  apply IH. discriminate.
Qed.

(** The overall change is positive exactly when the last close is
    above the first, and zero exactly when they are equal. *)
Theorem price_change_sign (df : frame) (first : bar) :
  (2 <= List.length df)%nat ->
  hd_error df = Some first -> 0 < Close first ->
  let change := fst (calculate_drop_percentage df) in
  let final := Close (last df first) in
  (0 < change <-> Close first < final) /\
  (change == 0 <-> final == Close first) /\
  (change < 0 <-> final < Close first).
Proof.
  intros Hlen Hhd Hpos. cbn zeta. unfold calculate_drop_percentage.
  destruct (Nat.ltb_spec (List.length df) 2) as [Hlt|_]; [lia|].
  cbn [fst].
  destruct df as [|b0 df']; [discriminate|].
  simpl in Hhd. injection Hhd as ->.
  cbn [map hd].
  assert (El : last (Close first :: map Close df') 0 = Close (last (first :: df') first)).
  { change (Close first :: map Close df') with (map Close (first :: df')).
    apply last_map_nonempty. discriminate. }
  rewrite El. set (final := Close (last (first :: df') first)).
  assert (E : final == final / Close first * Close first) by (field; lra).
  remember (final / Close first) as q eqn:Eq. clear Eq.
  remember (Close first) as c eqn:Ec. clear Ec El.
  assert (H1 : q <= 1 -> final <= c).
  { intro H. assert (M : q * c <= 1 * c) by (apply Qmult_le_compat_r; lra). lra. }
  assert (H2 : 1 <= q -> c <= final).
  { intro H. assert (M : 1 * c <= q * c) by (apply Qmult_le_compat_r; lra). lra. }
  assert (H1s : q < 1 -> final < c).
  { intro H. assert (M : q * c < 1 * c) by (apply Qmult_lt_compat_r; lra). lra. }
  assert (H2s : 1 < q -> c < final).
  { intro H. assert (M : 1 * c < q * c) by (apply Qmult_lt_compat_r; lra). lra. }
  repeat split; intro H.
  - apply H2s. lra.
  - destruct (Qlt_le_dec 1 q) as [C|C]; [lra|]. specialize (H1 C). lra.
  - apply Qle_antisym; [apply H1 | apply H2]; lra.
  - destruct (Qlt_le_dec q 1) as [C|C]; [specialize (H1s C); lra|].
    destruct (Qlt_le_dec 1 q) as [C'|C']; [specialize (H2s C'); lra|]. lra.
  - apply H1s. lra.
  - destruct (Qlt_le_dec q 1) as [C|C]; [lra|]. specialize (H2 C). lra.
Qed.

Lemma price_change_sign_witness :
  0 < fst (calculate_drop_percentage scenario_A).
Proof.
  apply (proj1 (@price_change_sign scenario_A (mkBar "2024-01-02" 100 100 100 100)
                  ltac:(simpl; lia) eq_refl ltac:(reflexivity))).
  reflexivity.
Defined.

(** ** historical_matcher.py: the analysis window and the number of matches *)

(** For a non-empty fetched series the two percentages are computed
    from its first seven rows only, while the price data (end price,
    extremes, number of trading days) describe every fetched row. *)
Theorem impact_uses_first_seven_rows
  (fetch_market_data : string -> string -> string -> frame)
  (strptime : string -> option Z) (strftime : Z -> string)
  (t : template) (tk d : string) (day : Z) (b : bar) (rest : list bar) :
  get (t_affected_ticker t) (Py.VStr DEFAULT_MARKET_TICKER) = Py.VStr tk ->
  t_event_date t = Some d ->
  d <> EmptyString ->
  strptime d = Some day ->
  fetch_market_data tk d (strftime (day + 14)%Z) = b :: rest ->
  let df := b :: rest in
  exists imp,
    analyze_market_impact fetch_market_data strptime strftime t = Py.Ok imp /\
    i_price_change_pct imp = Py.VNum (fst (calculate_drop_percentage (firstn 7 df))) /\
    i_max_drawdown_pct imp = Py.VNum (snd (calculate_drop_percentage (firstn 7 df))) /\
    i_price_data imp =
      Some (mkPriceData (Close b) (Close (last df b))
              (min_list (map Low df) 0) (max_list (map High df) 0) (List.length df)).
Proof.
  intros Htk Hd Hne Hday Hfetch df.
  unfold analyze_market_impact.
  rewrite Htk, Hd. cbn [get].
  destruct (String.eqb_spec d EmptyString) as [E|_]; [contradiction|].
  rewrite Hday. cbn [fetch_market_data_py Py.bind]. rewrite Hfetch. fold df.
  assert (Ewin : (if (DEFAULT_ANALYSIS_DAYS <? List.length df)%nat
                  then firstn DEFAULT_ANALYSIS_DAYS df else df) = firstn 7 df).
  { unfold DEFAULT_ANALYSIS_DAYS.
    destruct (Nat.ltb_spec 7 (List.length df)) as [H|H]; [reflexivity|].
    symmetry. now apply firstn_all2. }
  rewrite Ewin.
  destruct (calculate_drop_percentage (firstn 7 df)) as [change drawdown].
  eexists. split; [reflexivity|]. cbn. auto.
Qed.

Lemma impact_uses_first_seven_rows_witness :
  exists imp,
    analyze_market_impact (fun _ _ _ => nine_sessions) parse_stub print_stub lone_template
    = Py.Ok imp /\
    i_price_change_pct imp =
      Py.VNum (fst (calculate_drop_percentage (firstn 7 nine_sessions))) /\
    i_price_data imp = Some (mkPriceData 50 90 50 90 9).
Proof.
  destruct (@impact_uses_first_seven_rows (fun _ _ _ => nine_sessions) parse_stub
              print_stub lone_template "XYZ" "2024-03-01" 0%Z
              (flat_bar "2024-03-01" 50) (tl nine_sessions))
    as (imp & H1 & H2 & _ & H4); try reflexivity; try discriminate.
  exists imp. repeat split; assumption.
Defined.

(** On the nine sessions the analysis reports no move although the
    reported end price is 80% above the start price. *)
Example nine_sessions_impact :
  exists imp,
    analyze_market_impact (fun _ _ _ => nine_sessions) parse_stub print_stub lone_template
    = Py.Ok imp /\
    i_price_change_pct imp = Py.VNum ((50 / 50 - 1) * 100) /\
    (50 / 50 - 1) * 100 == 0.
Proof. eexists. repeat split; reflexivity. Qed.

Section MatchCount.

Variable historical_events : list template.
Variable fetch_market_data : string -> string -> string -> frame.
Variable strptime : string -> option Z.
Variable strftime : Z -> string.

Lemma scored_events_length (h : headline) :
  List.length (scored_events historical_events h) =
  List.length (filter (some_field_agrees h) historical_events).
Proof.
  unfold scored_events.
  generalize historical_events as l.
  induction l as [|t l IH]; [reflexivity|].
  cbn [map filter fst].
  destruct (match_score_cases h t) as (_ & _ & Hpos & _).
  unfold Py.Qgtb at 1. destruct (some_field_agrees h t) eqn:E.
  - assert (H : Py.Qltb 0 (calculate_match_score h t) = true).
    { apply Qltb_lt. now apply Hpos. }
    rewrite H. cbn [List.length]. now f_equal.
  - assert (H : Py.Qltb 0 (calculate_match_score h t) = false).
    { apply not_true_is_false. intro C. apply Qltb_lt in C. apply Hpos in C.
      discriminate. }
    rewrite H. exact IH.
Qed.

(** The Match Scorer returns as many matches as there are templates
    that agree with the headline on some field, up to [top_n]: no
    template is lost when its impact cannot be computed. *)
Theorem match_count (h : headline) (top_n : Z) :
  (0 <= top_n)%Z ->
  List.length
    (match_similar_events historical_events fetch_market_data strptime strftime h top_n)
  = Nat.min (Z.to_nat top_n)
            (List.length (filter (some_field_agrees h) historical_events)).
Proof.
  intro Hn. rewrite match_similar_events_map, length_map.
  unfold top_events. rewrite slice_to_nonneg by exact Hn.
  rewrite length_firstn, sort_desc_length. now rewrite scored_events_length.
Qed.

End MatchCount.

Lemma match_count_witness :
  List.length
    (match_similar_events sample_store no_data parse_stub print_stub fed_headline 3)
  = Nat.min 3 (List.length (filter (some_field_agrees fed_headline) sample_store)).
Proof.
  apply (@match_count sample_store no_data parse_stub print_stub fed_headline 3%Z).
  lia.
Defined.

(** ** trade_picker.py: the next Friday and the expiry *)

(** On a calendar whose weekdays advance by one per day, the day
    returned by [get_next_friday] is a Friday, strictly after the
    given day and at most seven days later. *)
Theorem next_friday_is_a_later_friday (weekday : Z -> Z) (from_date : Z) :
  (forall d, 0 <= weekday d < 7)%Z ->
  (forall d k, weekday (d + k) = (weekday d + k) mod 7)%Z ->
  let friday := get_next_friday weekday from_date in
  weekday friday = 4%Z /\ (from_date < friday <= from_date + 7)%Z.
Proof.
  intros Hrange Hadd. cbn zeta. unfold get_next_friday.
  pose proof (Hrange from_date) as Hw.
  destruct (Z.leb_spec (4 - weekday from_date) 0) as [H|H].
  - split; [|lia]. rewrite Hadd.
    replace (weekday from_date + (4 - weekday from_date + 7))%Z with (4 + 1 * 7)%Z by lia.
    rewrite Z.mod_add by lia. reflexivity.
  - split; [|lia]. rewrite Hadd.
    replace (weekday from_date + (4 - weekday from_date))%Z with 4%Z by lia.
    reflexivity.
Qed.

Lemma next_friday_is_a_later_friday_witness :
  weekday_mod (get_next_friday weekday_mod 4) = 4%Z /\
  (4 < get_next_friday weekday_mod 4 <= 4 + 7)%Z.
Proof.
  apply (@next_friday_is_a_later_friday weekday_mod 4%Z).
  - intro d. unfold weekday_mod. apply Z.mod_pos_bound. lia.
  - intros d k. unfold weekday_mod. rewrite Zplus_mod_idemp_l. reflexivity.
Defined.

Section Expiry.

Variable today : Z.
Variable weekday : Z -> Z.
Variable strptime : string -> option Z.
Variable strftime : Z -> string.

Local Abbreviation select := (select_expiry_date today weekday strptime strftime).
Local Abbreviation dated := (days_to_expiry today strptime).

Lemma days_flip_asym (a b : Z) : (b <? a)%Z = true -> (a <? b)%Z = false.
Proof. rewrite Z.ltb_lt, Z.ltb_ge. lia. Qed.

Lemma days_flip_negtrans (a b c : Z) :
  (b <? a)%Z = false -> (c <? b)%Z = false -> (c <? a)%Z = false.
Proof. rewrite !Z.ltb_ge. lia. Qed.

Lemma days_to_expiry_ok (e : string) (p : string * Z) :
  dated e = Py.Ok p -> fst p = e /\ strptime e = Some (snd p + today)%Z.
Proof.
  unfold days_to_expiry. destruct (strptime e) as [d|]; [|discriminate].
  intros [= <-]. split; [reflexivity|]. cbn [snd]. f_equal. lia.
Qed.

(** With every listed date well formed: the selected expiry is one of
    the listed dates; when some date lies in the window of
    [min_days] to [max_days] days from today, the selected one lies
    in the window and no date of the window is nearer; when none
    does, the first listed date is selected. *)
Theorem expiry_is_nearest_in_window (expiry_dates : list string) (min_days max_days : Z) :
  expiry_dates <> [] ->
  Forall (fun e => strptime e <> None) expiry_dates ->
  exists r d,
    select_expiry_date today weekday strptime strftime expiry_dates min_days max_days
    = Py.Ok r /\
    In r expiry_dates /\ strptime r = Some d /\
    ((exists e de, In e expiry_dates /\ strptime e = Some de /\
                   (min_days <= de - today <= max_days)%Z) ->
     (min_days <= d - today <= max_days)%Z /\
     forall e de, In e expiry_dates -> strptime e = Some de ->
                  (min_days <= de - today <= max_days)%Z -> (d <= de)%Z) /\
    ((forall e de, In e expiry_dates -> strptime e = Some de ->
                   ~ (min_days <= de - today <= max_days)%Z) ->
     Some r = hd_error expiry_dates).
Proof.
  intros Hne Hall. unfold select_expiry_date.
  destruct expiry_dates as [|first rest] eqn:El; [contradiction|]. rewrite <- El in *.
  assert (Hok : Forall (fun e => Py.is_ok (dated e) = true) expiry_dates).
  { eapply Forall_impl; [|exact Hall]. intros e He. cbn beta in He.
    unfold days_to_expiry. destruct (strptime e); [reflexivity | contradiction]. }
  destruct (mapM_ok dated Hok) as [ds [Emap F2]].
  rewrite Emap. cbn [Py.bind].
  set (inside := fun p : string * Z => ((min_days <=? snd p)%Z && (snd p <=? max_days)%Z)).
  assert (Hback : forall p, In p ds -> In (fst p) expiry_dates /\
                                       strptime (fst p) = Some (snd p + today)%Z).
  { clear -F2. induction F2 as [|e p l ds' Hp F2 IH]; intros q Hq; [contradiction|].
    destruct Hq as [<-|Hq].
    - destruct (days_to_expiry_ok _ Hp) as [<- H]. split; [now left | exact H].
    - destruct (IH q Hq) as [H1 H2]. split; [now right | exact H2]. }
  assert (Hforth : forall e de, In e expiry_dates -> strptime e = Some de ->
                                In (e, (de - today)%Z) ds).
  { clear -F2. induction F2 as [|e p l ds' Hp F2 IH]; intros q dq Hq Hd; [contradiction|].
    destruct Hq as [<-|Hq].
    - left. unfold days_to_expiry in Hp. rewrite Hd in Hp. now injection Hp.
    - right. now apply IH. }
  destruct (sort_desc (@snd string Z) (fun a b => (b <? a)%Z) (filter inside ds))
    as [|best others] eqn:Es.
  - (* no date in the window *)
    assert (Hnone : filter inside ds = []).
    { apply length_zero_iff_nil. rewrite <- (sort_desc_length (@snd string Z)
        (fun a b => (b <? a)%Z)), Es. reflexivity. }
    assert (Hfirst : exists d, strptime first = Some d).
    { rewrite El in Hall. inversion Hall as [|? ? H _]; subst.
      destruct (strptime first) as [d|]; [now exists d | contradiction]. }
    destruct Hfirst as [d Hd].
    exists first, d. split; [reflexivity|].
    split; [rewrite El; now left|]. split; [exact Hd|].
    split.
    + intros (e & de & He & Hde & Hwin). exfalso.
      pose proof (Hforth e de He Hde) as Hin.
      assert (Hf : In (e, (de - today)%Z) (filter inside ds)).
      { apply filter_In. split; [exact Hin|]. unfold inside. cbn [snd].
        apply andb_true_iff. split; apply Z.leb_le; lia. }
      rewrite Hnone in Hf. contradiction.
    + intros _. rewrite El. reflexivity.
  - (* the nearest date of the window *)
    destruct (@sort_desc_head _ _ (@snd string Z) (fun a b => (b <? a)%Z)
                days_flip_asym days_flip_negtrans (filter inside ds) best others Es)
      as [Hin Hmin].
    apply filter_In in Hin. destruct Hin as [Hin Hwin].
    destruct (Hback best Hin) as [Hmem Hparse].
    unfold inside in Hwin. apply andb_true_iff in Hwin.
    destruct Hwin as [Hlo Hhi]. apply Z.leb_le in Hlo, Hhi.
    exists (fst best), (snd best + today)%Z.
    split; [reflexivity|]. split; [exact Hmem|]. split; [exact Hparse|].
    split.
    + intros _. split; [lia|].
      intros e de He Hde Hw.
      assert (Hf : In (e, (de - today)%Z) (filter inside ds)).
      { apply filter_In. split; [now apply Hforth|]. unfold inside. cbn [snd].
        apply andb_true_iff. split; apply Z.leb_le; lia. }
      specialize (Hmin _ Hf). cbn [snd] in Hmin. apply Z.ltb_ge in Hmin. lia.
    + intro Hno. exfalso. apply (Hno (fst best) (snd best + today)%Z Hmem Hparse). lia.
Qed.

(** A single malformed date makes the selection raise [ValueError],
    wherever it stands in the list. *)
Theorem malformed_expiry_raises (expiry_dates : list string) (e : string)
  (min_days max_days : Z) :
  In e expiry_dates -> strptime e = None ->
  select_expiry_date today weekday strptime strftime expiry_dates min_days max_days =
  Py.Raise (Py.ValueError "time data does not match format '%Y-%m-%d'").
Proof.
  intros Hin Hbad. unfold select_expiry_date.
  destruct expiry_dates as [|first rest] eqn:El; [contradiction|]. rewrite <- El in *.
  assert (Hraise : Py.mapM dated expiry_dates =
                   Py.Raise (Py.ValueError "time data does not match format '%Y-%m-%d'")).
  { clear El. induction expiry_dates as [|x l IH]; [contradiction|].
    cbn [Py.mapM]. unfold days_to_expiry at 1.
    destruct (strptime x) as [dx|] eqn:Ex; [|reflexivity].
    cbn [Py.bind]. destruct Hin as [->|Hin]; [congruence|].
    rewrite (IH Hin). reflexivity. }
  rewrite Hraise. reflexivity.
Qed.

End Expiry.

Lemma expiry_is_nearest_in_window_witness :
  exists r d,
    select_expiry_date 0 weekday_mod parse_day print_stub
      ["2024-03-08"; "2024-03-22"; "2024-03-15"; "2024-06-21"] 7 30 = Py.Ok r /\
    parse_day r = Some d /\ (7 <= d - 0 <= 30)%Z.
Proof.
  destruct (@expiry_is_nearest_in_window 0%Z weekday_mod parse_day print_stub
              ["2024-03-08"; "2024-03-22"; "2024-03-15"; "2024-06-21"] 7%Z 30%Z)
    as (r & d & H1 & _ & H3 & H4 & _).
  - discriminate.
  - repeat constructor; discriminate.
  - exists r, d. split; [exact H1|]. split; [exact H3|].
    apply H4. exists "2024-03-22", 18%Z. repeat split; try (now right; left); lia.
Defined.

Lemma malformed_expiry_raises_witness :
  select_expiry_date 0 weekday_mod parse_day print_stub
    ["2024-03-15"; "next week"] 7 30
  = Py.Raise (Py.ValueError "time data does not match format '%Y-%m-%d'").
Proof.
  apply (@malformed_expiry_raises 0%Z weekday_mod parse_day print_stub
           ["2024-03-15"; "next week"] "next week" 7%Z 30%Z).
  - right. now left.
  - reflexivity.
Defined.

(** The nearest date of the window wins, not the first listed one. *)
Example sample_expiry :
  select_expiry_date 0 weekday_mod parse_day print_stub
    ["2024-03-08"; "2024-03-22"; "2024-03-15"; "2024-06-21"] 7 30 = Py.Ok "2024-03-15" /\
  select_expiry_date 0 weekday_mod parse_day print_stub ["2024-06-21"; "2024-03-08"] 7 30
  = Py.Ok "2024-06-21" /\
  select_expiry_date 4 weekday_mod parse_day print_stub [] 7 30 = Py.Ok (print_stub 11).
Proof. repeat split; reflexivity. Qed.

(** ** trade_picker.py: the decision procedure *)

Lemma put_condition (pc : Q) :
  Py.Qltb pc 0 && Py.Qgtb (Qabs pc) 3 = true <-> pc < -3.
Proof.
  unfold Py.Qgtb. rewrite andb_true_iff, !Qltb_lt. split.
  - intros [Hneg Habs]. rewrite Qabs_neg in Habs by lra. lra.
  - intro H. split; [lra|]. rewrite Qabs_neg by lra. lra.
Qed.

Lemma decide_unfold (h : headline) (dd pc : Q) :
  decide h dd pc =
  let llm := get (h_direction h) EmptyString in
  let given :=
    Py.truthy_string (h_direction h) && (String.eqb llm "BUY" || String.eqb llm "SELL") in
  let option_type := if Py.Qltb pc 0 && Py.Qgtb (Qabs pc) 3 then "PUT" else "CALL" in
  let st0 :=
    if given
    then if String.eqb llm "SELL"
         then mkDecision "option" llm
                (Some "LLM explicitly recommends SELL direction based on the news event.")
         else mkDecision "option" llm
                (Some "LLM explicitly recommends BUY direction based on the news event.")
    else mkDecision "option" "BUY" None in
  (option_type,
   if bullish_rule h dd
   then if negb (Py.truthy_string (h_direction h)) || negb (String.eqb llm "SELL")
        then mkDecision "equity" "BUY"
               (Some "Using equity (BUY) due to bullish sentiment with low expected drawdown.")
        else mkDecision "equity" (d_direction st0) (d_rationale_addition st0)
   else if bearish_rule h
   then if negb (Py.truthy_string (h_direction h)) || negb (String.eqb llm "BUY")
        then mkDecision "equity" "SELL"
               (Some (concat_all
                  ["Using equity (SELL) due to bearish sentiment with risk factors: ";
                   join ", " (risk_factors (h_is_cpi_week h) (yield_curve_inverted h)
                                           (h_surprise_positive h));
                   "."]))
        else mkDecision "equity" (d_direction st0) (d_rationale_addition st0)
   else if String.eqb option_type "PUT"
        then mkDecision "option" (d_direction st0)
               (Some "Using PUT option due to expected significant downside move.")
        else mkDecision "option" (d_direction st0)
               (Some "Using CALL option due to expected upside potential.")).
Proof.
  unfold decide, bullish_rule, bearish_rule, yield_curve_inverted. cbn zeta.
  destruct (Py.truthy_string (h_direction h) &&
            (String.eqb (get (h_direction h) EmptyString) "BUY" ||
             String.eqb (get (h_direction h) EmptyString) "SELL"));
    [destruct (String.eqb (get (h_direction h) EmptyString) "SELL")|];
    cbn [d_trade_type d_direction d_rationale_addition];
    change (String.eqb "option" "option") with true;
    rewrite ?orb_true_r; reflexivity.
Qed.

Lemma decide_facts (h : headline) (dd pc : Q) :
  let option_type := fst (decide h dd pc) in
  let st := snd (decide h dd pc) in
  (option_type = "PUT" /\ pc < -3 \/ option_type = "CALL" /\ -3 <= pc) /\
  (d_trade_type st = "equity" /\ bullish_rule h dd || bearish_rule h = true \/
   d_trade_type st = "option" /\ bullish_rule h dd || bearish_rule h = false) /\
  (d_direction st = "BUY" \/ d_direction st = "SELL") /\
  d_rationale_addition st <> None.
Proof.
  cbn zeta. rewrite decide_unfold. cbn zeta. cbn [fst snd].
  split.
  { destruct (Py.Qltb pc 0 && Py.Qgtb (Qabs pc) 3) eqn:E.
    - left. split; [reflexivity | now apply put_condition].
    - right. split; [reflexivity|]. apply Qnot_lt_le. intro C.
      apply put_condition in C. congruence. }
  destruct (Py.truthy_string (h_direction h)) eqn:Et; cbn [andb negb orb];
    destruct (String.eqb (get (h_direction h) EmptyString) "BUY") eqn:Eb;
    destruct (String.eqb (get (h_direction h) EmptyString) "SELL") eqn:Es;
    try (apply String.eqb_eq in Eb); try (apply String.eqb_eq in Es);
    try rewrite Eb in *; try rewrite Es in *; try discriminate;
    cbn [orb negb andb];
    destruct (bullish_rule h dd); destruct (bearish_rule h);
    cbn [orb d_trade_type d_direction d_rationale_addition];
    try destruct (String.eqb (if Py.Qltb pc 0 && Py.Qgtb (Qabs pc) 3
                              then "PUT" else "CALL") "PUT");
    cbn [d_trade_type d_direction d_rationale_addition];
    repeat split; auto; try discriminate.
Qed.

(** The decision always yields an option type in CALL/PUT (PUT exactly
    for a price change below -3), a trade type in equity/option
    (equity exactly when one of the two rules fires), a direction in
    BUY/SELL, and a rationale clause: the local
    [rationale_addition] is bound on every path. *)
Theorem decision_domains (h : headline) (dd pc : Q) :
  let option_type := fst (decide h dd pc) in
  let st := snd (decide h dd pc) in
  (option_type = "PUT" /\ pc < -3 \/ option_type = "CALL" /\ -3 <= pc) /\
  (d_trade_type st = "equity" /\ bullish_rule h dd || bearish_rule h = true \/
   d_trade_type st = "option" /\ bullish_rule h dd || bearish_rule h = false) /\
  (d_direction st = "BUY" \/ d_direction st = "SELL") /\
  d_rationale_addition st <> None.
Proof. exact (decide_facts h dd pc). Qed.

(** An external recommendation BUY or SELL is the direction of the
    decision, whatever the rules say. *)
Theorem external_recommendation_is_the_direction (h : headline) (dd pc : Q) (r : string) :
  h_direction h = Some r -> r = "BUY" \/ r = "SELL" ->
  d_direction (snd (decide h dd pc)) = r.
Proof.
  intros Hr Hcase. rewrite decide_unfold. cbn zeta. cbn [snd].
  rewrite Hr. cbn [get Py.truthy_string].
  destruct Hcase as [-> | ->]; cbn;
    destruct (bullish_rule h dd); destruct (bearish_rule h);
    try destruct (String.eqb (if Py.Qltb pc 0 && Py.Qgtb (Qabs pc) 3
                              then "PUT" else "CALL") "PUT");
    reflexivity.
Qed.

Lemma external_recommendation_is_the_direction_witness :
  d_direction (snd (decide bullish_with_sell 1 4)) = "SELL".
Proof.
  apply external_recommendation_is_the_direction; [reflexivity | now right].
Defined.

(** Without an external recommendation the direction is SELL exactly
    when the bearish rule fires and the bullish rule does not. *)
Theorem rule_based_direction (h : headline) (dd pc : Q) :
  h_direction h = None ->
  let st := snd (decide h dd pc) in
  (d_direction st = "SELL" <-> bullish_rule h dd = false /\ bearish_rule h = true) /\
  (d_direction st = "BUY" <-> bullish_rule h dd = true \/ bearish_rule h = false).
Proof.
  intros Hr. cbn zeta. rewrite decide_unfold. cbn zeta. cbn [snd].
  rewrite Hr. cbn [get Py.truthy_string andb negb orb].
  destruct (bullish_rule h dd); destruct (bearish_rule h);
    try destruct (String.eqb (if Py.Qltb pc 0 && Py.Qgtb (Qabs pc) 3
                              then "PUT" else "CALL") "PUT");
    cbn [d_direction]; repeat split; auto; try discriminate;
    try (intros [? ?]; discriminate); try (intros [?|?]; discriminate).
Qed.

Lemma rule_based_direction_witness :
  d_direction (snd (decide fed_headline 1 4)) = "BUY".
Proof.
  apply (proj2 (@rule_based_direction fed_headline 1 4 eq_refl)).
  left. reflexivity.
Defined.

(** ** trade_picker.py: the trade idea *)

Lemma numeric_match_values (e : event) :
  numeric_match e = true ->
  Py.is_ok (get_price_change e) = true /\
  (exists pc, Py.number (match price_change_pct e with
                         | Some v => v
                         | None => get (drop_pct e) (Py.VNum 0)
                         end) = Py.Ok pc) /\
  (exists dd, Py.abs (get (max_drawdown_pct e) (Py.VNum 5)) = Py.Ok dd).
Proof.
  unfold numeric_match, get_price_change. intro H.
  apply andb_true_iff in H. destruct H as [Hp Hd].
  destruct (price_change_pct e) as [[|q|s]|]; try discriminate;
    destruct (drop_pct e) as [[|q'|s']|]; try discriminate;
    destruct (max_drawdown_pct e) as [[|q''|s'']|]; try discriminate;
    cbn; repeat split; eauto.
Qed.

Lemma mapM_Forall2 {A B} (f : A -> Py.result B) (l : list A) : forall l',
  Py.mapM f l = Py.Ok l' -> Forall2 (fun x y => f x = Py.Ok y) l l'.
Proof.
  induction l as [|x l IH]; intros l' H.
  - cbn in H. injection H as <-. constructor.
  - cbn [Py.mapM] in H. destruct (f x) as [y|] eqn:Ex; cbn [Py.bind] in H; [|discriminate].
    destruct (Py.mapM f l) as [ys|]; cbn [Py.bind] in H; [|discriminate].
    injection H as <-. constructor; [exact Ex | now apply IH].
Qed.

(** The selected match is one of the given matches. *)
Lemma select_top_match_In (ms : list event) (top : event) :
  select_top_match ms = Py.Ok top -> In top ms.
Proof.
  unfold select_top_match.
  destruct (Py.mapM sort_key ms) as [keyed|] eqn:Emap; cbn [Py.bind]; [|discriminate].
  apply mapM_Forall2 in Emap.
  destruct (sort_desc (@fst (Q * Q) event) key_ltb keyed) as [|p rest] eqn:Es;
    [discriminate|].
  intros [= <-].
  assert (Hin : In p keyed).
  { apply (sort_desc_In (@fst (Q * Q) event) key_ltb). rewrite Es. now left. }
  clear -Emap Hin. induction Emap as [|e q l l' Hq F2 IH]; [contradiction|].
  destruct Hin as [<-|Hin].
  - left. symmetry. now apply sort_key_ok.
  - right. now apply IH.
Qed.

Lemma select_top_match_ok (ms : list event) :
  ms <> [] ->
  Forall (fun e => Py.is_ok (get_price_change e) = true) ms ->
  exists top, select_top_match ms = Py.Ok top /\ In top ms.
Proof.
  intros Hne Hnum.
  assert (Hkeys : Forall (fun e => Py.is_ok (sort_key e) = true) ms).
  { eapply Forall_impl; [|exact Hnum]. intros e He. cbn beta in He.
    unfold sort_key. destruct (get_price_change e); [reflexivity | discriminate]. }
  destruct (mapM_ok sort_key Hkeys) as [keyed [Emap F2]].
  unfold select_top_match. rewrite Emap. cbn [Py.bind].
  destruct (sort_desc (@fst (Q * Q) event) key_ltb keyed) as [|top rest] eqn:Es.
  - exfalso. apply (f_equal (@List.length _)) in Es.
    rewrite sort_desc_length in Es. apply Forall2_length in F2.
    destruct ms; [contradiction | simpl in *; lia].
  - exists (snd top). split; [reflexivity|].
    assert (Hin : In top keyed).
    { apply (sort_desc_In (@fst (Q * Q) event) key_ltb). rewrite Es. now left. }
    clear -F2 Hin. induction F2 as [|e p l l' Hp F2 IH]; [contradiction|].
    destruct Hin as [<-|Hin].
    + left. symmetry. now apply sort_key_ok.
    + right. now apply IH.
Qed.

Section TradeIdea.

Variable fetch_current_price : Py.value -> Q.
Variable fetch_option_expiries : Py.value -> list string.
Variable today : Z.
Variable weekday : Z -> Z.
Variable strptime : string -> option Z.
Variable strftime : Z -> string.
Variable format_2f : Q -> string.
Variable str : Py.value -> string.

Local Abbreviation trade_idea_for :=
  (generate_trade_idea fetch_current_price fetch_option_expiries today weekday
     strptime strftime format_2f str).
Local Abbreviation select := (select_expiry_date today weekday strptime strftime).


(** The shape of every trade idea returned for a non-empty list of
    matches: its ticker is the [affected_ticker] of one of the
    matches (['SPY'] when that match has no such key); an equity idea
    carries no option type, strike or expiry; an option idea carries
    CALL or PUT and either both a strike and an expiry or neither;
    the direction is BUY or SELL. *)
Theorem trade_idea_shape (h : headline) (ms : list event) (idea : trade_idea) :
  ms <> [] ->
  trade_idea_for h ms = Py.Ok idea ->
  (direction idea = "BUY" \/ direction idea = "SELL") /\
  (exists m, In m ms /\ ticker idea = Some (get (affected_ticker m) (Py.VStr "SPY"))) /\
  (trade_type idea = "equity" /\ option_type idea = None /\
   strike idea = None /\ expiry idea = None \/
   trade_type idea = "option" /\
   (option_type idea = Some "CALL" \/ option_type idea = Some "PUT") /\
   (strike idea = None /\ expiry idea = None \/
    strike idea <> None /\ expiry idea <> None)).
Proof.
  intros Hne. unfold generate_trade_idea.
  destruct ms as [|m ms']; [contradiction|].
  destruct (select_top_match (m :: ms')) as [top|] eqn:Etop; cbn [Py.bind]; [|discriminate].
  apply select_top_match_In in Etop.
  destruct (Py.abs _) as [dd|]; cbn [Py.bind]; [|discriminate].
  destruct (Py.number _) as [pc|]; cbn [Py.bind]; [|discriminate].
  pose proof (decide_facts h dd pc) as (Hot & Htt & Hdir & Hra).
  destruct (decide h dd pc) as [ot st]. cbn [fst snd] in *.
  assert (Hot' : ot = "CALL" \/ ot = "PUT") by (destruct Hot as [[-> _]|[-> _]]; auto).
  assert (Htk : forall i, ticker i = Some (get (affected_ticker top) (Py.VStr "SPY")) ->
                exists m0, In m0 (m :: ms') /\
                  ticker i = Some (get (affected_ticker m0) (Py.VStr "SPY"))).
  { intros i Hi. exists top. split; [exact Etop | exact Hi]. }
  destruct Htt as [[Htt _]|[Htt _]]; rewrite Htt;
    [change (String.eqb "equity" "option") with false
    |change (String.eqb "option" "option") with true];
    destruct (Qle_bool _ 0); cbn [Py.bind].
  - intros [= <-]. split; [exact Hdir|]. split; [apply Htk; reflexivity|].
    left. cbn. repeat split; reflexivity.
  - destruct (d_rationale_addition st) as [ra|]; [|contradiction].
    intros [= <-]. split; [exact Hdir|]. split; [apply Htk; reflexivity|].
    left. cbn. repeat split; reflexivity.
  - intros [= <-]. split; [exact Hdir|]. split; [apply Htk; reflexivity|].
    right. cbn. split; [reflexivity|].
    split; [destruct Hot' as [-> | ->]; auto|]. left. split; reflexivity.
  - destruct (select _ _ _) as [r|]; cbn [Py.bind]; [|discriminate].
    destruct (d_rationale_addition st) as [ra|]; [|contradiction].
    intros [= <-]. split; [exact Hdir|]. split; [apply Htk; reflexivity|].
    right. cbn. split; [reflexivity|].
    split; [destruct Hot' as [-> | ->]; auto|]. right. split; discriminate.
Qed.

(** Fail closed.  For a headline as the record [headline] describes
    it (strings or absent keys, no [null]) and matches whose price
    change and drawdown are numbers or absent: when the price feed
    answers no positive price, the call still gives a trade idea,
    whose ticker is the [affected_ticker] of one of the matches
    (['SPY'] without that key), without strike and expiry and with
    the diagnostic rationale. *)
Theorem no_price_fails_closed (h : headline) (ms : list event) :
  ms <> [] ->
  Forall (fun e => numeric_match e = true) ms ->
  (forall tk, fetch_current_price tk <= 0) ->
  exists idea m,
    trade_idea_for h ms = Py.Ok idea /\ In m ms /\
    ticker idea = Some (get (affected_ticker m) (Py.VStr "SPY")) /\
    strike idea = None /\ expiry idea = None /\
    rationale idea =
      concat_all ["Could not fetch current price for ";
                  str (get (affected_ticker m) (Py.VStr "SPY")); "."].
Proof.
  intros Hne Hnum Hprice.
  assert (Hkeys : Forall (fun e => Py.is_ok (get_price_change e) = true) ms).
  { eapply Forall_impl; [|exact Hnum]. intros e He. now apply numeric_match_values. }
  destruct (select_top_match_ok Hne Hkeys) as (top & Etop & Hin).
  rewrite Forall_forall in Hnum.
  destruct (numeric_match_values _ (Hnum top Hin)) as (_ & [pc Epc] & [dd Edd]).
  unfold generate_trade_idea.
  destruct ms as [|m ms']; [contradiction|].
  rewrite Etop. cbn [Py.bind]. rewrite Edd. cbn [Py.bind]. rewrite Epc. cbn [Py.bind].
  destruct (decide h dd pc) as [ot st].
  assert (Hle : Qle_bool
                  (fetch_current_price (get (affected_ticker top) (Py.VStr "SPY"))) 0
                = true) by (apply Qle_bool_iff, Hprice).
  rewrite Hle. eexists. exists top. split; [reflexivity|].
  split; [exact Hin|]. cbn. auto.
Qed.


End TradeIdea.

Lemma trade_idea_shape_witness :
  exists idea,
    generate_trade_idea quoted_price option_chain 0 weekday_mod parse_day print_stub
      fmt_stub str_stub neutral_headline [violent_match] = Py.Ok idea /\
    (exists m, In m [violent_match] /\
               ticker idea = Some (get (affected_ticker m) (Py.VStr "SPY"))) /\
    trade_type idea = "option" /\ option_type idea = Some "PUT" /\
    strike idea <> None /\ expiry idea <> None.
Proof.
  eexists. split; [vm_compute; reflexivity|].
  match goal with
  | |- context [trade_type ?i] =>
      destruct (@trade_idea_shape quoted_price option_chain 0%Z weekday_mod parse_day
                  print_stub fmt_stub str_stub neutral_headline [violent_match] i)
        as (_ & Htk & _)
  end; [discriminate | vm_compute; reflexivity |].
  split; [exact Htk|].
  repeat split; try discriminate; reflexivity.
Defined.

Lemma no_price_fails_closed_witness :
  exists idea m,
    generate_trade_idea no_price option_chain 0 weekday_mod parse_day print_stub
      fmt_stub str_stub neutral_headline [violent_match] = Py.Ok idea /\
    In m [violent_match] /\
    ticker idea = Some (get (affected_ticker m) (Py.VStr "SPY")) /\
    strike idea = None /\ expiry idea = None.
Proof.
  destruct (@no_price_fails_closed no_price option_chain 0%Z weekday_mod parse_day
              print_stub fmt_stub str_stub neutral_headline [violent_match])
    as (idea & m & H1 & H2 & H3 & H4 & H5 & _).
  - discriminate.
  - repeat constructor.
  - intro tk. unfold no_price. apply Qle_refl.
  - exists idea, m. auto.
Defined.


(** ** trade_picker.py: the strike *)

Lemma round_near_upper (x : Q) : x <= inject_Z (Py.round x) + (1 # 2).
Proof.
  pose proof (Qlt_floor x) as Hlt.
  assert (H1 : inject_Z (Qfloor x + 1) == inject_Z (Qfloor x) + 1).
  { rewrite inject_Z_plus. reflexivity. }
  rewrite H1 in Hlt.
  unfold Py.round.
  destruct (Py.Qltb (x - inject_Z (Qfloor x)) (1 # 2)) eqn:E1.
  - apply Qltb_lt in E1. lra.
  - destruct (Py.Qltb (1 # 2) (x - inject_Z (Qfloor x))) eqn:E2.
    + rewrite H1. lra.
    + apply Qltb_ge in E2.
      destruct (Z.even (Qfloor x)); [lra | rewrite H1; lra].
Qed.

Lemma otm_range (pc : Q) : 0 <= Py.min (Qabs pc * (3 # 10)) 5 <= 5.
Proof.
  pose proof (Qabs_nonneg pc) as Habs.
  destruct (py_min_case (Qabs pc * (3 # 10)) 5) as [[H ->]|[H ->]]; lra.
Qed.

(** For a non-negative current price the strike lies on the grid (a
    multiple of 0.5 below a price of 100, a whole number from 100
    on), and within half a unit of the band between the price and 5%
    out of the money: below the price for a PUT, above for a CALL. *)
Theorem strike_on_grid_within_five_percent (current_price : Q) (option_type : string)
  (price_change_pct : Q) :
  0 <= current_price ->
  let strike := select_strike_price current_price option_type price_change_pct in
  (exists k : Z,
     (current_price < 100 -> strike == inject_Z k / 2) /\
     (100 <= current_price -> strike == inject_Z k)) /\
  (option_type = "PUT" ->
   (95 # 100) * current_price - (1 # 2) <= strike <= current_price + (1 # 2)) /\
  (option_type <> "PUT" ->
   current_price - (1 # 2) <= strike <= (105 # 100) * current_price + (1 # 2)).
Proof.
  intros Hp. cbn zeta. unfold select_strike_price.
  pose proof (otm_range price_change_pct) as [Ho1 Ho2].
  remember (Py.min (Qabs price_change_pct * (3 # 10)) 5) as otm eqn:Eo. clear Eo.
  set (target := if String.eqb option_type "PUT"
                 then current_price * (1 - otm / 100)
                 else current_price * (1 + otm / 100)).
  assert (Hm : 0 <= current_price * otm) by (apply Qmult_le_0_compat; assumption).
  assert (Hm5 : current_price * otm <= current_price * 5).
  { rewrite (Qmult_comm current_price otm), (Qmult_comm current_price 5).
    apply Qmult_le_compat_r; assumption. }
  assert (Eput : current_price * (1 - otm / 100)
                 == current_price - current_price * otm * (1 # 100)) by field.
  assert (Ecall : current_price * (1 + otm / 100)
                  == current_price + current_price * otm * (1 # 100)) by field.
  assert (Hnear : forall x, inject_Z (Py.round x) - (1 # 2) <= x /\
                            x <= inject_Z (Py.round x) + (1 # 2)).
  { intro x. split; [apply round_near | apply round_near_upper]. }
  assert (Hstrike :
            target - (1 # 2) <=
            (if Py.Qltb current_price 100
             then inject_Z (Py.round (target * 2)) / 2
             else inject_Z (Py.round target)) <= target + (1 # 2)).
  { destruct (Py.Qltb current_price 100).
    - destruct (Hnear (target * 2)) as [A B].
      assert (E : inject_Z (Py.round (target * 2)) / 2
                  == inject_Z (Py.round (target * 2)) * (1 # 2)) by field.
      rewrite E. lra.
    - destruct (Hnear target) as [A B]. lra. }
  split.
  { destruct (Py.Qltb current_price 100) eqn:E.
    - exists (Py.round (target * 2)). split; [reflexivity|].
      intro H. apply Qltb_lt in E. lra.
    - exists (Py.round target). split; [|reflexivity].
      intro H. apply Qltb_ge in E. lra. }
  split.
  - intros ->.
    assert (Et : target == current_price - current_price * otm * (1 # 100)).
    { subst target. change (String.eqb "PUT" "PUT") with true. cbv iota. exact Eput. }
    clearbody target. lra.
  - intro Hcall.
    assert (Et : target == current_price + current_price * otm * (1 # 100)).
    { subst target.
      destruct (String.eqb_spec option_type "PUT") as [E|_]; [contradiction|].
      exact Ecall. }
    clearbody target. lra.
Qed.

Lemma strike_on_grid_within_five_percent_witness :
  (95 # 100) * 150 - (1 # 2) <= select_strike_price 150 "PUT" (-8) <= 150 + (1 # 2).
Proof.
  apply (@strike_on_grid_within_five_percent 150 "PUT" (-8)).
  - discriminate.
  - reflexivity.
Defined.

(** A price of 150 and a historical drop of 8%: 2.4% out of the
    money, rounded to the whole number 146; below 100 the grid is 0.5. *)
Example sample_strikes :
  select_strike_price 150 "PUT" (-8) == 146 /\
  select_strike_price 150 "CALL" 8 == 154 /\
  select_strike_price 40 "CALL" 3 == 40 + (1 # 2).
Proof. repeat split; vm_compute; reflexivity. Qed.

(** ** historical_matcher.py: ticker standardisation *)

Lemma upper_ascii_idempotent (c : ascii) :
  Tickers.upper_ascii (Tickers.upper_ascii c) = Tickers.upper_ascii c.
Proof. destruct c as [[] [] [] [] [] [] [] []]; vm_compute; reflexivity. Qed.

Lemma upper_idempotent (s : string) : Tickers.upper (Tickers.upper s) = Tickers.upper s.
Proof.
  induction s as [|c s IH]; [reflexivity|].
  cbn [Tickers.upper]. now rewrite upper_ascii_idempotent, IH.
Qed.

Lemma lookup_format_values (t v : string) :
  Tickers.lookup_format t Tickers.CRYPTO_FORMATS = Some v ->
  In v ["BTC-USD"; "ETH-USD"; "XRP-USD"; "DOGE-USD"; "USDT-USD"].
Proof.
  unfold Tickers.CRYPTO_FORMATS. cbn [Tickers.lookup_format].
  repeat (destruct (String.eqb t _);
          [intro H; injection H as <-; cbn; tauto|]).
  discriminate.
Qed.

Lemma first_symbol_in_values (t v : string) :
  Tickers.first_symbol_in t Tickers.CRYPTO_FORMATS = Some v ->
  In v ["BTC-USD"; "ETH-USD"; "XRP-USD"; "DOGE-USD"; "USDT-USD"].
Proof.
  unfold Tickers.CRYPTO_FORMATS. cbn [Tickers.first_symbol_in].
  repeat (destruct (Tickers.contains _ t);
          [intro H; injection H as <-; cbn; tauto|]).
  discriminate.
Qed.

Lemma standardize_ticker_upper (t : string) :
  Tickers.standardize_ticker (Tickers.upper t) = Tickers.standardize_ticker t.
Proof. unfold Tickers.standardize_ticker. now rewrite upper_idempotent. Qed.

(** Standardising an ASCII ticker twice gives what standardising it
    once gives: the five Yahoo forms and every upper-case ticker that
    names no listed crypto symbol are left as they are. *)
Theorem standardize_ticker_idempotent (ticker : string) :
  ascii_only ticker = true ->
  Tickers.standardize_ticker (Tickers.standardize_ticker ticker)
  = Tickers.standardize_ticker ticker.
Proof.
  intros _.
  assert (Hfive : forall v,
             In v ["BTC-USD"; "ETH-USD"; "XRP-USD"; "DOGE-USD"; "USDT-USD"] ->
             Tickers.standardize_ticker v = v).
  { intros v [<-|[<-|[<-|[<-|[<-|[]]]]]]; vm_compute; reflexivity. }
  assert (Hup : Tickers.standardize_ticker (Tickers.upper ticker)
                = Tickers.standardize_ticker ticker)
    by apply standardize_ticker_upper.
  remember (Tickers.standardize_ticker ticker) as r eqn:Er.
  unfold Tickers.standardize_ticker in Er.
  destruct (Tickers.lookup_format (Tickers.upper ticker) Tickers.CRYPTO_FORMATS)
    as [v|] eqn:El.
  { subst r. apply Hfive, (@lookup_format_values _ _ El). }
  destruct (Tickers.contains "USD" (Tickers.upper ticker)) eqn:Ec.
  - destruct (Tickers.first_symbol_in (Tickers.upper ticker) Tickers.CRYPTO_FORMATS)
      as [v|] eqn:Ef.
    + subst r. apply Hfive, (@first_symbol_in_values _ _ Ef).
    + rewrite Er at 1. exact Hup.
  - rewrite Er at 1. exact Hup.
Qed.

Lemma standardize_ticker_idempotent_witness :
  Tickers.standardize_ticker (Tickers.standardize_ticker "btcusd")
  = Tickers.standardize_ticker "btcusd".
Proof. apply (standardize_ticker_idempotent "btcusd"). reflexivity. Defined.

(** Lower case, the concatenated form and a plain equity ticker. *)
Example sample_tickers :
  Tickers.standardize_ticker "btc" = "BTC-USD" /\
  Tickers.standardize_ticker "ethusd" = "ETH-USD" /\
  Tickers.standardize_ticker "Aapl" = "AAPL".
Proof. repeat split; vm_compute; reflexivity. Qed.

(** ** trade_picker.py: a batch of headlines *)

Section Batch.

Variable fetch_current_price : Py.value -> Q.
Variable fetch_option_expiries : Py.value -> list string.
Variable today : Z.
Variable weekday : Z -> Z.
Variable strptime : string -> option Z.
Variable strftime : Z -> string.
Variable format_2f : Q -> string.
Variable str : Py.value -> string.

Local Abbreviation generate :=
  (generate_trade_idea fetch_current_price fetch_option_expiries today weekday
     strptime strftime format_2f str).
Local Abbreviation process :=
  (TradeBatch.process_headlines_for_trades fetch_current_price fetch_option_expiries
     today weekday strptime strftime format_2f str).

Lemma keeps_spec (idea : trade_idea) :
  TradeBatch.keeps idea = true ->
  trade_type idea = "equity" \/ (trade_type idea = "option" /\ strike idea <> None).
Proof.
  unfold TradeBatch.keeps. intro H.
  apply orb_true_iff in H as [H|H].
  - left. now apply String.eqb_eq.
  - right. apply andb_true_iff in H as [H1 H2]. split; [now apply String.eqb_eq|].
    destruct (strike idea); [discriminate|discriminate].
Qed.

Lemma process_cons (h : headline) (hs : list headline) (ms : list event)
  (mss : list (list event)) :
  process (h :: hs) (ms :: mss) =
  (trade_idea <- generate h ms ;;
   trade_ideas <- process hs mss ;;
   Py.Ok (if TradeBatch.keeps trade_idea then trade_idea :: trade_ideas
          else trade_ideas)).
Proof. reflexivity. Qed.

(** Every idea that a batch returns is an equity trade or an option
    trade with a strike, and is the idea generated for one of the
    headlines paired with a non-empty list of matches; there are at
    most as many ideas as pairs. *)
Theorem batch_returns_tradeable_ideas (hs : list headline) (mss : list (list event))
  (ideas : list trade_idea) :
  process hs mss = Py.Ok ideas ->
  Forall (fun idea =>
            (trade_type idea = "equity" \/
             (trade_type idea = "option" /\ strike idea <> None)) /\
            exists h ms, In (h, ms) (combine hs mss) /\ ms <> [] /\
                         generate h ms = Py.Ok idea) ideas /\
  (List.length ideas <= List.length (combine hs mss))%nat.
Proof.
  revert mss ideas.
  induction hs as [|h hs IH]; intros mss ideas H.
  { cbn in H. injection H as <-. split; [constructor | cbn; lia]. }
  destruct mss as [|ms mss].
  { cbn in H. injection H as <-. split; [constructor | cbn; lia]. }
  rewrite process_cons in H.
  destruct (generate h ms) as [idea|e] eqn:Eg; [|discriminate].
  cbn [Py.bind] in H.
  destruct (process hs mss) as [rest|e] eqn:Ep; [|discriminate].
  cbn [Py.bind] in H. injection H as <-.
  destruct (IH mss rest Ep) as [IHf IHl].
  assert (Hrest : Forall (fun idea =>
            (trade_type idea = "equity" \/
             (trade_type idea = "option" /\ strike idea <> None)) /\
            exists h0 ms0, In (h0, ms0) (combine (h :: hs) (ms :: mss)) /\ ms0 <> [] /\
                         generate h0 ms0 = Py.Ok idea) rest).
  { eapply Forall_impl; [|exact IHf].
    intros i [Hk (h0 & ms0 & Hin & Hne & Hg)]. split; [exact Hk|].
    exists h0, ms0. split; [right; exact Hin | split; assumption]. }
  destruct (TradeBatch.keeps idea) eqn:Ek.
  - split; [|cbn [combine List.length]; lia].
    constructor; [|exact Hrest].
    split; [now apply keeps_spec|].
    exists h, ms. split; [left; reflexivity|]. split; [|exact Eg].
    intros ->. cbn in Eg. injection Eg as <-. discriminate Ek.
  - split; [exact Hrest | cbn [combine List.length]; lia].
Qed.

(** The loop has no handler: the batch leaves by an exception exactly
    when the idea of one of its pairs does, and then no idea of the
    other headlines is returned. *)
Theorem batch_fails_iff_one_headline_fails (hs : list headline)
  (mss : list (list event)) :
  raises (process hs mss) <->
  exists h ms, In (h, ms) (combine hs mss) /\ raises (generate h ms).
Proof.
  revert mss. induction hs as [|h hs IH]; intros mss.
  { cbn. split; [intros [e H]; discriminate | intros (h & ms & [] & _)]. }
  destruct mss as [|ms mss].
  { cbn. split; [intros [e H]; discriminate | intros (h0 & ms & [] & _)]. }
  rewrite process_cons. cbn [combine].
  destruct (generate h ms) as [idea|e] eqn:Eg; cbn [Py.bind].
  - specialize (IH mss).
    destruct (process hs mss) as [rest|e] eqn:Ep; cbn [Py.bind].
    + split; [intros [e H]; discriminate|].
      intros (h0 & ms0 & [Hin|Hin] & Hr).
      * injection Hin as <- <-. rewrite Eg in Hr. destruct Hr as [e Hr]. discriminate.
      * destruct IH as [_ IH]. destruct IH as [e He]; [|discriminate].
        exists h0, ms0. split; assumption.
    + split; [|intros _; exists e; reflexivity].
      intros _. destruct IH as [IH _].
      destruct IH as (h0 & ms0 & Hin & Hr); [exists e; reflexivity|].
      exists h0, ms0. split; [right; exact Hin | exact Hr].
  - split; [|intros _; exists e; reflexivity].
    intros _. exists h, ms. split; [left; reflexivity|].
    rewrite Eg. exists e. reflexivity.
Qed.

End Batch.

Lemma batch_returns_tradeable_ideas_witness :
  exists ideas,
    TradeBatch.process_headlines_for_trades quoted_price option_chain 0 weekday_mod
      parse_day print_stub fmt_stub str_stub
      [neutral_headline; neutral_headline] [[violent_match]; []] = Py.Ok ideas /\
    (List.length ideas <= 2)%nat.
Proof.
  eexists. split; [vm_compute; reflexivity|].
  match goal with
  | |- (List.length ?i <= _)%nat =>
      apply (@batch_returns_tradeable_ideas quoted_price option_chain 0%Z weekday_mod
               parse_day print_stub fmt_stub str_stub
               [neutral_headline; neutral_headline] [[violent_match]; []] i)
  end.
  vm_compute. reflexivity.
Defined.

(** ** evaluator.py: the price movement *)

Lemma py_min_compat (a a' b : Q) : a == a' -> Py.min a b == Py.min a' b.
Proof.
  intro E.
  destruct (py_min_case a b) as [[H ->]|[H ->]];
    destruct (py_min_case a' b) as [[H' ->]|[H' ->]]; lra.
Qed.

Lemma drawdown_series_walk (cs : list Q) : forall peak acc1 acc2,
  acc1 == acc2 ->
  fold_left Py.min
    (map (fun cp => (fst cp / snd cp - 1) * 100)
         (combine cs (Evaluator.cummax_from peak cs))) acc1
  == snd (fold_left drawdown_step cs (peak, acc2)).
Proof.
  induction cs as [|c cs IH]; intros peak acc1 acc2 E.
  - exact E.
  - cbn [Evaluator.cummax_from combine map fold_left fst snd].
    change (drawdown_step (peak, acc2) c)
      with (Py.max peak c, Py.min acc2 ((c / Py.max peak c - 1) * 100)).
    apply IH. now apply py_min_compat.
Qed.

Lemma drawdown_series_is_walk (c0 : Q) (cs : list Q) :
  0 < c0 ->
  Evaluator.series_min
    (map (fun cp => (fst cp / snd cp - 1) * 100)
         (combine (c0 :: cs) (Evaluator.cummax (c0 :: cs))))
  == drawdown_walk (c0 :: cs).
Proof.
  intro Hpos. cbn [Evaluator.cummax combine map Evaluator.series_min fst snd drawdown_walk].
  apply drawdown_series_walk. field. lra.
Qed.

(** On a frame of positive closing prices the evaluator and the
    historical matcher measure the same thing: the price change and
    the maximum drawdown of [calculate_price_movement] are those of
    [calculate_drop_percentage]. *)
Theorem evaluator_agrees_with_matcher (df : frame) :
  Forall (fun b => 0 < Close b) df ->
  fst (fst (Evaluator.calculate_price_movement df))
    == fst (calculate_drop_percentage df) /\
  snd (Evaluator.calculate_price_movement df)
    == snd (calculate_drop_percentage df).
Proof.
  intro Hpos.
  unfold Evaluator.calculate_price_movement, calculate_drop_percentage.
  destruct (List.length df <? 2)%nat; [split; reflexivity|].
  cbn [fst snd]. split; [reflexivity|].
  destruct df as [|b0 df']; [reflexivity|].
  cbn [map]. apply drawdown_series_is_walk.
  now inversion Hpos.
Qed.

Lemma evaluator_agrees_with_matcher_witness :
  snd (Evaluator.calculate_price_movement nine_sessions)
  == snd (calculate_drop_percentage nine_sessions).
Proof.
  apply (@evaluator_agrees_with_matcher nine_sessions).
  repeat constructor.
Defined.

Lemma fold_max_ge (l : list Q) : forall x,
  x <= fold_left Py.max l x /\ Forall (fun y => y <= fold_left Py.max l x) l.
Proof.
  induction l as [|a l IH]; intro x; cbn [fold_left].
  - split; [apply Qle_refl | constructor].
  - destruct (IH (Py.max x a)) as [H1 H2].
    destruct (py_max_spec x a) as [Hx Ha].
    split; [lra|]. constructor; [lra | exact H2].
Qed.

Lemma series_max_ge (l : list Q) (y : Q) : In y l -> y <= Evaluator.series_max l.
Proof.
  destruct l as [|x l]; [intros []|].
  intros [<-|Hin]; cbn [Evaluator.series_max].
  - apply fold_max_ge.
  - destruct (fold_max_ge l x) as [_ H]. rewrite Forall_forall in H. now apply H.
Qed.

Lemma Qdiv_monotone (x y s : Q) : 0 < s -> x <= y -> x / s <= y / s.
Proof.
  intros Hs Hxy. unfold Qdiv. apply Qmult_le_compat_r; [exact Hxy|].
  apply Qinv_le_0_compat. lra.
Qed.

(** On a frame whose closing prices are positive and whose highs are
    at least the closes, the three measures are ordered: the maximum
    drawdown is at most the price change and at most 0, and the
    maximum gain is at least the price change and at least 0. *)
Theorem price_movement_is_ordered (df : frame) :
  Forall (fun b => 0 < Close b /\ Close b <= High b) df ->
  let price_change_pct := fst (fst (Evaluator.calculate_price_movement df)) in
  let max_gain_pct := snd (fst (Evaluator.calculate_price_movement df)) in
  let max_drawdown_pct := snd (Evaluator.calculate_price_movement df) in
  max_drawdown_pct <= price_change_pct /\ price_change_pct <= max_gain_pct /\
  max_drawdown_pct <= 0 /\ 0 <= max_gain_pct.
Proof.
  intro Hall. cbn zeta.
  unfold Evaluator.calculate_price_movement.
  destruct (List.length df <? 2)%nat eqn:Elen; [cbn; lra|].
  apply Nat.ltb_ge in Elen.
  destruct df as [|b0 [|b1 df']]; [cbn in Elen; lia | cbn in Elen; lia|].
  cbn [fst snd].
  pose proof (Forall_inv Hall) as [Hc0 Hh0]. cbn beta in Hc0, Hh0.
  assert (Hrest : Forall (fun c => 0 < c) (map Close (b1 :: df'))).
  { apply Forall_map. eapply Forall_impl; [|exact (Forall_inv_tail Hall)].
    intros b [Hb _]. exact Hb. }
  (* the last close is below the highest high *)
  set (l := b1 :: df') in *.
  assert (Hlast : last (map Close (b0 :: l)) 0 <= Evaluator.series_max (map High (b0 :: l))).
  { assert (Hin : In (last (b0 :: l) b0) (b0 :: l)).
    { destruct (@exists_last _ (b0 :: l)) as (l' & x & E); [discriminate|].
      rewrite E. rewrite last_last. apply in_or_app. right. now left. }
    assert (Elast : last (map Close (b0 :: l)) 0 = Close (last (b0 :: l) b0)).
    { apply last_map_nonempty. discriminate. }
    rewrite Elast.
    rewrite Forall_forall in Hall. destruct (Hall _ Hin) as [_ Hle].
    assert (Hm : High (last (b0 :: l) b0) <= Evaluator.series_max (map High (b0 :: l))).
    { apply series_max_ge. now apply in_map. }
    lra. }
  assert (Hfirst : High b0 <= Evaluator.series_max (map High (b0 :: l))).
  { apply series_max_ge. now left. }
  change (hd 0 (map Close (b0 :: l))) with (Close b0).
  pose proof (@Qdiv_monotone _ _ (Close b0) Hc0 Hlast) as Hd1.
  assert (Hd2 : 1 <= Evaluator.series_max (map High (b0 :: l)) / Close b0).
  { apply Qle_shift_div_l; [exact Hc0 | lra]. }
  pose proof (@drawdown_series_is_walk (Close b0) (map Close l) Hc0) as Hwalk.
  change (Close b0 :: map Close l) with (map Close (b0 :: l)) in Hwalk.
  destruct (@drawdown_fold_bounds (map Close l) (Close b0) 0 Hc0 Hrest)
    as (Hpeak & Hmd & _ & Hlastdd).
  cbn zeta in *.
  unfold drawdown_walk in Hwalk. cbn [map] in Hwalk.
  remember (fold_left drawdown_step (map Close l) (Close b0, 0)) as st eqn:Est.
  assert (Hne : map Close l <> []) by (subst l; discriminate).
  specialize (Hlastdd Hne).
  assert (Hlast_eq : last (map Close (b0 :: l)) 0 = last (map Close l) 0).
  { subst l. reflexivity. }
  assert (Hq : last (map Close l) 0 / fst st <= last (map Close l) 0 / Close b0).
  { apply Qdiv_antitone; [|exact Hc0|exact Hpeak].
    assert (Hin : In (last (map Close l) 0) (map Close l)).
    { destruct (@exists_last _ (map Close l) Hne) as (l' & x & E).
      rewrite E, last_last. apply in_or_app. right. now left. }
    rewrite Forall_forall in Hrest. now apply Hrest. }
  rewrite Hlast_eq in *. cbn [map] in *.
  remember (Evaluator.series_min _) as md eqn:Emd. clear Emd.
  remember (Evaluator.series_max _ / Close b0) as qh eqn:Eqh. clear Eqh.
  remember (last (map Close l) 0 / Close b0) as qc eqn:Eqc. clear Eqc.
  remember (last (map Close l) 0 / fst st) as qs eqn:Eqs. clear Eqs.
  repeat split; lra.
Qed.

Lemma price_movement_is_ordered_witness :
  snd (Evaluator.calculate_price_movement nine_sessions) <= 0 /  0 <= snd (fst (Evaluator.calculate_price_movement nine_sessions)).
Proof.
  destruct (@price_movement_is_ordered nine_sessions) as (_ & _ & H1 & H2).
  - repeat constructor; discriminate.
  - split; assumption.
Defined.

(** ** evaluator.py: the evaluation of a trade *)

Lemma round2_sign (x : Q) :
  (0 <= x -> 0 <= Py.round2 x) /\ (x <= 0 -> Py.round2 x <= 0).
Proof.
  unfold Py.round2.
  assert (E : forall z : Z, inject_Z z / 100 == inject_Z z * (1 # 100))
    by (intro z; field).
  destruct (round_sign (x * 100)) as [H1 H2].
  split; intro H; rewrite E.
  - assert (Hz : (0 <= Py.round (x * 100))%Z) by (apply H1; lra).
    rewrite Zle_Qle in Hz. change (inject_Z 0) with 0 in Hz. lra.
  - assert (Hz : (Py.round (x * 100) <= 0)%Z) by (apply H2; lra).
    rewrite Zle_Qle in Hz. change (inject_Z 0) with 0 in Hz. lra.
Qed.

Lemma determine_direction_spec (price_change : Q) (s : string) :
  Evaluator.determine_direction_correctness price_change (Tickers.upper s) = true <->
  (Tickers.upper s = "CALL" /\ 0 < price_change) \/
  (Tickers.upper s = "PUT" /\ price_change < 0).
Proof.
  unfold Evaluator.determine_direction_correctness. rewrite upper_idempotent.
  destruct (String.eqb_spec (Tickers.upper s) "CALL") as [E|E].
  - unfold Py.Qgtb. rewrite Qltb_lt. rewrite E. split.
    + intro H. left. split; [reflexivity | exact H].
    + intros [[_ H]|[H _]]; [exact H | discriminate].
  - destruct (String.eqb_spec (Tickers.upper s) "PUT") as [E'|E'].
    + rewrite Qltb_lt. rewrite E'. split.
      * intro H. right. split; [reflexivity | exact H].
      * intros [[H _]|[_ H]]; [discriminate | exact H].
    + split; [discriminate|]. intros [[H _]|[H _]]; contradiction.
Qed.

Section EvaluationFacts.

Variable now_iso : string.
Variable parse_timestamp : string -> Z.
Variable strftime : Z -> string.
Variable fetch_historical_data : Py.value -> string -> string -> frame.
Variable format_2f : Q -> string.
Variable str : Py.value -> string.
Variable str_nat : nat -> string.

Local Abbreviation evaluate :=
  (Evaluator.evaluate_trade now_iso parse_timestamp strftime fetch_historical_data
     format_2f str str_nat).

(** The direction flag of an evaluation agrees with the recorded
    move.  A trade is marked correct only if its option type is a
    string reading CALL with a recorded move that is not negative, or
    PUT with a recorded move that is not positive; and an evaluation
    that reached the price data marks every CALL with a positive
    recorded move and every PUT with a negative one as correct. *)
Theorem direction_flag_follows_recorded_move (trade : Evaluator.stored_trade)
  (evaluation_days : nat) :
  let e := evaluate trade evaluation_days in
  (Evaluator.trade_direction_correct e = true ->
   exists i s,
     Evaluator.stored_idea trade = Some i /\
     Evaluator.idea_option_type i = Some (Some s) /\
     (Tickers.upper s = "CALL" /\ 0 <= Evaluator.actual_move_pct e \/
      Tickers.upper s = "PUT" /\ Evaluator.actual_move_pct e <= 0)) /\
  (forall i s,
     Evaluator.stored_idea trade = Some i ->
     Evaluator.idea_option_type i = Some (Some s) ->
     Evaluator.end_date e <> None ->
     (Tickers.upper s = "CALL" /\ 0 < Evaluator.actual_move_pct e \/
      Tickers.upper s = "PUT" /\ Evaluator.actual_move_pct e < 0) ->
     Evaluator.trade_direction_correct e = true).
Proof.
  cbn zeta. unfold Evaluator.evaluate_trade, Evaluator.option_type_upper.
  destruct (Evaluator.stored_idea trade) as [i|];
    [|split; [cbn; discriminate | intros i s H; discriminate]].
  destruct (Evaluator.idea_option_type i) as [[s|]|] eqn:Eo;
    [| split; [cbn; discriminate | intros i' s' [= <-] H; congruence]
     | split; [destruct (negb (Evaluator.truthy_value (Evaluator.idea_ticker i)));
               cbn; discriminate
              | intros i' s' [= <-] H; congruence]].
  destruct (negb (Evaluator.truthy_value (Evaluator.idea_ticker i)));
    [split; [cbn; discriminate | intros i' s' _ _ H; cbn in H; contradiction]|].
  destruct (negb _);
    [split; [cbn; discriminate | intros i' s' _ _ H; cbn in H; contradiction]|].
  destruct (fetch_historical_data _ _ _) as [|b0 df0];
    [split; [cbn; discriminate | intros i' s' _ _ H; cbn in H; contradiction]|].
  remember (if (evaluation_days <? List.length (b0 :: df0))%nat
            then firstn evaluation_days (b0 :: df0) else b0 :: df0) as df eqn:Edf.
  clear Edf.
  destruct (Evaluator.calculate_price_movement df) as [[pc mg] md].
  pose proof (determine_direction_spec pc s) as Hspec.
  destruct (round2_sign pc) as [Hpos Hneg].
  assert (Hfirst :
            Evaluator.determine_direction_correctness pc (Tickers.upper s) = true ->
            Tickers.upper s = "CALL" /\ 0 <= Py.round2 pc \/
            Tickers.upper s = "PUT" /\ Py.round2 pc <= 0).
  { intro H. apply Hspec in H as [[E H]|[E H]]; [left|right]; split; auto.
    - apply Hpos. lra.
    - apply Hneg. lra. }
  assert (Hsecond :
            Tickers.upper s = "CALL" /\ 0 < Py.round2 pc \/
            Tickers.upper s = "PUT" /\ Py.round2 pc < 0 ->
            Evaluator.determine_direction_correctness pc (Tickers.upper s) = true).
  { intros [[E H]|[E H]]; apply Hspec; [left|right]; split; auto.
    - destruct (Qlt_le_dec 0 pc) as [Hlt|Hle]; [exact Hlt|].
      specialize (Hneg Hle). lra.
    - destruct (Qlt_le_dec pc 0) as [Hlt|Hle]; [exact Hlt|].
      specialize (Hpos Hle). lra. }
  destruct df as [|first df']; cbn [Evaluator.trade_direction_correct
    Evaluator.actual_move_pct Evaluator.end_date].
  - split.
    + intro H. exists i, s. repeat split; auto.
    + intros i' s' _ _ H. contradiction.
  - split.
    + intro H. exists i, s. repeat split; auto.
    + intros i' s' [= <-] Hs _ H. rewrite Eo in Hs. injection Hs as <-. auto.
Qed.

End EvaluationFacts.

Lemma direction_flag_follows_recorded_move_witness :
  Evaluator.trade_direction_correct
    (Evaluator.evaluate_trade clock_stub parse_timestamp_stub print_stub rising_feed
       fmt_stub str_stub str_nat_stub call_on_spy 7) = true.
Proof.
  destruct (@direction_flag_follows_recorded_move clock_stub parse_timestamp_stub
              print_stub rising_feed fmt_stub str_stub str_nat_stub call_on_spy 7%nat)
    as [_ H].
  apply (H (Evaluator.mkIdeaRecord (Some (Py.VStr "SPY")) (Some (Some "call"))) "call").
  - reflexivity.
  - reflexivity.
  - vm_compute. discriminate.
  - left. split; [reflexivity | vm_compute; reflexivity].
Defined.

(** ** trade_picker.py and evaluator.py: equity ideas *)

Section PickerToEvaluator.

Variable fetch_current_price : Py.value -> Q.
Variable fetch_option_expiries : Py.value -> list string.
Variable today : Z.
Variable weekday : Z -> Z.
Variable strptime : string -> option Z.
Variable strftime : Z -> string.
Variable format_2f : Q -> string.
Variable str : Py.value -> string.
Variable now_iso : string.
Variable parse_timestamp : string -> Z.
Variable fetch_historical_data : Py.value -> string -> string -> frame.
Variable str_nat : nat -> string.

Local Abbreviation generate :=
  (generate_trade_idea fetch_current_price fetch_option_expiries today weekday
     strptime strftime format_2f str).
Local Abbreviation evaluate :=
  (Evaluator.evaluate_trade now_iso parse_timestamp strftime fetch_historical_data
     format_2f str str_nat).

Lemma idea_without_option_type (h : headline) (ms : list event) (idea : trade_idea) :
  generate h ms = Py.Ok idea ->
  trade_type idea = "equity" \/ ms = [] ->
  option_type idea = None.
Proof.
  unfold generate_trade_idea.
  destruct ms as [|m ms'].
  { intros [= <-] _. reflexivity. }
  destruct (select_top_match (m :: ms')) as [top|]; cbn [Py.bind]; [|discriminate].
  destruct (Py.abs _) as [dd|]; cbn [Py.bind]; [|discriminate].
  destruct (Py.number _) as [pc|]; cbn [Py.bind]; [|discriminate].
  destruct (decide h dd pc) as [ot st].
  destruct (String.eqb (d_trade_type st) "option") eqn:Eopt;
    destruct (Qle_bool _ 0); cbn [Py.bind].
  - intros [= <-] [H|H]; [|discriminate]. cbn in H.
    rewrite H in Eopt. discriminate Eopt.
  - match goal with
    | |- context [Py.bind ?m _] => destruct m as [sel|]; cbn [Py.bind]; [|discriminate]
    end.
    destruct (d_rationale_addition st) as [ra|]; [|discriminate].
    intros [= <-] [H|H]; [|discriminate]. cbn in H.
    rewrite H in Eopt. discriminate Eopt.
  - intros [= <-] _. reflexivity.
  - destruct (d_rationale_addition st) as [ra|]; [|discriminate].
    intros [= <-] _. reflexivity.
Qed.

(** An equity idea, and the idea returned when there are no matches,
    carry the option type [None]; recorded in the trade history they
    are never measured: the evaluation is the default one, with no
    move, not marked correct, and the message of the exception as
    notes. *)
Theorem equity_ideas_are_never_evaluated (h : headline) (ms : list event)
  (idea : trade_idea) (timestamp : option string) (evaluation_days : nat) :
  generate h ms = Py.Ok idea ->
  trade_type idea = "equity" \/ ms = [] ->
  evaluate (recorded timestamp idea) evaluation_days
  = Evaluator.unevaluated
      "Error evaluating trade: 'NoneType' object has no attribute 'upper'".
Proof.
  intros Hg Hk. pose proof (@idea_without_option_type h ms idea Hg Hk) as Hnone.
  unfold Evaluator.evaluate_trade, Evaluator.option_type_upper, recorded.
  cbn [Evaluator.stored_idea Evaluator.idea_option_type].
  rewrite Hnone. reflexivity.
Qed.

End PickerToEvaluator.

Lemma equity_ideas_are_never_evaluated_witness :
  exists idea,
    generate_trade_idea quoted_price option_chain 0 weekday_mod parse_day print_stub
      fmt_stub str_stub fed_headline [calm_match] = Py.Ok idea /\
    Evaluator.evaluate_trade clock_stub parse_timestamp_stub print_stub rising_feed
      fmt_stub str_stub str_nat_stub (recorded None idea) 7
    = Evaluator.unevaluated
        "Error evaluating trade: 'NoneType' object has no attribute 'upper'".
Proof.
  eexists. split; [vm_compute; reflexivity|].
  apply (@equity_ideas_are_never_evaluated quoted_price option_chain 0%Z weekday_mod
           parse_day print_stub fmt_stub str_stub clock_stub parse_timestamp_stub
           rising_feed str_nat_stub fed_headline [calm_match]).
  - vm_compute. reflexivity.
  - left. reflexivity.
Defined.

(** ** evaluator.py: the success rate *)

Lemma disjoint_filters {A} (f g w : A -> bool) (l : list A) :
  (forall x, f x = true -> g x = false) ->
  (forall x, f x = true -> w x = true) ->
  (forall x, g x = true -> w x = true) ->
  (List.length (filter f l) + List.length (filter g l) <= List.length (filter w l))%nat.
Proof.
  intros Hfg Hfw Hgw.
  induction l as [|x l IH]; [cbn; lia|].
  cbn [filter].
  pose proof (Hfg x) as H1. pose proof (Hfw x) as H2. pose proof (Hgw x) as H3.
  destruct (f x), (g x), (w x); cbn [List.length];
    try lia; try (specialize (H1 eq_refl); discriminate);
    try (specialize (H2 eq_refl); discriminate);
    try (specialize (H3 eq_refl); discriminate).
Qed.

Lemma filter_twice {A} (f g : A -> bool) (l : list A) :
  filter f (filter g l) = filter (fun x => g x && f x) l.
Proof.
  induction l as [|x l IH]; [reflexivity|].
  cbn [filter]. destruct (g x); cbn [filter andb]; [destruct (f x)|]; now rewrite IH.
Qed.

Lemma filterM_has_type (name : string) (trades r : list Evaluator.stored_trade) :
  filterM (Evaluator.has_type name) trades = Py.Ok r ->
  r = filter (reads name) trades.
Proof.
  revert r. induction trades as [|t l IH]; intros r H.
  - cbn in H. now injection H as <-.
  - cbn [filterM] in H. unfold Evaluator.has_type at 1 in H. unfold reads. cbn [filter].
    fold (reads name).
    destruct (Evaluator.option_type_upper t) as [u|]; cbn [Py.bind] in H; [|discriminate].
    destruct (filterM (Evaluator.has_type name) l) as [r'|]; cbn [Py.bind] in H;
      [|discriminate].
    injection H as <-. now rewrite (IH r' eq_refl).
Qed.

Lemma filterM_has_type_raises (name : string) (trades : list Evaluator.stored_trade)
  (t : Evaluator.stored_trade) :
  In t trades -> null_option_type t ->
  filterM (Evaluator.has_type name) trades
  = Py.Raise (Py.AttributeError "'NoneType' object has no attribute 'upper'").
Proof.
  intros Hin (i & Ei & Eo).
  induction trades as [|t' l IH]; [contradiction|].
  cbn [filterM]. unfold Evaluator.has_type at 1.
  destruct (Evaluator.option_type_upper t') as [u|e] eqn:Eu; cbn [Py.bind].
  - destruct Hin as [->|Hin].
    + unfold Evaluator.option_type_upper in Eu. rewrite Ei, Eo in Eu. discriminate.
    + now rewrite (IH Hin).
  - unfold Evaluator.option_type_upper in Eu.
    destruct (Evaluator.stored_idea t') as [i'|]; [|discriminate].
    destruct (Evaluator.idea_option_type i') as [[s|]|]; try discriminate.
    now injection Eu as <-.
Qed.

Lemma ratio_range (part whole : nat) :
  (part <= whole)%nat -> 0 <= Evaluator.ratio part whole * 100 <= 100.
Proof.
  intro H. unfold Evaluator.ratio.
  destruct (Nat.ltb_spec 0 whole) as [Hpos|_]; [|lra].
  pose proof (share_range Hpos H) as Hs. unfold nat_Q in Hs. lra.
Qed.

Lemma round2_percent (x : Q) : 0 <= x <= 100 -> 0 <= Py.round2 x <= 100.
Proof.
  intros [H0 H1]. unfold Py.round2.
  destruct (@round_bounds (x * 100) 0%Z 10000%Z) as [Hlo Hhi].
  - change (inject_Z 0) with 0. lra.
  - change (inject_Z 10000) with 10000. lra.
  - rewrite Zle_Qle in Hlo, Hhi.
    change (inject_Z 0) with 0 in Hlo. change (inject_Z 10000) with 10000 in Hhi.
    assert (E : inject_Z (Py.round (x * 100)) / 100
                == inject_Z (Py.round (x * 100)) * (1 # 100)) by field.
    rewrite E. lra.
Qed.

(** The statistics of a trade history are consistent: the successful
    trades are among the trades, CALL and PUT trades are disjoint
    parts of the history, their successes are among the successful
    trades, and the three success rates are percentages between 0 and
    100. *)
Theorem success_metrics_are_consistent (trades : list Evaluator.stored_trade)
  (m : Evaluator.success_metrics) :
  Evaluator.calculate_success_rate trades = Py.Ok m ->
  Evaluator.total_trades m = List.length trades /\
  (Evaluator.successful_trades m <= Evaluator.total_trades m)%nat /\
  0 <= Evaluator.success_rate m <= 100 /\
  0 <= Evaluator.call_success_rate m <= 100 /\
  0 <= Evaluator.put_success_rate m <= 100 /\
  (trades <> [] ->
   exists calls puts call_wins put_wins,
     Evaluator.call_trades m = Some calls /\ Evaluator.put_trades m = Some puts /\
     Evaluator.call_successful m = Some call_wins /\
     Evaluator.put_successful m = Some put_wins /\
     (calls + puts <= Evaluator.total_trades m)%nat /\
     (call_wins <= calls)%nat /\ (put_wins <= puts)%nat /\
     (call_wins + put_wins <= Evaluator.successful_trades m)%nat).
Proof.
  unfold Evaluator.calculate_success_rate.
  destruct trades as [|t0 l0] eqn:El.
  { intros [= <-]. cbn. repeat split; try lra; try lia. intro H. contradiction. }
  rewrite <- El. clear El t0 l0.
  destruct (filterM (Evaluator.has_type "CALL") trades) as [calls|] eqn:Ec;
    cbn [Py.bind]; [|discriminate].
  destruct (filterM (Evaluator.has_type "PUT") trades) as [puts|] eqn:Ep;
    cbn [Py.bind]; [|discriminate].
  apply filterM_has_type in Ec, Ep.
  intros [= <-]. cbn [Evaluator.total_trades Evaluator.successful_trades
    Evaluator.success_rate Evaluator.call_success_rate Evaluator.put_success_rate
    Evaluator.call_trades Evaluator.put_trades Evaluator.call_successful
    Evaluator.put_successful].
  unfold Evaluator.count.
  pose proof (filter_length_le Evaluator.was_correct trades) as Hs.
  pose proof (filter_length_le Evaluator.was_correct calls) as Hcs.
  pose proof (filter_length_le Evaluator.was_correct puts) as Hps.
  assert (Hdis : forall x, reads "CALL" x = true -> reads "PUT" x = false).
  { intros x. unfold reads. destruct (Evaluator.option_type_upper x) as [u|]; [|discriminate].
    intro H. apply String.eqb_eq in H. subst u. reflexivity. }
  split; [reflexivity|]. split; [exact Hs|].
  split; [apply round2_percent, ratio_range, Hs|].
  split; [apply round2_percent, ratio_range, Hcs|].
  split; [apply round2_percent, ratio_range, Hps|].
  intros _. do 4 eexists. repeat (split; [reflexivity|]).
  split; [|split; [exact Hcs | split; [exact Hps|]]].
  - subst calls puts.
    pose proof (@disjoint_filters _ (reads "CALL") (reads "PUT") (fun _ => true) trades
                  Hdis (fun _ _ => eq_refl) (fun _ _ => eq_refl)) as H.
    rewrite (proj2 (filter_length_all (fun _ => true) trades)) in H; [exact H|].
    apply Forall_forall. reflexivity.
  - subst calls puts. rewrite !filter_twice.
    apply disjoint_filters.
    + intros x H. apply andb_true_iff in H as [H1 H2].
      now rewrite (Hdis x H1).
    + intros x H. now apply andb_true_iff in H as [H1 H2].
    + intros x H. now apply andb_true_iff in H as [H1 H2].
Qed.

Section SuccessRate.

Variable now_iso : string.
Variable parse_timestamp : string -> Z.
Variable strftime : Z -> string.
Variable fetch_historical_data : Py.value -> string -> string -> frame.
Variable format_2f : Q -> string.
Variable str : Py.value -> string.
Variable str_nat : nat -> string.

Local Abbreviation evaluate_history :=
  (Evaluator.evaluate_trade_history now_iso parse_timestamp strftime
     fetch_historical_data format_2f str str_nat).

(** One stored trade whose option type is [None], as every equity
    trade has it, makes the statistics of the whole history fail,
    before and after the history is evaluated. *)
Theorem success_rate_fails_on_null_option_type (trades : list Evaluator.stored_trade)
  (t : Evaluator.stored_trade) (evaluation_days : nat) :
  In t trades -> null_option_type t ->
  Evaluator.calculate_success_rate trades
  = Py.Raise (Py.AttributeError "'NoneType' object has no attribute 'upper'") /\
  Evaluator.calculate_success_rate (evaluate_history trades evaluation_days)
  = Py.Raise (Py.AttributeError "'NoneType' object has no attribute 'upper'").
Proof.
  intros Hin Hnull.
  assert (Hraise : forall l t',
             In t' l -> null_option_type t' ->
             Evaluator.calculate_success_rate l
             = Py.Raise (Py.AttributeError "'NoneType' object has no attribute 'upper'")).
  { intros l t' Hin' Hnull'. unfold Evaluator.calculate_success_rate.
    destruct l as [|x l'] eqn:El; [contradiction|]. rewrite <- El in *.
    now rewrite (@filterM_has_type_raises "CALL" l t' Hin' Hnull'). }
  split; [exact (Hraise _ _ Hin Hnull)|].
  apply (Hraise _ (Evaluator.mkStored (Evaluator.saved_timestamp t)
                     (Evaluator.stored_idea t)
                     (Some (Evaluator.evaluate_trade now_iso parse_timestamp strftime
                              fetch_historical_data format_2f str str_nat t
                              evaluation_days)))).
  - unfold Evaluator.evaluate_trade_history.
    apply (in_map (fun trade =>
                     Evaluator.mkStored (Evaluator.saved_timestamp trade)
                       (Evaluator.stored_idea trade)
                       (Some (Evaluator.evaluate_trade now_iso parse_timestamp strftime
                                fetch_historical_data format_2f str str_nat trade
                                evaluation_days)))).
    exact Hin.
  - destruct Hnull as (i & Ei & Eo). exists i. split; assumption.
Qed.

End SuccessRate.

Lemma success_metrics_are_consistent_witness :
  exists m,
    Evaluator.calculate_success_rate
      (Evaluator.evaluate_trade_history clock_stub parse_timestamp_stub print_stub
         rising_feed fmt_stub str_stub str_nat_stub [call_on_spy; put_on_spy] 7)
    = Py.Ok m /\
    0 <= Evaluator.success_rate m <= 100.
Proof.
  eexists. split; [vm_compute; reflexivity|].
  match goal with
  | |- 0 <= Evaluator.success_rate ?m <= 100 =>
      destruct (@success_metrics_are_consistent
                  (Evaluator.evaluate_trade_history clock_stub parse_timestamp_stub
                     print_stub rising_feed fmt_stub str_stub str_nat_stub
                     [call_on_spy; put_on_spy] 7) m) as (_ & _ & H & _)
  end; [vm_compute; reflexivity | exact H].
Defined.

Lemma success_rate_fails_on_null_option_type_witness :
  Evaluator.calculate_success_rate [call_on_spy; equity_on_spy]
  = Py.Raise (Py.AttributeError "'NoneType' object has no attribute 'upper'").
Proof.
  apply (@success_rate_fails_on_null_option_type clock_stub parse_timestamp_stub
           print_stub rising_feed fmt_stub str_stub str_nat_stub
           [call_on_spy; equity_on_spy] equity_on_spy 7%nat).
  - right. left. reflexivity.
  - eexists. split; reflexivity.
Defined.

(** A week that rises from 50 to 55: the CALL is marked correct, the
    PUT is not, and half of the two trades succeed. *)
Example sample_success_rate :
  exists m,
    Evaluator.calculate_success_rate
      (Evaluator.evaluate_trade_history clock_stub parse_timestamp_stub print_stub
         rising_feed fmt_stub str_stub str_nat_stub [call_on_spy; put_on_spy] 7)
    = Py.Ok m /\
    Evaluator.successful_trades m = 1%nat /\ Evaluator.success_rate m == 50 /\
    Evaluator.call_success_rate m == 100 /\ Evaluator.put_success_rate m == 0 /\
    Evaluator.average_move m == 10.
Proof. eexists. split; [vm_compute; reflexivity|]. repeat split; vm_compute; reflexivity. Qed.

(** ** llm_event_query.py: the result of the pattern analysis *)


Lemma numeric_split (events : list event) :
  Forall (fun e => Py.is_number (get (price_change_pct e) Py.VNone) = true) events ->
  (List.length (filter is_bullish events) + List.length (filter is_bearish events)
   = List.length events)%nat.
Proof.
  induction 1 as [|e events He _ IH]; [reflexivity|].
  cbn [filter List.length]. unfold is_bullish at 1, is_bearish at 1.
  destruct (price_change_pct e) as [[|q|s]|]; try discriminate He.
  destruct (Py.Qgtb q 0); cbn [negb List.length]; lia.
Qed.

Section ResultFacts.

Variable pow_half : Q -> Q.
Variable repr_float : Q -> string.
Variable format_1f : Q -> string.
Variable format_0f : Q -> string.

Local Abbreviation analyze :=
  (analyze_similar_events pow_half repr_float format_1f format_0f).
Local Abbreviation body := (analyze_body pow_half repr_float format_1f format_0f).

Lemma success_body (events : list event) (p : pattern) :
  analyze events = Success p ->
  events <> [] /\
  (List.length (filter carries_macro_snapshot events) < 3)%nat /\
  body events = Py.Ok p.
Proof.
  intro H.
  destruct (Nat.lt_ge_cases (List.length (filter carries_macro_snapshot events)) 3)
    as [Hlt|Hge].
  - unfold analyze_similar_events in H.
    destruct events as [|e events]; [discriminate|].
    split; [discriminate|]. split; [exact Hlt|].
    destruct (analyze_body _ _ _ _ (e :: events)); [now injection H as -> | discriminate].
  - rewrite (macro_analysis_fails pow_half repr_float format_1f format_0f events Hge) in H.
    discriminate.
Qed.

Lemma body_pattern (events : list event) (p : pattern) :
  (List.length (filter carries_macro_snapshot events) < 3)%nat ->
  body events = Py.Ok p ->
  let a := fold_left step events initial_accumulators in
  let sentiment :=
    if (2 <=? events_with_sentiment a)%nat
    then Some (sentiment_block format_1f format_0f a) else None in
  p = mkPattern
        (describe_pattern (mean_or_zero (price_changes a)) (mean_or_zero (drawdowns a)))
        (Py.round (percentage (Nat.max (bullish_count a) (bearish_count a))
                              (List.length events)))
        (Py.round2 (mean_or_zero (price_changes a)))
        (Py.round2 (mean_or_zero (drawdowns a)))
        (Py.round (percentage (bullish_count a) (List.length events)))
        (Py.round (percentage (bearish_count a) (List.length events)))
        (dominant (sectors a) "Unknown")
        (dominant (tickers a) (Py.VStr "Unknown"))
        (if (0 <? has_recovery_data a)%nat
         then Some (Py.round
                      (if (0 <? has_recovery_data a)%nat
                       then sum_days_to_recovery a / nat_Q (has_recovery_data a)
                       else sum_days_to_recovery a))
         else None)
        (List.length events)
        false None None None
        (match sentiment with Some _ => true | None => false end)
        (match sentiment with
         | Some _ => Some (events_with_sentiment a) | None => None end)
        (match sentiment with Some b => Some (fst (fst b)) | None => None end)
        (match sentiment with Some b => Some (snd (fst b)) | None => None end)
        (match sentiment with Some b => snd b | None => None end).
Proof.
  intros Hlt. unfold analyze_body.
  destruct (fold_counts events initial_accumulators) as (_ & _ & Hm).
  cbn zeta in Hm. cbn [events_with_macro initial_accumulators] in Hm.
  rewrite Nat.add_0_l in Hm. rewrite Hm.
  destruct (Nat.leb_spec 3 (List.length (filter carries_macro_snapshot events)))
    as [H|_]; [lia|].
  cbn [Py.bind]. intros [= <-]. reflexivity.
Qed.

(** The analysis succeeds exactly on a non-empty list of matches of
    which fewer than three carry a macro snapshot, and a successful
    result never holds a macro analysis: the flag is false and the
    three macro keys are absent. *)
Theorem analysis_succeeds_without_macro (events : list event) :
  ((exists p, analyze events = Success p) <->
   events <> [] /\ (List.length (filter carries_macro_snapshot events) < 3)%nat) /\
  (forall p, analyze events = Success p ->
     similar_events_count p = List.length events /\
     has_macro_analysis p = false /\ r_events_with_macro p = None /\
     macro_correlations p = None /\ macro_insights p = None).
Proof.
  split; [split|].
  - intros [p H]. apply success_body in H as (H1 & H2 & _). now split.
  - intros [H1 H2].
    exact (analysis_succeeds pow_half repr_float format_1f format_0f H1 H2).
  - intros p H. apply success_body in H as (_ & Hlt & Hb).
    rewrite (@body_pattern events p Hlt Hb). cbn. repeat split; reflexivity.
Qed.

(** The bullish and bearish shares of a successful result are whole
    percentages between 0 and 100, and the consistency score is the
    larger of the two; when every match carries a numeric price
    change the consistency score is at least 50.  Each share is
    rounded on its own from a double, so the two need not add up to
    100 (see [shares_need_not_add_up]). *)
Theorem direction_shares (events : list event) (p : pattern) :
  analyze events = Success p ->
  (0 <= bullish_pct p <= 100)%Z /\ (0 <= bearish_pct p <= 100)%Z /\
  consistency_score p = Z.max (bullish_pct p) (bearish_pct p) /\
  (Forall (fun e => Py.is_number (get (price_change_pct e) Py.VNone) = true) events ->
   (50 <= consistency_score p)%Z).
Proof.
  intro H. apply success_body in H as (Hne & Hlt & Hb).
  rewrite (@body_pattern events p Hlt Hb). cbn [bullish_pct bearish_pct consistency_score].
  destruct (fold_counts events initial_accumulators) as (Ebull & Ebear & _).
  cbn zeta in Ebull, Ebear.
  cbn [bullish_count bearish_count initial_accumulators] in Ebull, Ebear.
  rewrite Nat.add_0_l in Ebull, Ebear. rewrite Ebull, Ebear.
  pose proof (bullish_bearish_total events) as Htot.
  set (b := List.length (filter is_bullish events)) in *.
  set (c := List.length (filter is_bearish events)) in *.
  set (t := List.length events) in *.
  assert (Hpos : (0 < t)%nat).
  { subst t. destruct events; [contradiction | cbn; lia]. }
  assert (Hb0 : (b <= t)%nat) by lia. assert (Hc0 : (c <= t)%nat) by lia.
  destruct (percentage_range Hb0) as [Hb1 Hb2].
  destruct (percentage_range Hc0) as [Hc1 Hc2].
  split; [apply round_bounds; assumption|].
  split; [apply round_bounds; assumption|].
  split.
  - destruct (Nat.max_spec b c) as [[Hbc ->]|[Hbc ->]].
    + assert (Hle : (b <= c)%nat) by lia.
      pose proof (round_monotone (@percentage_monotone b c t Hle)). lia.
    + pose proof (round_monotone (@percentage_monotone c b t Hbc)). lia.
  - intro Hnum. apply numeric_split in Hnum. fold b c t in Hnum.
    assert (Hm : (t <= 2 * Nat.max b c)%nat) by lia.
    pose proof (round_monotone (@percentage_half (Nat.max b c) t Hpos Hm)) as Hhalf.
    change 50 with (inject_Z 50) in Hhalf. rewrite round_integer in Hhalf.
    exact Hhalf.
Qed.

End ResultFacts.

(** ** llm_event_query.py: averages, sentiment comparison and sectors *)






Lemma step_sentiment (e : event) (a : accumulators) :
  events_with_sentiment (step a e)
  = (events_with_sentiment a + if has_sentiment e then 1 else 0)%nat /\
  (aligned (step a e) + divergent (step a e)
   = aligned a + divergent a + if has_sentiment e then 1 else 0)%nat.
Proof.
  unfold step, has_sentiment. cbn [events_with_sentiment aligned divergent].
  destruct (e_sentiment_analysis e) as [sd|]; [|split; lia].
  destruct (Py.Qgeb _ _); split; lia.
Qed.

Lemma fold_sentiment (events : list event) : forall a,
  events_with_sentiment (fold_left step events a)
  = (events_with_sentiment a + List.length (filter has_sentiment events))%nat /\
  (aligned (fold_left step events a) + divergent (fold_left step events a)
   = aligned a + divergent a + List.length (filter has_sentiment events))%nat.
Proof.
  induction events as [|e events IH]; intro a.
  - cbn. split; lia.
  - cbn [fold_left filter]. destruct (IH (step a e)) as [H1 H2].
    destruct (step_sentiment e a) as [S1 S2].
    rewrite H1, H2, S1, S2.
    destruct (has_sentiment e); cbn [List.length]; split; lia.
Qed.

Lemma stored_count_key (s k : string) (d : list (string * nat)) :
  stored_count s (count_key String.eqb k d)
  = (stored_count s d + if String.eqb s k then 1 else 0)%nat.
Proof.
  induction d as [|[k' n] d IH]; cbn [count_key stored_count].
  - destruct (String.eqb s k); lia.
  - destruct (String.eqb_spec k k') as [->|Hk]; cbn [stored_count].
    + destruct (String.eqb s k'); lia.
    + destruct (String.eqb_spec s k') as [->|Hs]; [|exact IH].
      destruct (String.eqb_spec k' k) as [E|_]; [congruence | lia].
Qed.

Lemma count_key_keys (k : string) (d : list (string * nat)) :
  NoDup (map fst d) ->
  NoDup (map fst (count_key String.eqb k d)) /\
  (forall s, In s (map fst (count_key String.eqb k d)) <-> s = k \/ In s (map fst d)).
Proof.
  induction d as [|[k' n] d IH]; intro Hnd; cbn [count_key map fst].
  - split; [repeat constructor; intros [] | intro s; cbn; intuition].
  - inversion Hnd as [|? ? Hnotin Hnd']; subst.
    destruct (String.eqb_spec k k') as [->|Hk]; cbn [map fst].
    + split; [exact Hnd | intro s; cbn; intuition].
    + destruct (IH Hnd') as [IH1 IH2]. split.
      * constructor; [|exact IH1]. rewrite IH2. intros [E|Hin]; [congruence | contradiction].
      * intro s. cbn. rewrite IH2. intuition.
Qed.

Lemma fold_sectors (events : list event) : forall a,
  NoDup (map fst (sectors a)) ->
  let d := sectors (fold_left step events a) in
  NoDup (map fst d) /\
  (forall s, stored_count s d = (stored_count s (sectors a) + matches_in_sector s events)%nat) /\
  (forall s, In s (map fst (sectors a)) -> In s (map fst d)) /\
  (events <> [] -> d <> []).
Proof.
  induction events as [|e events IH]; intros a Hnd; cbn zeta.
  - cbn [fold_left]. split; [exact Hnd|].
    split; [intro s; unfold matches_in_sector; cbn; lia|].
    split; [auto | intro H; contradiction].
  - cbn [fold_left].
    assert (Es : sectors (step a e)
                 = count_key String.eqb (get (sector e) "Unknown") (sectors a))
      by reflexivity.
    destruct (@count_key_keys (get (sector e) "Unknown") (sectors a) Hnd) as [Hnd' Hkeys].
    rewrite <- Es in Hnd', Hkeys.
    destruct (IH (step a e) Hnd') as (H1 & H2 & H3 & _). cbn zeta in *.
    split; [exact H1|]. split; [|split].
    + intro s. rewrite H2, Es, stored_count_key.
      unfold matches_in_sector. cbn [filter].
      rewrite (String.eqb_sym s). 
      destruct (String.eqb (get (sector e) "Unknown") s); cbn [List.length]; lia.
    + intros s Hs. apply H3. apply Hkeys. now right.
    + intros _ Hnil.
      assert (Hin : In (get (sector e) "Unknown")
                       (map fst (sectors (fold_left step events (step a e))))).
      { apply H3. apply Hkeys. now left. }
      rewrite Hnil in Hin. contradiction.
Qed.

Lemma stored_count_entry (d : list (string * nat)) (k : string) (n : nat) :
  NoDup (map fst d) -> In (k, n) d -> stored_count k d = n.
Proof.
  induction d as [|[k' n'] d IH]; intros Hnd Hin; [contradiction|].
  inversion Hnd as [|? ? Hnotin Hnd']; subst. cbn [stored_count].
  destruct Hin as [[= -> ->]|Hin].
  - now rewrite String.eqb_refl.
  - destruct (String.eqb_spec k k') as [->|_]; [|now apply IH].
    exfalso. apply Hnotin. change k' with (fst (k', n)). now apply in_map.
Qed.

Lemma stored_count_absent (d : list (string * nat)) (s : string) :
  ~ In s (map fst d) -> stored_count s d = 0%nat.
Proof.
  induction d as [|[k n] d IH]; intro H; [reflexivity|].
  cbn [stored_count]. destruct (String.eqb_spec s k) as [->|_].
  - exfalso. apply H. now left.
  - apply IH. intro Hin. apply H. now right.
Qed.

Lemma fold_best (d : list (string * nat)) : forall x,
  let best := fold_left (fun best y => if (snd best <? snd y)%nat then y else best) d x in
  In best (x :: d) /\ (snd x <= snd best)%nat /\
  Forall (fun y => (snd y <= snd best)%nat) d.
Proof.
  induction d as [|y d IH]; intro x; cbn zeta; cbn [fold_left].
  - split; [now left | split; [lia | constructor]].
  - destruct (Nat.ltb_spec (snd x) (snd y)) as [Hlt|Hge].
    + destruct (IH y) as (H1 & H2 & H3). cbn zeta in *.
      split; [right; exact H1 | split; [lia | constructor; [exact H2 | exact H3]]].
    + destruct (IH x) as (H1 & H2 & H3). cbn zeta in *.
      split; [|split; [exact H2 | constructor; [lia | exact H3]]].
      destruct H1 as [H1|H1]; [now left | right; now right].
Qed.

Lemma dominant_is_maximal (d : list (string * nat)) (unknown : string) :
  d <> [] -> NoDup (map fst d) ->
  forall s, (stored_count s d <= stored_count (dominant d unknown) d)%nat.
Proof.
  intros Hne Hnd s. destruct d as [|x d]; [contradiction|].
  unfold dominant.
  destruct (fold_best d x) as (Hin & Hx & Hall). cbn zeta in *.
  set (best := fold_left _ d x) in *.
  assert (Hbest : stored_count (fst best) (x :: d) = snd best).
  { apply stored_count_entry; [exact Hnd|]. now destruct best. }
  rewrite Hbest.
  destruct (in_dec string_dec s (map fst (x :: d))) as [Hs|Hs].
  - apply in_map_iff in Hs as ([k n] & <- & Hkn). cbn [fst].
    rewrite (@stored_count_entry _ _ _ Hnd Hkn).
    destruct Hkn as [->|Hkn]; [exact Hx|].
    rewrite Forall_forall in Hall. exact (Hall _ Hkn).
  - rewrite (@stored_count_absent _ _ Hs). lia.
Qed.

Section PatternFacts.

Variable pow_half : Q -> Q.
Variable repr_float : Q -> string.
Variable format_1f : Q -> string.
Variable format_0f : Q -> string.

Local Abbreviation analyze :=
  (analyze_similar_events pow_half repr_float format_1f format_0f).


(** The sentiment comparison is part of a successful result exactly
    when at least two matches carry a sentiment analysis; the
    alignment share is then a whole percentage between 0 and 100, and
    without the comparison its four keys are absent. *)
Theorem sentiment_comparison_needs_two_matches (events : list event) (p : pattern) :
  analyze events = Success p ->
  (has_sentiment_analysis p = true <->
   (2 <= List.length (filter has_sentiment events))%nat) /\
  (has_sentiment_analysis p = true ->
   r_events_with_sentiment p = Some (List.length (filter has_sentiment events)) /\
   exists pct, sentiment_alignment_pct p = Some pct /\ (0 <= pct <= 100)%Z) /\
  (has_sentiment_analysis p = false ->
   r_events_with_sentiment p = None /\ sentiment_alignment_pct p = None /\
   sentiment_insights p = None /\ r_sentiment_performance p = None).
Proof.
  intro H. apply success_body in H as (_ & Hlt & Hb).
  rewrite (@body_pattern pow_half repr_float format_1f format_0f events p Hlt Hb).
  cbn [has_sentiment_analysis r_events_with_sentiment sentiment_alignment_pct
       sentiment_insights r_sentiment_performance].
  destruct (fold_sentiment events initial_accumulators) as [E1 E2].
  cbn [events_with_sentiment aligned divergent initial_accumulators] in E1, E2.
  rewrite Nat.add_0_l in E1, E2.
  remember (fold_left step events initial_accumulators) as a eqn:Ea. clear Ea.
  rewrite E1 in *.
  destruct (Nat.leb_spec 2 (List.length (filter has_sentiment events))) as [Hge|Hlt2].
  - split; [split; [intros _; exact Hge | reflexivity]|].
    split; [|discriminate]. intros _. split; [reflexivity|].
    eexists. split; [reflexivity|].
    unfold sentiment_block. cbn [fst].
    assert (Hle : (aligned a <= events_with_sentiment a)%nat) by lia.
    destruct (percentage_range Hle) as [P1 P2].
    apply round_bounds; [exact P1 | exact P2].
  - split; [split; [discriminate | lia]|].
    split; [discriminate|]. intros _. repeat split; reflexivity.
Qed.

(** The dominant sector of a successful result is a sector of at
    least one match, and no sector has more matches. *)
Theorem dominant_sector_has_most_matches (events : list event) (p : pattern) :
  analyze events = Success p ->
  (0 < matches_in_sector (dominant_sector p) events)%nat /\
  forall s, (matches_in_sector s events
             <= matches_in_sector (dominant_sector p) events)%nat.
Proof.
  intro H. apply success_body in H as (Hne & Hlt & Hb).
  rewrite (@body_pattern pow_half repr_float format_1f format_0f events p Hlt Hb).
  cbn [dominant_sector].
  destruct (@fold_sectors events initial_accumulators) as (Hnd & Hcount & _ & Hd).
  { constructor. }
  cbn zeta in *. specialize (Hd Hne).
  assert (Hc : forall s,
             stored_count s (sectors (fold_left step events initial_accumulators))
             = matches_in_sector s events).
  { intro s. rewrite Hcount. reflexivity. }
  clear Hcount.
  remember (sectors (fold_left step events initial_accumulators)) as d eqn:Ed. clear Ed.
  pose proof (@dominant_is_maximal d "Unknown" Hd Hnd) as Hmax.
  assert (Hall : forall s, (matches_in_sector s events
                            <= matches_in_sector (dominant d "Unknown") events)%nat).
  { intro s. rewrite <- !Hc. apply Hmax. }
  split; [|exact Hall].
  destruct events as [|e events]; [contradiction|].
  specialize (Hall (get (sector e) "Unknown")).
  unfold matches_in_sector at 1 in Hall. cbn [filter] in Hall.
  rewrite String.eqb_refl in Hall. cbn [List.length] in Hall. lia.
Qed.

End PatternFacts.

Lemma analysis_succeeds_without_macro_witness :
  exists p,
    analyze_similar_events root_of_squares fmt_stub fmt_stub fmt_stub sample_matches
    = Success p /\
    has_macro_analysis p = false /\ macro_correlations p = None.
Proof.
  destruct (@analysis_succeeds_without_macro root_of_squares fmt_stub fmt_stub fmt_stub
              sample_matches) as [[_ Hex] Hall].
  destruct Hex as [p Hp]; [split; [discriminate | vm_compute; lia]|].
  exists p. split; [exact Hp|].
  destruct (Hall p Hp) as (_ & H1 & _ & H2 & _). split; assumption.
Defined.

Lemma direction_shares_witness :
  exists p,
    analyze_similar_events root_of_squares fmt_stub fmt_stub fmt_stub sample_matches
    = Success p /\
    consistency_score p = Z.max (bullish_pct p) (bearish_pct p) /\
    (50 <= consistency_score p)%Z.
Proof.
  destruct (@analysis_succeeds root_of_squares fmt_stub fmt_stub fmt_stub sample_matches)
    as [p Hp]; [discriminate | vm_compute; lia|].
  exists p. split; [exact Hp|].
  destruct (@direction_shares root_of_squares fmt_stub fmt_stub fmt_stub
              sample_matches p Hp) as (_ & _ & Hmax & H).
  split; [exact Hmax|]. apply H. repeat constructor.
Defined.


Lemma sentiment_comparison_needs_two_matches_witness :
  exists p,
    analyze_similar_events root_of_squares fmt_stub fmt_stub fmt_stub sample_matches
    = Success p /\
    has_sentiment_analysis p = true.
Proof.
  destruct (@analysis_succeeds root_of_squares fmt_stub fmt_stub fmt_stub sample_matches)
    as [p Hp]; [discriminate | vm_compute; lia|].
  exists p. split; [exact Hp|].
  apply (@sentiment_comparison_needs_two_matches root_of_squares fmt_stub fmt_stub
           fmt_stub sample_matches p Hp).
  vm_compute. lia.
Defined.

Lemma dominant_sector_has_most_matches_witness :
  exists p,
    analyze_similar_events root_of_squares fmt_stub fmt_stub fmt_stub sample_matches
    = Success p /\
    (matches_in_sector "Energy" sample_matches
     <= matches_in_sector (dominant_sector p) sample_matches)%nat.
Proof.
  destruct (@analysis_succeeds root_of_squares fmt_stub fmt_stub fmt_stub sample_matches)
    as [p Hp]; [discriminate | vm_compute; lia|].
  exists p. split; [exact Hp|].
  apply (@dominant_sector_has_most_matches root_of_squares fmt_stub fmt_stub fmt_stub
           sample_matches p Hp).
Defined.

(** Two of three matches are bullish, the two carry sentiment data,
    one of them aligned, and Financials is the dominant sector. *)
Example sample_pattern :
  exists p,
    analyze_similar_events root_of_squares fmt_stub fmt_stub fmt_stub sample_matches
    = Success p /\
    bullish_pct p = 67%Z /\ bearish_pct p = 33%Z /\ consistency_score p = 67%Z /\
    dominant_sector p = "Financials" /\ sentiment_alignment_pct p = Some 50%Z /\
    has_macro_analysis p = false.
Proof.
  eexists. split; [vm_compute; reflexivity|].
  repeat split; vm_compute; reflexivity.
Qed.

(** Twenty-three rises and seventeen falls: the double [23 / 40 * 100]
    is just below 57.5 and rounds to 57, the double [17 / 40 * 100]
    rounds to 42, and the two shares add up to 99. *)
Example shares_need_not_add_up :
  exists p,
    analyze_similar_events root_of_squares fmt_stub fmt_stub fmt_stub
      (changes (repeat 1 23 ++ repeat (-1) 17)) = Success p /\
    bullish_pct p = 57%Z /\ bearish_pct p = 42%Z /\ consistency_score p = 57%Z /\
    Py.round (nat_Q 23 / nat_Q 40 * 100) = 58%Z.
Proof.
  eexists. split; [vm_compute; reflexivity|].
  repeat split; vm_compute; reflexivity.
Qed.

(** ** llm_event_query.py: the macro insights *)

Lemma filterM_raises {A} (f : A -> Py.result bool) (l : list A) (x : A) (e : Py.exn) :
  In x l -> f x = Py.Raise e ->
  (forall y e', f y = Py.Raise e' -> e' = e) ->
  filterM f l = Py.Raise e.
Proof.
  intros Hin Hx Hsame.
  induction l as [|y l IH]; [contradiction|].
  cbn [filterM]. destruct (f y) as [b|e'] eqn:Ey; cbn [Py.bind].
  - destruct Hin as [->|Hin]; [congruence|]. now rewrite (IH Hin).
  - now rewrite (Hsame y e' Ey).
Qed.

Lemma factor_insights_all (repr_float : Q -> string) (c : correlations)
  (fs : list factor) (sentences : list (list string)) : forall insights,
  Forall2 (fun f s => factor_insight repr_float c f = Py.Ok s) fs sentences ->
  factor_insights repr_float c fs insights = ((insights ++ List.concat sentences)%list, None).
Proof.
  intros insights H. revert insights.
  induction H as [|f s fs sentences Hf _ IH]; intro insights.
  - cbn. now rewrite app_nil_r.
  - cbn [factor_insights List.concat]. rewrite Hf, IH, app_assoc. reflexivity.
Qed.

Lemma factor_insight_succeeds (repr_float : Q -> string) (c : correlations) (f : factor) :
  (significant (lookup c f) = true -> c_direction (lookup c f) <> None) ->
  exists s, factor_insight repr_float c f = Py.Ok s.
Proof.
  intro H. unfold factor_insight.
  destruct (significant (lookup c f)); [|eexists; reflexivity].
  destruct (c_direction (lookup c f)) as [d|]; [eexists; reflexivity|].
  now contradiction H.
Qed.

(** A data point whose CPI value is [None] ends the regime analysis:
    with a significant correlation, every significant entry holding
    its ['direction'] key, and at least three points, the sentence of
    each factor is built without an exception, and the insights are
    these sentences followed by the message of the failed
    comparison. *)
Theorem missing_cpi_ends_the_regime_analysis (repr_float : Q -> string)
  (c : correlations) (pts : list macro_point) :
  existsb (fun f => significant (lookup c f)) all_factors = true ->
  (forall f, significant (lookup c f) = true -> c_direction (lookup c f) <> None) ->
  (3 <= List.length pts)%nat ->
  Exists (fun p => mp_cpi p = None) pts ->
  exists sentences,
    Forall2 (fun f s => factor_insight repr_float c f = Py.Ok s) all_factors sentences /\
    generate_macro_insights repr_float c pts
    = (List.concat sentences ++
       [String.append "Error generating macro insights: "
          "'>' not supported between instances of 'NoneType' and 'float'"])%list.
Proof.
  intros Hsig Hdir Hlen Hex.
  destruct (@factor_insight_succeeds repr_float c cpi (Hdir cpi)) as [s1 E1].
  destruct (@factor_insight_succeeds repr_float c fed_rate (Hdir fed_rate)) as [s2 E2].
  destruct (@factor_insight_succeeds repr_float c unemployment (Hdir unemployment))
    as [s3 E3].
  destruct (@factor_insight_succeeds repr_float c yield_curve (Hdir yield_curve))
    as [s4 E4].
  exists [s1; s2; s3; s4].
  assert (HF : Forall2 (fun f s => factor_insight repr_float c f = Py.Ok s)
                 all_factors [s1; s2; s3; s4]).
  { unfold all_factors. repeat constructor; assumption. }
  split; [exact HF|].
  unfold generate_macro_insights.
  rewrite Hsig. cbn [negb].
  rewrite (@factor_insights_all repr_float c all_factors [s1; s2; s3; s4] [] HF).
  cbn [app].
  destruct (Nat.leb_spec 3 (List.length pts)) as [_|H]; [|lia].
  apply Exists_exists in Hex as (p & Hin & Hp).
  unfold regime_insights.
  rewrite (@filterM_raises _ (above 3 mp_cpi) pts p
             (Py.TypeError "'>' not supported between instances of 'NoneType' and 'float'")).
  - reflexivity.
  - exact Hin.
  - unfold above, compare_factor. rewrite Hp. reflexivity.
  - intros y e'. unfold above, compare_factor.
    destruct (mp_cpi y); cbn [Py.bind]; [discriminate | now intros [= <-]].
Qed.

Lemma missing_cpi_ends_the_regime_analysis_witness :
  List.length (generate_macro_insights fmt_stub strong_cpi points_without_cpi) = 2%nat.
Proof.
  destruct (@missing_cpi_ends_the_regime_analysis fmt_stub strong_cpi points_without_cpi)
    as (sentences & _ & _).
  - reflexivity.
  - intros [] H; vm_compute in H; try discriminate H. discriminate.
  - cbn. lia.
  - right. left. reflexivity.
  - reflexivity.
Defined.

(** A significant entry without its ['direction'] key ends the
    insights at the first sentence: only the message of the missing
    key is reported. *)
Example missing_direction_ends_the_insights :
  generate_macro_insights fmt_stub strong_cpi_without_direction points_without_cpi
  = ["Error generating macro insights: 'direction'"].
Proof. reflexivity. Qed.
